(** * demo-site: the catalog's client-side logic, embedded and verified

    The repository is a React front end over a managed backend.  Two
    components hold all of its logic:

    - [UserInterface.tsx], the public read-only gallery;
    - [AdminInterface.tsx], the administration view (create, edit and
      delete demos, add tags).

    This file embeds the data model of both components, the snapshot
    handlers (tag validation, relationship enrichment), the view
    projection (search and tag filters), the colour allocator and the
    admin handlers that talk to the backend, and proves the properties
    the specification states about them. *)

From Stdlib Require Import String Ascii List Bool Arith NArith Lia.
Import ListNotations.
Local Open Scope string_scope.
Local Open Scope list_scope.

(* ================================================================== *)
(** * JavaScript strings and truthiness *)
(* ================================================================== *)

(** A JavaScript string is a sequence of UTF-16 code units.  The model
    covers the strings whose code units are all below 256 and writes
    each code unit as one [ascii]; on that range [toLowerCase] and
    [trim] below are the ECMAScript functions. *)
Module JS.

(** [ToBoolean] on a string: only the empty string is falsy. *)
Definition truthy (s : string) : bool := negb (s =? "").

(** [ToBoolean] on a field that may be [null] or [undefined]
    (modelled as [None]). *)
Definition truthyField (o : option string) : bool :=
  match o with
  | Some s => truthy s
  | None => false
  end.

(** [x || d] where [x] is a possibly absent string. *)
Definition orElse (o : option string) (d : string) : string :=
  match o with
  | Some s => if truthy s then s else d
  | None => d
  end.

(** Upper-case letters among the code units below 256: A-Z, and
    U+00C0..U+00DE without the multiplication sign U+00D7.  Each has
    its lower-case partner 32 code units above. *)
Definition isUpper (n : N) : bool :=
  ((65 <=? n) && (n <=? 90) ||
   (192 <=? n) && (n <=? 222) && negb (n =? 215))%N.

Definition lowerUnit (c : ascii) : ascii :=
  let n := N_of_ascii c in
  if isUpper n then ascii_of_N (n + 32) else c.

(** [String.prototype.toLowerCase]. *)
Fixpoint toLowerCase (s : string) : string :=
  match s with
  | EmptyString => EmptyString
  | String c s' => String (lowerUnit c) (toLowerCase s')
  end.

(** White space and line terminators among the code units below 256:
    TAB, LF, VT, FF, CR, SP and NBSP. *)
Definition isWhiteSpace (c : ascii) : bool :=
  let n := N_of_ascii c in
  ((9 <=? n) && (n <=? 13) || (n =? 32) || (n =? 160))%N.

Fixpoint trimStart (s : string) : string :=
  match s with
  | EmptyString => EmptyString
  | String c s' => if isWhiteSpace c then trimStart s' else s
  end.

Fixpoint trimEnd (s : string) : string :=
  match s with
  | EmptyString => EmptyString
  | String c s' =>
      let r := trimEnd s' in
      if isWhiteSpace c && (r =? "") then EmptyString else String c r
  end.

(** [String.prototype.trim]. *)
Definition trim (s : string) : string := trimEnd (trimStart s).

(** [s.startsWith(t)]. *)
Fixpoint startsWith (s t : string) {struct t} : bool :=
  match t with
  | EmptyString => true
  | String b t' =>
      match s with
      | EmptyString => false
      | String a s' => Ascii.eqb a b && startsWith s' t'
      end
  end.

(** [s.includes(t)]: does [t] occur in [s] at some position? *)
Fixpoint includes (s t : string) : bool :=
  startsWith s t ||
  match s with
  | EmptyString => false
  | String _ s' => includes s' t
  end.

(** [xs.includes(x)] on an array of strings. *)
Definition arrayIncludes (xs : list string) (x : string) : bool :=
  existsb (fun y => y =? x) xs.

End JS.

(* ================================================================== *)
(** * Data model (the interfaces both components declare) *)
(* ================================================================== *)

Module DemoItem.
Record t : Type := mk {
  id : string;
  projectName : option string;
  githubLink : option string;
  projectLink : option string;
  imageUrl : option string;
  createdAt : string;
  updatedAt : string
}.
End DemoItem.

Module TagItem.
Record t : Type := mk {
  id : string;
  name : string;
  color : string
}.
End TagItem.

Module DemoTagItem.
Record t : Type := mk {
  id : string;
  demoId : string;
  tagId : string;
  tag : option TagItem.t
}.
End DemoTagItem.

(* ================================================================== *)
(** * View projection and filter state (same text in both components) *)
(* ================================================================== *)

Module Projector.

(** [getFilteredDemos], with the state variables its closure reads
    ([demos], [demoTags], [searchTerm], [selectedFilterTags]) as
    arguments. *)
Definition getFilteredDemos
    (demos : list DemoItem.t) (demoTags : list DemoTagItem.t)
    (searchTerm : string) (selectedFilterTags : list string)
    : list DemoItem.t :=
  filter
    (fun demo =>
       let matchesSearch :=
         negb (JS.truthy searchTerm) ||
         match DemoItem.projectName demo with
         | Some projectName =>
             JS.truthy projectName &&
             JS.includes (JS.toLowerCase projectName)
                         (JS.toLowerCase searchTerm)
         | None => false
         end in
       let matchesTags :=
         (length selectedFilterTags =? 0)%nat ||
         forallb
           (fun filterTagId =>
              existsb
                (fun dt =>
                   (DemoTagItem.demoId dt =? DemoItem.id demo)%string &&
                   (DemoTagItem.tagId dt =? filterTagId)%string)
                demoTags)
           selectedFilterTags in
       matchesSearch && matchesTags)
    demos.

(** The updater [handleFilterTagToggle] passes to
    [setSelectedFilterTags]. *)
Definition toggle (tagId : string) (prev : list string) : list string :=
  if JS.arrayIncludes prev tagId
  then filter (fun id => negb (id =? tagId)%string) prev
  else prev ++ [tagId].

End Projector.

(* ================================================================== *)
(** * Snapshots delivered by the subscriptions *)
(* ================================================================== *)

(** A tag record as a snapshot or a point lookup delivers it.  The
    handlers guard every field against [null] and [undefined], so each
    is optional here. *)
Module RawTag.
Record t : Type := mk {
  id : option string;
  name : option string;
  color : option string
}.
End RawTag.

(** A relationship record of a [DemoTag] snapshot. *)
Module RawDemoTag.
Record t : Type := mk {
  id : string;
  demoId : option string;
  tagId : option string
}.
End RawDemoTag.

(** What [client.models.Tag.get({ id })] gives back: the promise is
    rejected, or it resolves to a response whose [data] is a record or
    [null]. *)
Inductive TagResponse : Type :=
| Rejected
| Resolved (data : option RawTag.t).

(** What [client.models.Tag.list({})] gives back: the promise is
    rejected with an error, or it resolves to a response whose [data]
    is a sequence of records (an item may be [null]) or is missing. *)
Inductive TagListResponse : Type :=
| ListRejected (message : string)
| ListResolved (data : option (list (option RawTag.t))).

Module Synchronizer.

(** [tag => tag && tag.id && tag.name], the predicate every tag
    snapshot is filtered with.  An item of the snapshot may itself be
    [null] ([None]). *)
Definition isValidTag (tag : option RawTag.t) : bool :=
  match tag with
  | Some t => JS.truthyField (RawTag.id t) && JS.truthyField (RawTag.name t)
  | None => false
  end.

Definition validTagFilter (items : list (option RawTag.t))
    : list (option RawTag.t) :=
  filter isValidTag items.

(** [tag => ({ id: tag.id, name: tag.name || "", color: tag.color ||
    fallback })].  It only runs on records that passed [isValidTag],
    whose [id] is a string; elsewhere the model reads an absent [id]
    as the empty string. *)
Definition toTagItem (fallback : string) (tag : option RawTag.t)
    : TagItem.t :=
  match tag with
  | Some t =>
      TagItem.mk (JS.orElse (RawTag.id t) "")
                 (JS.orElse (RawTag.name t) "")
                 (JS.orElse (RawTag.color t) fallback)
  | None => TagItem.mk "" "" fallback
  end.

(** The value the tag subscription stores with [setAvailableTags]. *)
Definition validTags (fallback : string) (items : list (option RawTag.t))
    : list TagItem.t :=
  map (toTagItem fallback) (validTagFilter items).

(** One round of the [for (const item of data.items)] loop of the
    [DemoTag] subscription; [enriched] is the array the loop pushes
    to, [get] the point lookup. *)
Definition enrichStep (fallback : string) (get : string -> TagResponse)
    (enriched : list DemoTagItem.t) (item : option RawDemoTag.t)
    : list DemoTagItem.t :=
  match item with
  | None => enriched
  | Some it =>
      match RawDemoTag.tagId it, RawDemoTag.demoId it with
      | Some tagId, Some demoId =>
          if negb (JS.truthy tagId) || negb (JS.truthy demoId)
          then enriched
          else
            match get tagId with
            | Resolved (Some data) =>
                if JS.truthyField (RawTag.id data) &&
                   JS.truthyField (RawTag.name data)
                then
                  enriched ++
                  [DemoTagItem.mk (RawDemoTag.id it) demoId tagId
                     (Some (toTagItem fallback (Some data)))]
                else enriched
            | Resolved None => enriched
            | Rejected => enriched
            end
      | _, _ => enriched
      end
  end.

(** The value the [DemoTag] subscription stores with [setDemoTags]. *)
Definition enrichedDemoTags (fallback : string)
    (get : string -> TagResponse) (items : list (option RawDemoTag.t))
    : list DemoTagItem.t :=
  fold_left (enrichStep fallback get) items [].

(** [getTagInfo] of the user view, [getTagNames] of the admin view:
    the name and colour of every tag the enriched relationships give
    a demo. *)
Definition getTagInfo (demoTags : list DemoTagItem.t) (demo : DemoItem.t)
    : list (string * string) :=
  flat_map
    (fun dt =>
       match DemoTagItem.tag dt with
       | Some tag => [(TagItem.name tag, TagItem.color tag)]
       | None => []
       end)
    (filter
       (fun dt =>
          (DemoTagItem.demoId dt =? DemoItem.id demo)%string &&
          match DemoTagItem.tag dt with Some _ => true | None => false end)
       demoTags).

(** A point lookup that answers from a fixed tag collection:
    [get({ id })] resolves to the first record with that id, or to
    [null]. *)
Definition lookupIn (tags : list RawTag.t) (id : string) : TagResponse :=
  Resolved
    (find (fun t =>
             match RawTag.id t with
             | Some i => (i =? id)%string
             | None => false
             end) tags).

End Synchronizer.

(* ================================================================== *)
(** * UserInterface.tsx *)
(* ================================================================== *)

Module UserInterface.

Record State : Type := mkState {
  isLoading : bool;
  demos : list DemoItem.t;
  demoTags : list DemoTagItem.t;
  availableTags : list TagItem.t;
  searchTerm : string;
  selectedFilterTags : list string
}.

Definition setDemos (v : list DemoItem.t) (s : State) : State :=
  mkState (isLoading s) v (demoTags s) (availableTags s)
          (searchTerm s) (selectedFilterTags s).
Definition setIsLoading (v : bool) (s : State) : State :=
  mkState v (demos s) (demoTags s) (availableTags s)
          (searchTerm s) (selectedFilterTags s).
Definition setDemoTags (v : list DemoTagItem.t) (s : State) : State :=
  mkState (isLoading s) (demos s) v (availableTags s)
          (searchTerm s) (selectedFilterTags s).
Definition setAvailableTags (v : list TagItem.t) (s : State) : State :=
  mkState (isLoading s) (demos s) (demoTags s) v
          (searchTerm s) (selectedFilterTags s).
Definition setSearchTerm (v : string) (s : State) : State :=
  mkState (isLoading s) (demos s) (demoTags s) (availableTags s)
          v (selectedFilterTags s).
Definition setSelectedFilterTags (f : list string -> list string)
    (s : State) : State :=
  mkState (isLoading s) (demos s) (demoTags s) (availableTags s)
          (searchTerm s) (f (selectedFilterTags s)).

(** Colour given to a tag that comes without one. *)
Definition fallbackColor : string := "#f89520".

(** [next] of the [Tag] subscription. *)
Definition tagSubscription (items : list (option RawTag.t)) (s : State)
    : State :=
  setAvailableTags (Synchronizer.validTags fallbackColor items) s.

(** [next] of the [DemoTag] subscription. *)
Definition demoTagSubscription (get : string -> TagResponse)
    (items : list (option RawDemoTag.t)) (s : State) : State :=
  setDemoTags (Synchronizer.enrichedDemoTags fallbackColor get items) s.

Definition getTagInfo (s : State) (demo : DemoItem.t)
    : list (string * string) :=
  Synchronizer.getTagInfo (demoTags s) demo.

Definition getFilteredDemos (s : State) : list DemoItem.t :=
  Projector.getFilteredDemos
    (demos s) (demoTags s) (searchTerm s) (selectedFilterTags s).

Definition handleFilterTagToggle (tagId : string) (s : State) : State :=
  setSelectedFilterTags (Projector.toggle tagId) s.

Definition clearAllFilters (s : State) : State :=
  setSelectedFilterTags (fun _ => []) (setSearchTerm "" s).

(** [next] of the [Demo] subscription: every item is copied field by
    field and stored; no item is validated or dropped. *)
Definition demoSubscription (items : list DemoItem.t) (s : State) : State :=
  setIsLoading false
    (setDemos
       (map (fun item =>
               DemoItem.mk (DemoItem.id item) (DemoItem.projectName item)
                 (DemoItem.githubLink item) (DemoItem.projectLink item)
                 (DemoItem.imageUrl item) (DemoItem.createdAt item)
                 (DemoItem.updatedAt item))
            items)
       s).

(** [loadTags], given what its one call of [Tag.list] gives back. *)
Definition loadTags (allTagsResponse : TagListResponse) (s : State)
    : State :=
  match allTagsResponse with
  | ListResolved (Some data) =>
      setAvailableTags (Synchronizer.validTags fallbackColor data) s
  | ListResolved None => setAvailableTags [] s
  | ListRejected _ => setAvailableTags [] s
  end.

(** [handleSearchChange], given [e.target.value]. *)
Definition handleSearchChange (value : string) (s : State) : State :=
  setSearchTerm value s.

End UserInterface.

(* ================================================================== *)
(** * AdminInterface.tsx: component state *)
(* ================================================================== *)

Module FormData.
Record t : Type := mk {
  projectName : string;
  githubLink : string;
  projectLink : string;
  imageUrl : string
}.
Definition empty : t := mk "" "" "" "".
End FormData.

Module FormErrors.
Record t : Type := mk {
  projectName : bool;
  githubLink : bool;
  projectLink : bool;
  imageUrl : bool;
  tags : bool
}.
End FormErrors.

Module AdminState.

(** One field per [useState] of [AdminInterface]. *)
Record t : Type := mk {
  debugInfo : string;
  isLoading : bool;
  modelExists : bool;
  demos : list DemoItem.t;
  demoTags : list DemoTagItem.t;
  availableTags : list TagItem.t;
  isFormOpen : bool;
  editingId : option string;
  searchTerm : string;
  selectedFilterTags : list string;
  isAddTagOpen : bool;
  newTagName : string;
  addTagError : bool;
  formData : FormData.t;
  selectedTags : list string;
  formErrors : FormErrors.t
}.

(** The setters take an updater, as [setX(prev => ...)] does; a
    plain [setX(v)] is the constant updater. *)
Definition setDebugInfo (f : string -> string) (s : t) : t :=
  mk (f (debugInfo s)) (isLoading s) (modelExists s) (demos s) (demoTags s)
     (availableTags s) (isFormOpen s) (editingId s) (searchTerm s)
     (selectedFilterTags s) (isAddTagOpen s) (newTagName s) (addTagError s)
     (formData s) (selectedTags s) (formErrors s).
Definition setDemoTags (f : list DemoTagItem.t -> list DemoTagItem.t)
    (s : t) : t :=
  mk (debugInfo s) (isLoading s) (modelExists s) (demos s) (f (demoTags s))
     (availableTags s) (isFormOpen s) (editingId s) (searchTerm s)
     (selectedFilterTags s) (isAddTagOpen s) (newTagName s) (addTagError s)
     (formData s) (selectedTags s) (formErrors s).
Definition setAvailableTags (f : list TagItem.t -> list TagItem.t)
    (s : t) : t :=
  mk (debugInfo s) (isLoading s) (modelExists s) (demos s) (demoTags s)
     (f (availableTags s)) (isFormOpen s) (editingId s) (searchTerm s)
     (selectedFilterTags s) (isAddTagOpen s) (newTagName s) (addTagError s)
     (formData s) (selectedTags s) (formErrors s).
Definition setIsFormOpen (f : bool -> bool) (s : t) : t :=
  mk (debugInfo s) (isLoading s) (modelExists s) (demos s) (demoTags s)
     (availableTags s) (f (isFormOpen s)) (editingId s) (searchTerm s)
     (selectedFilterTags s) (isAddTagOpen s) (newTagName s) (addTagError s)
     (formData s) (selectedTags s) (formErrors s).
Definition setEditingId (f : option string -> option string) (s : t) : t :=
  mk (debugInfo s) (isLoading s) (modelExists s) (demos s) (demoTags s)
     (availableTags s) (isFormOpen s) (f (editingId s)) (searchTerm s)
     (selectedFilterTags s) (isAddTagOpen s) (newTagName s) (addTagError s)
     (formData s) (selectedTags s) (formErrors s).
Definition setSearchTerm (f : string -> string) (s : t) : t :=
  mk (debugInfo s) (isLoading s) (modelExists s) (demos s) (demoTags s)
     (availableTags s) (isFormOpen s) (editingId s) (f (searchTerm s))
     (selectedFilterTags s) (isAddTagOpen s) (newTagName s) (addTagError s)
     (formData s) (selectedTags s) (formErrors s).
Definition setSelectedFilterTags (f : list string -> list string)
    (s : t) : t :=
  mk (debugInfo s) (isLoading s) (modelExists s) (demos s) (demoTags s)
     (availableTags s) (isFormOpen s) (editingId s) (searchTerm s)
     (f (selectedFilterTags s)) (isAddTagOpen s) (newTagName s)
     (addTagError s) (formData s) (selectedTags s) (formErrors s).
Definition setIsAddTagOpen (f : bool -> bool) (s : t) : t :=
  mk (debugInfo s) (isLoading s) (modelExists s) (demos s) (demoTags s)
     (availableTags s) (isFormOpen s) (editingId s) (searchTerm s)
     (selectedFilterTags s) (f (isAddTagOpen s)) (newTagName s)
     (addTagError s) (formData s) (selectedTags s) (formErrors s).
Definition setNewTagName (f : string -> string) (s : t) : t :=
  mk (debugInfo s) (isLoading s) (modelExists s) (demos s) (demoTags s)
     (availableTags s) (isFormOpen s) (editingId s) (searchTerm s)
     (selectedFilterTags s) (isAddTagOpen s) (f (newTagName s))
     (addTagError s) (formData s) (selectedTags s) (formErrors s).
Definition setAddTagError (f : bool -> bool) (s : t) : t :=
  mk (debugInfo s) (isLoading s) (modelExists s) (demos s) (demoTags s)
     (availableTags s) (isFormOpen s) (editingId s) (searchTerm s)
     (selectedFilterTags s) (isAddTagOpen s) (newTagName s)
     (f (addTagError s)) (formData s) (selectedTags s) (formErrors s).
Definition setFormData (f : FormData.t -> FormData.t) (s : t) : t :=
  mk (debugInfo s) (isLoading s) (modelExists s) (demos s) (demoTags s)
     (availableTags s) (isFormOpen s) (editingId s) (searchTerm s)
     (selectedFilterTags s) (isAddTagOpen s) (newTagName s) (addTagError s)
     (f (formData s)) (selectedTags s) (formErrors s).
Definition setSelectedTags (f : list string -> list string) (s : t) : t :=
  mk (debugInfo s) (isLoading s) (modelExists s) (demos s) (demoTags s)
     (availableTags s) (isFormOpen s) (editingId s) (searchTerm s)
     (selectedFilterTags s) (isAddTagOpen s) (newTagName s) (addTagError s)
     (formData s) (f (selectedTags s)) (formErrors s).
Definition setFormErrors (f : FormErrors.t -> FormErrors.t) (s : t) : t :=
  mk (debugInfo s) (isLoading s) (modelExists s) (demos s) (demoTags s)
     (availableTags s) (isFormOpen s) (editingId s) (searchTerm s)
     (selectedFilterTags s) (isAddTagOpen s) (newTagName s) (addTagError s)
     (formData s) (selectedTags s) (f (formErrors s)).

End AdminState.

(* ================================================================== *)
(** * The backend data service *)
(* ================================================================== *)

(** Modelled from the spec: the Backend Data Service, an external
    collaborator the repository only calls.  Per collection it offers
    [list(filter)], [create(fields)], [update({id, ...})] and
    [delete({id})]; a call is awaited and either resolves or is
    rejected with an error.  The model keeps the three collections as
    ordered sequences, logs every call, and lets a script decide which
    calls are rejected and which identities and time stamps new records
    get, so that a statement over all worlds covers every failure
    pattern.  One admin session talks to it; nothing else writes. *)
Module Backend.

Module DemoTagRecord.
Record t : Type := mk {
  id : string;
  demoId : string;
  tagId : string
}.
End DemoTagRecord.

Inductive Call : Type :=
| DemoCreate (fields : FormData.t)
| DemoUpdate (id : string) (fields : FormData.t)
| DemoDelete (id : string)
| DemoTagList (demoId : string)
| DemoTagCreate (demoId tagId : string)
| DemoTagDelete (id : string)
| TagCreate (name color : string).

Record World : Type := mkWorld {
  demoTable : list DemoItem.t;
  tagTable : list TagItem.t;
  demoTagTable : list DemoTagRecord.t;
  (** calls received so far, oldest first *)
  calls : list Call;
  (** [fault n = Some msg]: the call number [n] is rejected with an
      error whose message is [msg] *)
  fault : nat -> option string;
  (** identity and time stamp given to what call number [n] writes *)
  newId : nat -> string;
  stamp : nat -> string
}.

Definition withTables (w : World) (ds : list DemoItem.t)
    (ts : list TagItem.t) (dts : list DemoTagRecord.t) (c : Call) : World :=
  mkWorld ds ts dts (calls w ++ [c]) (fault w) (newId w) (stamp w).

(** The call is logged and nothing else changes. *)
Definition logged (w : World) (c : Call) : World :=
  withTables w (demoTable w) (tagTable w) (demoTagTable w) c.

End Backend.

(* ================================================================== *)
(** * Async handlers: component state, backend and exceptions *)
(* ================================================================== *)

Module Async.

Inductive Outcome (A : Type) : Type :=
| Returned (a : A)
| Thrown (message : string).
Arguments Returned {A} a.
Arguments Thrown {A} message.

(** What a handler runs over: the state the setters write, and the
    backend. *)
Definition Store : Type := (AdminState.t * Backend.World)%type.

Definition M (A : Type) : Type := Store -> Outcome A * Store.

Definition ret {A} (a : A) : M A := fun st => (Returned a, st).

Definition bind {A B} (m : M A) (k : A -> M B) : M B :=
  fun st =>
    match m st with
    | (Returned a, st') => k a st'
    | (Thrown msg, st') => (Thrown msg, st')
    end.

(** [try { body } catch (error) { handler(error.message) }]. *)
Definition tryCatch {A} (body : M A) (handler : string -> M A) : M A :=
  fun st =>
    match body st with
    | (Returned a, st') => (Returned a, st')
    | (Thrown msg, st') => handler msg st'
    end.

(** A call of a state setter. *)
Definition set (f : AdminState.t -> AdminState.t) : M unit :=
  fun st => (Returned tt, (f (fst st), snd st)).

(** An awaited backend call: logged, then rejected if the script
    says so, served otherwise. *)
Definition request {A} (c : Backend.Call)
    (serve : nat -> Backend.World -> A * Backend.World) : M A :=
  fun st =>
    let w := snd st in
    let n := length (Backend.calls w) in
    match Backend.fault w n with
    | Some msg => (Thrown msg, (fst st, Backend.logged w c))
    | None =>
        let (a, w') := serve n w in
        (Returned a, (fst st, w'))
    end.

(** [for (const x of xs) { await body(x) }]. *)
Fixpoint forEach {A} (xs : list A) (body : A -> M unit) : M unit :=
  match xs with
  | [] => ret tt
  | x :: xs' => bind (body x) (fun _ => forEach xs' body)
  end.

End Async.

Declare Scope async_scope.
Delimit Scope async_scope with async.
Notation "x <- m ;; k" := (Async.bind m (fun x => k))
  (at level 61, m at next level, right associativity) : async_scope.
Notation "m ;; k" := (Async.bind m (fun _ => k))
  (at level 61, right associativity) : async_scope.

(** Modelled from the spec: the calls of [client.models.*] the admin
    handlers make, and what each does to the backend's collections.
    A [list] resolves to all the records that match its filter, a
    [delete] removes the records with the given identity, a [create]
    appends a record under a new identity. *)
Module Client.
Import Backend.

Definition matchesId (id : string) (d : DemoItem.t) : bool :=
  (DemoItem.id d =? id)%string.

(** [Demo.create(fields)]: the response carries the new record. *)
Definition demoCreate (fields : FormData.t) : Async.M (option DemoItem.t) :=
  Async.request (DemoCreate fields)
    (fun n w =>
       let d := DemoItem.mk (newId w n)
                  (Some (FormData.projectName fields))
                  (Some (FormData.githubLink fields))
                  (Some (FormData.projectLink fields))
                  (Some (FormData.imageUrl fields))
                  (stamp w n) (stamp w n) in
       (Some d,
        withTables w (demoTable w ++ [d]) (tagTable w) (demoTagTable w)
          (DemoCreate fields))).

(** [Demo.update({ id, ...fields })]. *)
Definition demoUpdate (id : string) (fields : FormData.t) : Async.M unit :=
  Async.request (DemoUpdate id fields)
    (fun n w =>
       (tt,
        withTables w
          (map (fun d =>
                  if matchesId id d
                  then DemoItem.mk (DemoItem.id d)
                         (Some (FormData.projectName fields))
                         (Some (FormData.githubLink fields))
                         (Some (FormData.projectLink fields))
                         (Some (FormData.imageUrl fields))
                         (DemoItem.createdAt d) (stamp w n)
                  else d)
               (demoTable w))
          (tagTable w) (demoTagTable w) (DemoUpdate id fields))).

(** [Demo.delete({ id })]. *)
Definition demoDelete (id : string) : Async.M unit :=
  Async.request (DemoDelete id)
    (fun _ w =>
       (tt,
        withTables w
          (filter (fun d => negb (matchesId id d)) (demoTable w))
          (tagTable w) (demoTagTable w) (DemoDelete id))).

(** [DemoTag.list({ filter: { demoId: { eq: demoId } } })]: the
    response's [data] is the sequence of matching records. *)
Definition demoTagList (demoId : string)
    : Async.M (option (list DemoTagRecord.t)) :=
  Async.request (DemoTagList demoId)
    (fun _ w =>
       (Some (filter (fun r => (DemoTagRecord.demoId r =? demoId)%string)
                     (demoTagTable w)),
        logged w (DemoTagList demoId))).

(** [DemoTag.create({ demoId, tagId })]. *)
Definition demoTagCreate (demoId tagId : string) : Async.M unit :=
  Async.request (DemoTagCreate demoId tagId)
    (fun n w =>
       (tt,
        withTables w (demoTable w) (tagTable w)
          (demoTagTable w ++ [DemoTagRecord.mk (newId w n) demoId tagId])
          (DemoTagCreate demoId tagId))).

(** [DemoTag.delete({ id })]. *)
Definition demoTagDelete (id : string) : Async.M unit :=
  Async.request (DemoTagDelete id)
    (fun _ w =>
       (tt,
        withTables w (demoTable w) (tagTable w)
          (filter (fun r => negb (DemoTagRecord.id r =? id)%string)
                  (demoTagTable w))
          (DemoTagDelete id))).

(** [Tag.create({ name, color })]: the response carries the new
    record. *)
Definition tagCreate (name color : string) : Async.M (option RawTag.t) :=
  Async.request (TagCreate name color)
    (fun n w =>
       (Some (RawTag.mk (Some (newId w n)) (Some name) (Some color)),
        withTables w (demoTable w)
          (tagTable w ++ [TagItem.mk (newId w n) name color])
          (demoTagTable w) (TagCreate name color))).

End Client.

(* ================================================================== *)
(** * AdminInterface.tsx: handlers *)
(* ================================================================== *)

Module AdminInterface.
Import AdminState.
Local Open Scope async_scope.

(** The 10 predefined colours. *)
Definition TAG_COLORS : list string :=
  [ "#e74c3c"; "#3498db"; "#2ecc71"; "#9b59b6"; "#f39c12";
    "#1abc9c"; "#e67e22"; "#34495e"; "#27ae60"; "#8e44ad" ].

(** [TAG_COLORS[i]]; every use in the component has [i] in range. *)
Definition tagColor (i : nat) : string := nth i TAG_COLORS "".

Definition newline : string := String (ascii_of_nat 10) EmptyString.

(** How a handler left; the source's handlers all return
    [undefined], the tag only names the [return] that was taken. *)
Inductive Exit : Type :=
| Unavailable            (* the [!modelExists] guard *)
| Declined               (* [window.confirm] answered no *)
| Invalid                (* a validation guard *)
| Completed              (* the end of the [try] block *)
| Failed (message : string).  (* the [catch] block *)

Definition getNextAvailableColor (s : AdminState.t) : string :=
  let usedColors := map TagItem.color (availableTags s) in
  let availableColors :=
    filter (fun color => negb (JS.arrayIncludes usedColors color))
           TAG_COLORS in
  if (0 <? length availableColors)%nat
  then nth 0 availableColors ""
  else tagColor 0.

(** [next] of the [Tag] subscription. *)
Definition tagSubscription (items : list (option RawTag.t))
    (s : AdminState.t) : AdminState.t :=
  setAvailableTags (fun _ => Synchronizer.validTags (tagColor 0) items) s.

(** [next] of the [DemoTag] subscription; the diagnostics it appends
    to [debugInfo] for skipped items are left out. *)
Definition demoTagSubscription (get : string -> TagResponse)
    (items : list (option RawDemoTag.t)) (s : AdminState.t)
    : AdminState.t :=
  setDemoTags
    (fun _ => Synchronizer.enrichedDemoTags (tagColor 0) get items) s.

Definition getFilteredDemos (s : AdminState.t) : list DemoItem.t :=
  Projector.getFilteredDemos
    (demos s) (demoTags s) (searchTerm s) (selectedFilterTags s).

Definition handleFilterTagToggle (tagId : string) (s : AdminState.t)
    : AdminState.t :=
  setSelectedFilterTags (Projector.toggle tagId) s.

Definition clearAllFilters (s : AdminState.t) : AdminState.t :=
  setSelectedFilterTags (fun _ => []) (setSearchTerm (fun _ => "") s).

(** [handleAddTag]; [s] is the state of the render whose closure the
    handler is. *)
Definition handleAddTag (s : AdminState.t) : Async.M Exit :=
  if negb (JS.truthy (JS.trim (newTagName s))) then
    Async.set (setAddTagError (fun _ => true)) ;;
    Async.ret Invalid
  else
    let tagExists :=
      existsb
        (fun tag =>
           (JS.toLowerCase (TagItem.name tag) =?
            JS.toLowerCase (JS.trim (newTagName s)))%string)
        (availableTags s) in
    if tagExists then
      Async.set (setAddTagError (fun _ => true)) ;;
      Async.ret Invalid
    else
      Async.tryCatch
        (let nextColor := getNextAvailableColor s in
         newTag <- Client.tagCreate (JS.trim (newTagName s)) nextColor ;;
         match newTag with
         | Some data =>
             if JS.truthyField (RawTag.id data) then
               Async.set
                 (setAvailableTags
                    (fun prev =>
                       prev ++
                       [TagItem.mk (JS.orElse (RawTag.id data) "")
                                   (JS.orElse (RawTag.name data) "")
                                   (JS.orElse (RawTag.color data) nextColor)]))
             else Async.ret tt
         | None => Async.ret tt
         end ;;
         Async.set (setNewTagName (fun _ => "")) ;;
         Async.set (setIsAddTagOpen (fun _ => false)) ;;
         Async.set (setAddTagError (fun _ => false)) ;;
         Async.ret Completed)
        (fun message =>
           Async.set
             (setDebugInfo
                (fun prev =>
                   (prev ++ newline ++ "Error creating tag: " ++ message)%string)) ;;
           Async.set (setAddTagError (fun _ => true)) ;;
           Async.ret (Failed message)).

Definition validateForm (s : AdminState.t) : Async.M bool :=
  let errors :=
    FormErrors.mk
      (JS.trim (FormData.projectName (formData s)) =? "")%string
      (JS.trim (FormData.githubLink (formData s)) =? "")%string
      (JS.trim (FormData.projectLink (formData s)) =? "")%string
      (JS.trim (FormData.imageUrl (formData s)) =? "")%string
      (length (selectedTags s) =? 0)%nat in
  Async.set (setFormErrors (fun _ => errors)) ;;
  Async.ret
    (negb
       (existsb (fun error => error)
          [ FormErrors.projectName errors; FormErrors.githubLink errors;
            FormErrors.projectLink errors; FormErrors.imageUrl errors;
            FormErrors.tags errors ])).

(** [deleteDemo]; [confirm] is the answer [window.confirm] gives. *)
Definition deleteDemo (confirm : bool) (s : AdminState.t) (id : string)
    : Async.M Exit :=
  if negb (modelExists s) then
    Async.set
      (setDebugInfo
         (fun _ =>
            "Cannot delete: Demo model is not available in the backend yet.")) ;;
    Async.ret Unavailable
  else if confirm then
    Async.tryCatch
      (demoTagsResponse <- Client.demoTagList id ;;
       match demoTagsResponse with
       | Some data =>
           Async.forEach data
             (fun demoTag =>
                Client.demoTagDelete (Backend.DemoTagRecord.id demoTag))
       | None => Async.ret tt
       end ;;
       Client.demoDelete id ;;
       Async.ret Completed)
      (fun message =>
         Async.set
           (setDebugInfo
              (fun _ => ("Error deleting demo: " ++ message)%string)) ;;
         Async.ret (Failed message))
  else Async.ret Declined.

(** [handleSubmit]; [s] is the state of the render whose closure the
    handler is: what the handler reads comes from [s], what it sets
    goes to the store. *)
Definition handleSubmit (s : AdminState.t) : Async.M Exit :=
  if negb (modelExists s) then
    Async.set
      (setDebugInfo
         (fun _ =>
            "Cannot submit: Demo model is not available in the backend yet.")) ;;
    Async.ret Unavailable
  else
    valid <- validateForm s ;;
    if negb valid then Async.ret Invalid
    else
      Async.tryCatch
        (demoId <-
           (if JS.truthyField (editingId s) then
              let editing := JS.orElse (editingId s) "" in
              Client.demoUpdate editing (formData s) ;;
              existingDemoTags <- Client.demoTagList editing ;;
              match existingDemoTags with
              | Some data =>
                  Async.forEach data
                    (fun demoTag =>
                       Client.demoTagDelete
                         (Backend.DemoTagRecord.id demoTag))
              | None => Async.ret tt
              end ;;
              Async.set (setEditingId (fun _ => None)) ;;
              Async.ret editing
            else
              newDemo <- Client.demoCreate (formData s) ;;
              Async.ret (JS.orElse (option_map DemoItem.id newDemo) "")) ;;
         Async.forEach (selectedTags s)
           (fun tagId => Client.demoTagCreate demoId tagId) ;;
         Async.set (setFormData (fun _ => FormData.empty)) ;;
         Async.set (setSelectedTags (fun _ => [])) ;;
         Async.set (setIsFormOpen (fun _ => false)) ;;
         Async.ret Completed)
        (fun message =>
           Async.set
             (setDebugInfo
                (fun _ => ("Error in form submit: " ++ message)%string)) ;;
           Async.ret (Failed message)).

(** The states of the demo form the specification names, read off
    the component state. *)
Inductive FormMode : Type :=
| Closed
| OpenForCreate
| OpenForEdit (existingId : string).

Definition formMode (s : AdminState.t) : FormMode :=
  if isFormOpen s then
    if JS.truthyField (editingId s)
    then OpenForEdit (JS.orElse (editingId s) "")
    else OpenForCreate
  else Closed.

(** [getTagNames]: the badges of a demo card. *)
Definition getTagNames (s : AdminState.t) (demo : DemoItem.t)
    : list (string * string) :=
  Synchronizer.getTagInfo (demoTags s) demo.

(** [openEditForm]; the argument is [None] where the source guards
    against a missing demo. *)
Definition openEditForm (demo : option DemoItem.t) (s : AdminState.t)
    : AdminState.t :=
  match demo with
  | None => s
  | Some demo =>
      let s1 :=
        setFormData
          (fun _ =>
             FormData.mk (JS.orElse (DemoItem.projectName demo) "")
                         (JS.orElse (DemoItem.githubLink demo) "")
                         (JS.orElse (DemoItem.projectLink demo) "")
                         (JS.orElse (DemoItem.imageUrl demo) ""))
          s in
      let currentTagIds :=
        map DemoTagItem.tagId
          (filter (fun dt => (DemoTagItem.demoId dt =? DemoItem.id demo)%string)
                  (demoTags s)) in
      let s2 := setSelectedTags (fun _ => currentTagIds) s1 in
      let s3 :=
        if JS.truthy (DemoItem.id demo)
        then setEditingId (fun _ => Some (DemoItem.id demo)) s2
        else s2 in
      setIsFormOpen (fun _ => true) s3
  end.

(** The [onClick] of a card's Edit button:
    [demo.id && openEditForm(demo)]. *)
Definition editClicked (demo : DemoItem.t) (s : AdminState.t)
    : AdminState.t :=
  if JS.truthy (DemoItem.id demo) then openEditForm (Some demo) s else s.


(** The [name] attributes of the four inputs of the demo form. *)
Inductive Field : Type :=
| projectName
| githubLink
| projectLink
| imageUrl.

Definition fieldOf (f : Field) (d : FormData.t) : string :=
  match f with
  | projectName => FormData.projectName d
  | githubLink => FormData.githubLink d
  | projectLink => FormData.projectLink d
  | imageUrl => FormData.imageUrl d
  end.

(** [{ ...prev, [name]: value }] on the form data. *)
Definition withField (f : Field) (value : string) (prev : FormData.t)
    : FormData.t :=
  match f with
  | projectName =>
      FormData.mk value (FormData.githubLink prev)
        (FormData.projectLink prev) (FormData.imageUrl prev)
  | githubLink =>
      FormData.mk (FormData.projectName prev) value
        (FormData.projectLink prev) (FormData.imageUrl prev)
  | projectLink =>
      FormData.mk (FormData.projectName prev) (FormData.githubLink prev)
        value (FormData.imageUrl prev)
  | imageUrl =>
      FormData.mk (FormData.projectName prev) (FormData.githubLink prev)
        (FormData.projectLink prev) value
  end.

Definition errorOf (f : Field) (e : FormErrors.t) : bool :=
  match f with
  | projectName => FormErrors.projectName e
  | githubLink => FormErrors.githubLink e
  | projectLink => FormErrors.projectLink e
  | imageUrl => FormErrors.imageUrl e
  end.

(** [{ ...prev, [name]: false }] on the form errors. *)
Definition withoutError (f : Field) (prev : FormErrors.t) : FormErrors.t :=
  match f with
  | projectName =>
      FormErrors.mk false (FormErrors.githubLink prev)
        (FormErrors.projectLink prev) (FormErrors.imageUrl prev)
        (FormErrors.tags prev)
  | githubLink =>
      FormErrors.mk (FormErrors.projectName prev) false
        (FormErrors.projectLink prev) (FormErrors.imageUrl prev)
        (FormErrors.tags prev)
  | projectLink =>
      FormErrors.mk (FormErrors.projectName prev) (FormErrors.githubLink prev)
        false (FormErrors.imageUrl prev) (FormErrors.tags prev)
  | imageUrl =>
      FormErrors.mk (FormErrors.projectName prev) (FormErrors.githubLink prev)
        (FormErrors.projectLink prev) false (FormErrors.tags prev)
  end.

(** [handleChange], given [e.target.name] and [e.target.value]. *)
Definition handleChange (name : Field) (value : string) (s : AdminState.t)
    : AdminState.t :=
  let s1 := setFormData (withField name value) s in
  if errorOf name (formErrors s)
  then setFormErrors (withoutError name) s1
  else s1.

(** [handleTagToggle]: the updater toggles the tag in the selection
    and, from inside, clears the tags error when the new selection is
    not empty. *)
Definition handleTagToggle (tagId : string) (s : AdminState.t)
    : AdminState.t :=
  let newTags := Projector.toggle tagId (selectedTags s) in
  let s1 :=
    if (0 <? length newTags)%nat && FormErrors.tags (formErrors s)
    then
      setFormErrors
        (fun prevErrors =>
           FormErrors.mk (FormErrors.projectName prevErrors)
             (FormErrors.githubLink prevErrors)
             (FormErrors.projectLink prevErrors)
             (FormErrors.imageUrl prevErrors) false)
        s
    else s in
  setSelectedTags (fun _ => newTags) s1.


(** [handleNewTagChange], given [e.target.value]. *)
Definition handleNewTagChange (value : string) (s : AdminState.t)
    : AdminState.t :=
  let s1 := setNewTagName (fun _ => value) s in
  if addTagError s then setAddTagError (fun _ => false) s1 else s1.

(** The [onClick] of the Cancel button of the add-tag popup. *)
Definition cancelAddTag (s : AdminState.t) : AdminState.t :=
  setAddTagError (fun _ => false)
    (setNewTagName (fun _ => "")
       (setIsAddTagOpen (fun _ => false) s)).

(** [handleSearchChange], given [e.target.value]. *)
Definition handleSearchChange (value : string) (s : AdminState.t)
    : AdminState.t :=
  setSearchTerm (fun _ => value) s.

End AdminInterface.

(* ================================================================== *)
(** * AdminInterface.tsx: seeding the tags *)
(* ================================================================== *)

(** Modelled from the spec: the Tag collection of the Backend Data
    Service as [initializeTags] uses it, through [Tag.list({})] and
    [Tag.create(fields)].  As for the other collections, a call is
    awaited and either resolves or is rejected with an error, every
    call is logged, and a script decides which calls are rejected and
    which identity a new record gets; [list] resolves to all the
    records of the collection. *)
Module TagService.

Inductive Call : Type :=
| TagList
| TagCreate (name color : string).

Record World : Type := mkWorld {
  tagTable : list TagItem.t;
  calls : list Call;
  fault : nat -> option string;
  newId : nat -> string
}.

Definition Store : Type := (AdminState.t * World)%type.

Definition M (A : Type) : Type := Store -> Async.Outcome A * Store.

Definition ret {A} (a : A) : M A := fun st => (Async.Returned a, st).

Definition bind {A B} (m : M A) (k : A -> M B) : M B :=
  fun st =>
    match m st with
    | (Async.Returned a, st') => k a st'
    | (Async.Thrown msg, st') => (Async.Thrown msg, st')
    end.

Definition tryCatch {A} (body : M A) (handler : string -> M A) : M A :=
  fun st =>
    match body st with
    | (Async.Returned a, st') => (Async.Returned a, st')
    | (Async.Thrown msg, st') => handler msg st'
    end.

Definition set (f : AdminState.t -> AdminState.t) : M unit :=
  fun st => (Async.Returned tt, (f (fst st), snd st)).

Fixpoint forEach {A} (xs : list A) (body : A -> M unit) : M unit :=
  match xs with
  | [] => ret tt
  | x :: xs' => bind (body x) (fun _ => forEach xs' body)
  end.

(** [Tag.list({})]: the response's [data] holds every record. *)
Definition tagList : M (option (list (option RawTag.t))) :=
  fun st =>
    let w := snd st in
    let logged := mkWorld (tagTable w) (calls w ++ [TagList]) (fault w)
                    (newId w) in
    match fault w (length (calls w)) with
    | Some msg => (Async.Thrown msg, (fst st, logged))
    | None =>
        (Async.Returned
           (Some (map (fun tag =>
                         Some (RawTag.mk (Some (TagItem.id tag))
                                 (Some (TagItem.name tag))
                                 (Some (TagItem.color tag))))
                      (tagTable w))),
         (fst st, logged))
    end.

(** [Tag.create({ name, color })]. *)
Definition tagCreate (name color : string) : M unit :=
  fun st =>
    let w := snd st in
    let n := length (calls w) in
    match fault w n with
    | Some msg =>
        (Async.Thrown msg,
         (fst st,
          mkWorld (tagTable w) (calls w ++ [TagCreate name color]) (fault w)
            (newId w)))
    | None =>
        (Async.Returned tt,
         (fst st,
          mkWorld (tagTable w ++ [TagItem.mk (newId w n) name color])
            (calls w ++ [TagCreate name color]) (fault w) (newId w)))
    end.

(** The [predefinedTags] of [initializeTags]: name and colour. *)
Definition predefinedTags : list (string * string) :=
  [ ("Games", AdminInterface.tagColor 0);
    ("ML", AdminInterface.tagColor 1);
    ("Analytics", AdminInterface.tagColor 2);
    ("M&E", AdminInterface.tagColor 3);
    ("Generative AI", AdminInterface.tagColor 4) ].

Definition initializeTags : M unit :=
  tryCatch
    (bind tagList (fun existingTags =>
     bind
       match existingTags with
       | Some data =>
           if (length data =? 0)%nat then
             bind
               (forEach predefinedTags
                  (fun tag => tagCreate (fst tag) (snd tag)))
               (fun _ =>
                  set (AdminState.setDebugInfo
                         (fun prev =>
                            (prev ++ AdminInterface.newline
                             ++ "Predefined tags created")%string)))
           else ret tt
       | None => ret tt
       end
       (fun _ =>
     bind tagList (fun allTagsResponse =>
       match allTagsResponse with
       | Some data =>
           set (AdminState.setAvailableTags
                  (fun _ =>
                     Synchronizer.validTags (AdminInterface.tagColor 0) data))
       | None => ret tt
       end))))
    (fun message =>
       set (AdminState.setDebugInfo
              (fun prev =>
                 (prev ++ AdminInterface.newline
                  ++ "Error initializing tags: " ++ message)%string))).

End TagService.

(* ================================================================== *)
(** * The specification's vocabulary *)
(* ================================================================== *)

Module Spec.

(** [t] occurs in [s] as a substring. *)
Definition substring (t s : string) : Prop :=
  exists pre post, s = (pre ++ t ++ post)%string.

(** [name] contains [term] as a case-insensitive substring. *)
Definition containsIgnoringCase (name term : string) : Prop :=
  substring (JS.toLowerCase term) (JS.toLowerCase name).

(** Some enriched relationship links [demo] to [tagId]. *)
Definition carries (demoTags : list DemoTagItem.t) (demo : DemoItem.t)
    (tagId : string) : Prop :=
  exists dt,
    In dt demoTags /\
    DemoTagItem.demoId dt = DemoItem.id demo /\
    DemoTagItem.tagId dt = tagId.

(** The two conditions of the view projection. *)
Definition passes (demoTags : list DemoTagItem.t) (searchTerm : string)
    (selected : list string) (demo : DemoItem.t) : Prop :=
  (searchTerm = "" \/
   exists name,
     DemoItem.projectName demo = Some name /\
     containsIgnoringCase name searchTerm) /\
  (forall tagId, In tagId selected -> carries demoTags demo tagId).

(** [xs] is [ys] with some positions left out: same relative order,
    nothing repeated that was not. *)
Inductive Subsequence {A : Type} : list A -> list A -> Prop :=
| sub_nil : Subsequence [] []
| sub_keep x xs ys : Subsequence xs ys -> Subsequence (x :: xs) (x :: ys)
| sub_drop y xs ys : Subsequence xs ys -> Subsequence xs (y :: ys).

(** A field is absent when a JavaScript guard reads it as false: it
    is [null] or [undefined], or it is the empty string. *)
Definition absent (field : option string) : Prop :=
  field = None \/ field = Some "".

(** The point lookup gave no record. *)
Definition noRecord (r : TagResponse) : Prop :=
  r = Rejected \/ r = Resolved None.

(** The conditions under which enrichment leaves a relationship
    out. *)
Definition excluded (get : string -> TagResponse) (it : RawDemoTag.t)
    : Prop :=
  absent (RawDemoTag.demoId it) \/
  absent (RawDemoTag.tagId it) \/
  exists tagId,
    RawDemoTag.tagId it = Some tagId /\
    (noRecord (get tagId) \/
     exists data,
       get tagId = Resolved (Some data) /\
       (absent (RawTag.id data) \/ absent (RawTag.name data))).

(** [it] paired with the tag its reference resolves to. *)
Definition paired (fallback : string) (get : string -> TagResponse)
    (it : RawDemoTag.t) (e : DemoTagItem.t) : Prop :=
  exists demoId tagId id name color,
    RawDemoTag.demoId it = Some demoId /\
    RawDemoTag.tagId it = Some tagId /\
    get tagId = Resolved (Some (RawTag.mk (Some id) (Some name) color)) /\
    e = DemoTagItem.mk (RawDemoTag.id it) demoId tagId
          (Some (TagItem.mk id name (JS.orElse color fallback))).

(** Some existing tag uses the colour. *)
Definition colorUsed (tags : list TagItem.t) (color : string) : Prop :=
  exists tag, In tag tags /\ TagItem.color tag = color.

(** Some existing tag's name matches the proposed name, the proposed
    name trimmed and both compared without regard to case. *)
Definition nameTaken (tags : list TagItem.t) (proposed : string) : Prop :=
  exists tag,
    In tag tags /\
    JS.toLowerCase (TagItem.name tag) = JS.toLowerCase (JS.trim proposed).

(** No relationship of the backend references the demo. *)
Definition noRelationshipOf (w : Backend.World) (demoId : string) : Prop :=
  forall r,
    In r (Backend.demoTagTable w) ->
    Backend.DemoTagRecord.demoId r <> demoId.

End Spec.

(* ================================================================== *)
(** * Notions the proofs use *)
(* ================================================================== *)

(** What one item of a [DemoTag] snapshot adds to the enriched array:
    a round of the loop run on the empty array. *)
Definition contribution (fallback : string) (get : string -> TagResponse)
    (item : option RawDemoTag.t) : list DemoTagItem.t :=
  Synchronizer.enrichStep fallback get [] item.

(** A stored tag, read back as a record of a snapshot. *)
Definition asRawTag (tag : TagItem.t) : option RawTag.t :=
  Some (RawTag.mk (Some (TagItem.id tag)) (Some (TagItem.name tag))
          (Some (TagItem.color tag))).

(** The handler leaves the component state alone, whatever its
    outcome. *)
Definition keepsState {A} (m : Async.M A) : Prop :=
  forall st o st', m st = (o, st') -> fst st' = fst st.

(** The relationships the backend lists for a demo. *)
Definition linksOf (w : Backend.World) (demoId : string)
    : list Backend.DemoTagRecord.t :=
  filter (fun r => (Backend.DemoTagRecord.demoId r =? demoId)%string)
         (Backend.demoTagTable w).

(** [r] is none of the records in [rs], by identity. *)
Definition notAmong (rs : list Backend.DemoTagRecord.t)
    (r : Backend.DemoTagRecord.t) : bool :=
  negb (existsb
          (fun x =>
             (Backend.DemoTagRecord.id r =? Backend.DemoTagRecord.id x)%string)
          rs).

(** The deletions a loop over [rs] asks the backend for. *)
Definition deleteCalls (rs : list Backend.DemoTagRecord.t)
    : list Backend.Call :=
  map (fun r => Backend.DemoTagDelete (Backend.DemoTagRecord.id r)) rs.

(** The first part of the [try] block of [handleSubmit]: what it does
    before the new relationships are created. *)
Definition prepareDemo (s : AdminState.t) : Async.M string :=
  (if JS.truthyField (AdminState.editingId s) then
     let editing := JS.orElse (AdminState.editingId s) "" in
     Client.demoUpdate editing (AdminState.formData s) ;;
     existingDemoTags <- Client.demoTagList editing ;;
     match existingDemoTags with
     | Some data =>
         Async.forEach data
           (fun demoTag =>
              Client.demoTagDelete (Backend.DemoTagRecord.id demoTag))
     | None => Async.ret tt
     end ;;
     Async.set (AdminState.setEditingId (fun _ => None)) ;;
     Async.ret editing
   else
     newDemo <- Client.demoCreate (AdminState.formData s) ;;
     Async.ret (JS.orElse (option_map DemoItem.id newDemo) ""))%async.

(** Every code unit of the string is white space: what a required
    field of the demo form must not be. *)
Fixpoint allWhiteSpace (s : string) : bool :=
  match s with
  | EmptyString => true
  | String c s' => JS.isWhiteSpace c && allWhiteSpace s'
  end.

(** The demo has a project name that is not empty. *)
Definition named (demo : DemoItem.t) : Prop :=
  exists name, DemoItem.projectName demo = Some name /\ name <> "".

(** The error flags [validateForm] computes, and its verdict. *)
Definition formErrorsOf (s : AdminState.t) : FormErrors.t :=
  FormErrors.mk
    (JS.trim (FormData.projectName (AdminState.formData s)) =? "")%string
    (JS.trim (FormData.githubLink (AdminState.formData s)) =? "")%string
    (JS.trim (FormData.projectLink (AdminState.formData s)) =? "")%string
    (JS.trim (FormData.imageUrl (AdminState.formData s)) =? "")%string
    (length (AdminState.selectedTags s) =? 0)%nat.

Definition formValid (s : AdminState.t) : bool :=
  negb (FormErrors.projectName (formErrorsOf s) ||
        FormErrors.githubLink (formErrorsOf s) ||
        FormErrors.projectLink (formErrorsOf s) ||
        FormErrors.imageUrl (formErrorsOf s) ||
        FormErrors.tags (formErrorsOf s)).

(** Some required field of the demo form is blank, or no tag is
    selected. *)
Definition formIncomplete (s : AdminState.t) : Prop :=
  allWhiteSpace (FormData.projectName (AdminState.formData s)) = true \/
  allWhiteSpace (FormData.githubLink (AdminState.formData s)) = true \/
  allWhiteSpace (FormData.projectLink (AdminState.formData s)) = true \/
  allWhiteSpace (FormData.imageUrl (AdminState.formData s)) = true \/
  AdminState.selectedTags s = [].

(** What the end of the [try] block of [handleSubmit] does to the
    form. *)
Definition formCleared (s : AdminState.t) : AdminState.t :=
  AdminState.setIsFormOpen (fun _ => false)
    (AdminState.setSelectedTags (fun _ => [])
       (AdminState.setFormData (fun _ => FormData.empty) s)).

(** The backend keeps its script: later calls fail, and are given
    identities and time stamps, as they would have been. *)
Definition sameScript (w w' : Backend.World) : Prop :=
  Backend.fault w' = Backend.fault w /\
  Backend.newId w' = Backend.newId w /\
  Backend.stamp w' = Backend.stamp w.

(** The demo record [Demo.create] and [Demo.update] write. *)
Definition demoWritten (id : string) (fields : FormData.t)
    (createdAt updatedAt : string) : DemoItem.t :=
  DemoItem.mk id
    (Some (FormData.projectName fields)) (Some (FormData.githubLink fields))
    (Some (FormData.projectLink fields)) (Some (FormData.imageUrl fields))
    createdAt updatedAt.

(** The relationships a loop of [DemoTag.create] calls writes for a
    demo, one per tag, the first call being call number [n]. *)
Fixpoint linksCreated (newId : nat -> string) (n : nat) (demoId : string)
    (tags : list string) : list Backend.DemoTagRecord.t :=
  match tags with
  | [] => []
  | tagId :: tags' =>
      Backend.DemoTagRecord.mk (newId n) demoId tagId
      :: linksCreated newId (S n) demoId tags'
  end.

(** [Demo.update] on the demo table. *)
Definition demosUpdated (id : string) (fields : FormData.t) (at_ : string)
    (ds : list DemoItem.t) : list DemoItem.t :=
  map (fun d =>
         if Client.matchesId id d
         then demoWritten (DemoItem.id d) fields (DemoItem.createdAt d) at_
         else d)
      ds.

(** The names of the tags, taken to lower case: what the uniqueness
    check of the add-tag popup compares. *)
Definition lowerNames (tags : list TagItem.t) : list string :=
  map (fun tag => JS.toLowerCase (TagItem.name tag)) tags.

(** What the end of the [try] block of [handleAddTag] does to the
    popup. *)
Definition popupClosed (s : AdminState.t) : AdminState.t :=
  AdminState.setAddTagError (fun _ => false)
    (AdminState.setIsAddTagOpen (fun _ => false)
       (AdminState.setNewTagName (fun _ => "") s)).

(** The tags a loop of [Tag.create] calls writes, the first call being
    call number [n]. *)
Fixpoint seeded (newId : nat -> string) (n : nat)
    (tags : list (string * string)) : list TagItem.t :=
  match tags with
  | [] => []
  | tag :: tags' =>
      TagItem.mk (newId n) (fst tag) (snd tag) :: seeded newId (S n) tags'
  end.

(* ================================================================== *)
(** * Example states *)
(* ================================================================== *)

(** A demo with a name and nothing else, and an enriched relationship
    between a demo and a tag. *)
Definition exampleDemo (id name : string) : DemoItem.t :=
  DemoItem.mk id (Some name) None None None "" "".

Definition exampleLink (id demoId tagId tagName : string) : DemoTagItem.t :=
  DemoTagItem.mk id demoId tagId
    (Some (TagItem.mk tagId tagName "#e74c3c")).

(** The user view of the filter-conjunction example: d1 (Alpha)
    carries tagA and tagB, d2 (Beta) carries tagA. *)
Definition exampleView (searchTerm : string) (selected : list string)
    : UserInterface.State :=
  UserInterface.mkState false
    [exampleDemo "d1" "Alpha"; exampleDemo "d2" "Beta"]
    [exampleLink "r1" "d1" "tagA" "A"; exampleLink "r2" "d1" "tagB" "B";
     exampleLink "r3" "d2" "tagA" "A"]
    [TagItem.mk "tagA" "A" "#e74c3c"; TagItem.mk "tagB" "B" "#e74c3c"]
    searchTerm selected.

(** The relationship of the enrichment-exclusion example, and a user
    view that has received nothing yet. *)
Definition danglingLink : option RawDemoTag.t :=
  Some (RawDemoTag.mk "r1" (Some "d1") (Some "missing")).

Definition emptyView : UserInterface.State :=
  UserInterface.mkState true [] [] [] "" [].

(** An admin view at rest whose available tags are [tags]. *)
Definition adminWithTags (tags : list TagItem.t) : AdminState.t :=
  AdminState.mk "" false true [] [] tags false None "" [] false "" false
    FormData.empty [] (FormErrors.mk false false false false false).

(** One tag per colour. *)
Definition tagsColoured (colors : list string) : list TagItem.t :=
  map (fun c => TagItem.mk c c c) colors.

(** The add-tag popup with [typed] in its input, while one tag, named
    [existing], is available. *)
Definition addTagPopup (existing typed : string) : AdminState.t :=
  AdminState.mk "" false true [] []
    [TagItem.mk "t1" existing "#e74c3c"] false None "" [] true typed false
    FormData.empty [] (FormErrors.mk false false false false false).

(** A backend with the given collections in which no call fails. *)
Definition quietWorld (ds : list DemoItem.t) (ts : list TagItem.t)
    (dts : list Backend.DemoTagRecord.t) : Backend.World :=
  Backend.mkWorld ds ts dts [] (fun _ => None)
    (fun n => String (ascii_of_nat (48 + n)) "-new") (fun _ => "now").

(** The backend of the cascade example: demo d1 with two
    relationships, demo d2 with one; and what is left of it after the
    admin deleted d1. *)
Definition cascadeWorld : Backend.World :=
  quietWorld
    [exampleDemo "d1" "Alpha"; exampleDemo "d2" "Beta"]
    [TagItem.mk "tagA" "A" "#e74c3c"; TagItem.mk "tagB" "B" "#3498db"]
    [Backend.DemoTagRecord.mk "r1" "d1" "tagA";
     Backend.DemoTagRecord.mk "r2" "d1" "tagB";
     Backend.DemoTagRecord.mk "r3" "d2" "tagA"].

Definition afterCascade : Async.Store :=
  snd (AdminInterface.deleteDemo true (adminWithTags []) "d1"
         (adminWithTags [], cascadeWorld)).

(** The form as [openEditForm] leaves it for demo d1, the admin having
    renamed the project and chosen tagB in place of tagA. *)
Definition editedFields : FormData.t :=
  FormData.mk "Alpha 2" "https://github.com/acme/alpha"
    "https://alpha.example.com" "https://alpha.example.com/shot.png".

Definition editForm : AdminState.t :=
  AdminState.mk "" false true
    [exampleDemo "d1" "Alpha"]
    [exampleLink "r1" "d1" "tagA" "A"]
    [TagItem.mk "tagA" "A" "#e74c3c"; TagItem.mk "tagB" "B" "#3498db"]
    true (Some "d1") "" [] false "" false
    editedFields ["tagB"]
    (FormErrors.mk false false false false false).

(** A backend that rejects the fourth call it receives (the calls are
    numbered from 0), and no other. *)
Definition flakyWorld : Backend.World :=
  Backend.mkWorld
    [exampleDemo "d1" "Alpha"]
    [TagItem.mk "tagA" "A" "#e74c3c"; TagItem.mk "tagB" "B" "#3498db"]
    [Backend.DemoTagRecord.mk "r1" "d1" "tagA"]
    []
    (fun n => if (n =? 3)%nat then Some "Network error" else None)
    (fun n => String (ascii_of_nat (48 + n)) "-new")
    (fun _ => "now").

(** The admin submits [editForm] to [flakyWorld], then submits again
    what the form still shows. *)
Definition afterFailedEdit : Async.Outcome AdminInterface.Exit * Async.Store :=
  AdminInterface.handleSubmit editForm (editForm, flakyWorld).

Definition afterRetry : Async.Outcome AdminInterface.Exit * Async.Store :=
  AdminInterface.handleSubmit (fst (snd afterFailedEdit)) (snd afterFailedEdit).

(** The demo form open for a creation, filled in, with tagA and tagB
    selected; and the same form with a project name of blanks. *)
Definition createForm : AdminState.t :=
  AdminState.mk "" false true
    [exampleDemo "d1" "Alpha"] [exampleLink "r1" "d1" "tagA" "A"]
    [TagItem.mk "tagA" "A" "#e74c3c"; TagItem.mk "tagB" "B" "#3498db"]
    true None "" [] false "" false
    editedFields ["tagA"; "tagB"]
    (FormErrors.mk false false false false false).

Definition blankNameForm : AdminState.t :=
  AdminState.setFormData
    (fun d =>
       FormData.mk "   " (FormData.githubLink d) (FormData.projectLink d)
         (FormData.imageUrl d))
    createForm.

(** [createForm] submitted to [cascadeWorld]. *)
Definition afterCreate : Async.Outcome AdminInterface.Exit * Async.Store :=
  AdminInterface.handleSubmit createForm (createForm, cascadeWorld).

(** A backend that holds d1 with its relationship to tagA and in
    which no call fails, and [editForm] submitted to it. *)
Definition editWorld : Backend.World :=
  quietWorld
    [exampleDemo "d1" "Alpha"; exampleDemo "d2" "Beta"]
    [TagItem.mk "tagA" "A" "#e74c3c"; TagItem.mk "tagB" "B" "#3498db"]
    [Backend.DemoTagRecord.mk "r1" "d1" "tagA";
     Backend.DemoTagRecord.mk "r3" "d2" "tagA"].

Definition afterEdit : Async.Outcome AdminInterface.Exit * Async.Store :=
  AdminInterface.handleSubmit editForm (editForm, editWorld).

(** [cascadeWorld] with a script that rejects the third call (the
    calls are numbered from 0), and the deletion of d1 tried on it. *)
Definition halfwayWorld : Backend.World :=
  Backend.mkWorld (Backend.demoTable cascadeWorld)
    (Backend.tagTable cascadeWorld) (Backend.demoTagTable cascadeWorld) []
    (fun n => if (n =? 2)%nat then Some "Timeout" else None)
    (Backend.newId cascadeWorld) (Backend.stamp cascadeWorld).

Definition afterFailedDelete
    : Async.Outcome AdminInterface.Exit * Async.Store :=
  AdminInterface.deleteDemo true (adminWithTags []) "d1"
    (adminWithTags [], halfwayWorld).

(** A backend without records that rejects every call. *)
Definition downWorld : Backend.World :=
  Backend.mkWorld [] [] [] [] (fun _ => Some "Service unavailable")
    (fun n => String (ascii_of_nat (48 + n)) "-new") (fun _ => "now").

(** A tag collection without records in which no call fails, and one
    in which the third creation (call number 3) is rejected. *)
Definition emptyTagWorld : TagService.World :=
  TagService.mkWorld [] [] (fun _ => None)
    (fun n => String (ascii_of_nat (48 + n)) "-tag").

Definition stumblingTagWorld : TagService.World :=
  TagService.mkWorld [] []
    (fun n => if (n =? 3)%nat then Some "Throttled" else None)
    (fun n => String (ascii_of_nat (48 + n)) "-tag").

(* ================================================================== *)
(** * Strings *)
(* ================================================================== *)

Lemma truthy_true_iff (s : string) : JS.truthy s = true <-> s <> "".
Proof.
  unfold JS.truthy. destruct (String.eqb_spec s ""); simpl; split;
    congruence.
Qed.

Lemma truthy_false_iff (s : string) : JS.truthy s = false <-> s = "".
Proof.
  unfold JS.truthy. destruct (String.eqb_spec s ""); simpl; split;
    congruence.
Qed.

Lemma truthyField_false_iff (o : option string) :
  JS.truthyField o = false <-> Spec.absent o.
Proof.
  unfold Spec.absent. destruct o as [s|]; simpl.
  - rewrite truthy_false_iff. split.
    + intros ->. now right.
    + intros [H|H]; congruence.
  - split; auto.
Qed.

Lemma toLowerCase_empty_iff (s : string) :
  JS.toLowerCase s = "" <-> s = "".
Proof.
  destruct s; simpl; split; congruence.
Qed.

Lemma startsWith_iff (s t : string) :
  JS.startsWith s t = true <-> exists post, s = (t ++ post)%string.
Proof.
  revert s. induction t as [|b t IH]; intros s; simpl.
  - split; [intros _; now exists s | reflexivity].
  - destruct s as [|a s].
    + split; [discriminate | intros (post & E); discriminate].
    + rewrite andb_true_iff, IH. split.
      * intros (Hab & post & ->). apply Ascii.eqb_eq in Hab. subst.
        now exists post.
      * intros (post & E). injection E as -> ->. split.
        -- apply Ascii.eqb_refl.
        -- now exists post.
Qed.

(** [includes] decides the occurrence of a substring. *)
Lemma includes_iff (s t : string) :
  JS.includes s t = true <-> Spec.substring t s.
Proof.
  unfold Spec.substring. induction s as [|a s IH].
  - simpl. rewrite orb_false_r, startsWith_iff. split.
    + intros (post & E). now exists "", post.
    + intros (pre & post & E). destruct pre; [|discriminate].
      now exists post.
  - simpl JS.includes. rewrite orb_true_iff, IH, startsWith_iff. split.
    + intros [(post & E)|(pre & post & E)].
      * now exists "", post.
      * exists (String a pre), post. simpl. now rewrite E.
    + intros (pre & post & E). destruct pre as [|c pre].
      * left. now exists post.
      * right. simpl in E. injection E as _ E. now exists pre, post.
Qed.

(* ================================================================== *)
(** * View projection *)
(* ================================================================== *)

Section Projection.

Variable demoTags : list DemoTagItem.t.
Variable searchTerm : string.
Variable selected : list string.

Lemma substring_of_empty (t : string) : Spec.substring t "" -> t = "".
Proof.
  intros (pre & post & E). destruct pre; [|discriminate].
  destruct t; [reflexivity | discriminate].
Qed.

Lemma matchesSearch_iff (demo : DemoItem.t) :
  negb (JS.truthy searchTerm) ||
  match DemoItem.projectName demo with
  | Some projectName =>
      JS.truthy projectName &&
      JS.includes (JS.toLowerCase projectName) (JS.toLowerCase searchTerm)
  | None => false
  end = true
  <->
  (searchTerm = "" \/
   exists name,
     DemoItem.projectName demo = Some name /\
     Spec.containsIgnoringCase name searchTerm).
Proof.
  unfold Spec.containsIgnoringCase.
  destruct (JS.truthy searchTerm) eqn:Ht; simpl.
  - apply truthy_true_iff in Ht.
    destruct (DemoItem.projectName demo) as [name|].
    + rewrite andb_true_iff, includes_iff, truthy_true_iff. split.
      * intros [_ H]. right. now exists name.
      * intros [E|(name' & E & H)]; [contradiction|].
        injection E as <-. split; [|exact H].
        intros ->. apply substring_of_empty in H.
        apply (proj1 (toLowerCase_empty_iff _)) in H. exact (Ht H).
    + split; [discriminate|].
      intros [E|(name & E & _)]; [contradiction | discriminate].
  - apply truthy_false_iff in Ht. split; auto.
Qed.

Lemma matchesTags_iff (demo : DemoItem.t) :
  (length selected =? 0)%nat ||
  forallb
    (fun filterTagId =>
       existsb
         (fun dt =>
            (DemoTagItem.demoId dt =? DemoItem.id demo)%string &&
            (DemoTagItem.tagId dt =? filterTagId)%string)
         demoTags)
    selected = true
  <->
  (forall tagId, In tagId selected -> Spec.carries demoTags demo tagId).
Proof.
  unfold Spec.carries.
  assert (Hall :
    forallb
      (fun filterTagId =>
         existsb
           (fun dt =>
              (DemoTagItem.demoId dt =? DemoItem.id demo)%string &&
              (DemoTagItem.tagId dt =? filterTagId)%string)
           demoTags)
      selected = true
    <-> (forall tagId, In tagId selected ->
           exists dt, In dt demoTags /\
             DemoTagItem.demoId dt = DemoItem.id demo /\
             DemoTagItem.tagId dt = tagId)).
  { rewrite forallb_forall. split; intros H tagId Hin.
    - apply H in Hin. apply existsb_exists in Hin.
      destruct Hin as (dt & Hdt & Hb). apply andb_true_iff in Hb.
      destruct Hb as [H1 H2]. apply String.eqb_eq in H1, H2.
      now exists dt.
    - apply existsb_exists. destruct (H tagId Hin) as (dt & Hdt & H1 & H2).
      exists dt. split; [exact Hdt|].
      apply andb_true_iff. split; now apply String.eqb_eq. }
  rewrite orb_true_iff, Hall. split.
  - intros [Hlen|H]; [|exact H].
    apply Nat.eqb_eq in Hlen. destruct selected; [|discriminate].
    intros tagId [].
  - intros H. now right.
Qed.

(** A demo is in the projection exactly when it is in the input and
    passes both conditions. *)
Lemma getFilteredDemos_In (demos : list DemoItem.t) (demo : DemoItem.t) :
  In demo (Projector.getFilteredDemos demos demoTags searchTerm selected)
  <-> In demo demos /\ Spec.passes demoTags searchTerm selected demo.
Proof.
  unfold Projector.getFilteredDemos, Spec.passes.
  rewrite filter_In. cbv zeta.
  rewrite andb_true_iff, matchesSearch_iff, matchesTags_iff.
  reflexivity.
Qed.

End Projection.

Lemma filter_Subsequence {A : Type} (p : A -> bool) (xs : list A) :
  Spec.Subsequence (filter p xs) xs.
Proof.
  induction xs as [|x xs IH]; simpl.
  - constructor.
  - destruct (p x); now constructor.
Qed.

Lemma filter_all {A : Type} (p : A -> bool) (xs : list A) :
  (forall x, p x = true) -> filter p xs = xs.
Proof.
  intros Hp. induction xs as [|x xs IH]; simpl.
  - reflexivity.
  - now rewrite Hp, IH.
Qed.

Lemma getFilteredDemos_cleared (demos : list DemoItem.t)
    (demoTags : list DemoTagItem.t) :
  Projector.getFilteredDemos demos demoTags "" [] = demos.
Proof.
  unfold Projector.getFilteredDemos. now apply filter_all.
Qed.

(** C1. A demo of the input is in the result of [getFilteredDemos], in
    the user view and in the admin view alike, if and only if (a) the
    search term is empty or the demo has a project name that contains
    the search term as a case-insensitive substring, and (b) for every
    selected tag identifier some enriched relationship links the demo
    to it.  With demos d1 (Alpha, tagA and tagB) and d2 (Beta, tagA)
    and the selection tagA, tagB the result is exactly d1. *)
Theorem C1_getFilteredDemos_characterisation :
  (forall (s : UserInterface.State) (demo : DemoItem.t),
     In demo (UserInterface.getFilteredDemos s) <->
     In demo (UserInterface.demos s) /\
     Spec.passes (UserInterface.demoTags s) (UserInterface.searchTerm s)
       (UserInterface.selectedFilterTags s) demo) /\
  (forall (s : AdminState.t) (demo : DemoItem.t),
     In demo (AdminInterface.getFilteredDemos s) <->
     In demo (AdminState.demos s) /\
     Spec.passes (AdminState.demoTags s) (AdminState.searchTerm s)
       (AdminState.selectedFilterTags s) demo) /\
  UserInterface.getFilteredDemos (exampleView "" ["tagA"; "tagB"])
  = [exampleDemo "d1" "Alpha"].
Proof.
  split; [|split].
  - intros s demo. apply getFilteredDemos_In.
  - intros s demo. apply getFilteredDemos_In.
  - reflexivity.
Qed.

(** C6. The result of [getFilteredDemos] is a subsequence of the input
    demo sequence: the demos that pass keep their relative order and
    none is repeated. *)
Theorem C6_getFilteredDemos_subsequence :
  (forall s : UserInterface.State,
     Spec.Subsequence (UserInterface.getFilteredDemos s)
                      (UserInterface.demos s)) /\
  (forall s : AdminState.t,
     Spec.Subsequence (AdminInterface.getFilteredDemos s)
                      (AdminState.demos s)).
Proof.
  split; intros s; apply filter_Subsequence.
Qed.

(** C10. After [clearAllFilters], [getFilteredDemos] returns the whole
    demo sequence unchanged, whatever the demos and the enriched
    relationships are. *)
Theorem C10_cleared_filters_show_all :
  (forall s : UserInterface.State,
     UserInterface.getFilteredDemos (UserInterface.clearAllFilters s)
     = UserInterface.demos s) /\
  (forall s : AdminState.t,
     AdminInterface.getFilteredDemos (AdminInterface.clearAllFilters s)
     = AdminState.demos s).
Proof.
  split; intros s; apply getFilteredDemos_cleared.
Qed.

(** Search is case-insensitive: the demo named "RoboTax" matches the
    search term "robo", and the demo named "Alpha" does not. *)
Example search_RoboTax :
  Projector.getFilteredDemos
    [exampleDemo "d1" "Alpha"; exampleDemo "d2" "RoboTax"] [] "robo" []
  = [exampleDemo "d2" "RoboTax"].
Proof. reflexivity. Qed.

(* ================================================================== *)
(** * Filter state *)
(* ================================================================== *)

Lemma arrayIncludes_iff (xs : list string) (x : string) :
  JS.arrayIncludes xs x = true <-> In x xs.
Proof.
  unfold JS.arrayIncludes. rewrite existsb_exists. split.
  - intros (y & Hy & E). apply String.eqb_eq in E. now subst.
  - intros H. exists x. split; [exact H | apply String.eqb_refl].
Qed.

Lemma arrayIncludes_false_iff (xs : list string) (x : string) :
  JS.arrayIncludes xs x = false <-> ~ In x xs.
Proof.
  rewrite <- arrayIncludes_iff. destruct (JS.arrayIncludes xs x);
    split; congruence.
Qed.

Lemma In_without (tagId id : string) (xs : list string) :
  In id (filter (fun i => negb (i =? tagId)%string) xs)
  <-> In id xs /\ id <> tagId.
Proof.
  rewrite filter_In, negb_true_iff. split; intros [H1 H2]; split; auto.
  - intros ->. now rewrite String.eqb_refl in H2.
  - now apply String.eqb_neq.
Qed.

Lemma toggle_present (tagId : string) (prev : list string) :
  In tagId prev ->
  Projector.toggle tagId prev
  = filter (fun id => negb (id =? tagId)%string) prev.
Proof.
  intros H. unfold Projector.toggle.
  now rewrite (proj2 (arrayIncludes_iff _ _) H).
Qed.

Lemma toggle_absent (tagId : string) (prev : list string) :
  ~ In tagId prev -> Projector.toggle tagId prev = prev ++ [tagId].
Proof.
  intros H. unfold Projector.toggle.
  now rewrite (proj2 (arrayIncludes_false_iff _ _) H).
Qed.

Lemma In_dec_string (x : string) (xs : list string) :
  In x xs \/ ~ In x xs.
Proof.
  destruct (in_dec string_dec x xs); auto.
Qed.

(** Membership after one toggle. *)
Lemma toggle_In (tagId id : string) (prev : list string) :
  In id (Projector.toggle tagId prev)
  <-> (id <> tagId /\ In id prev) \/ (id = tagId /\ ~ In tagId prev).
Proof.
  destruct (In_dec_string tagId prev) as [H|H].
  - rewrite (toggle_present _ _ H), In_without. split.
    + intros [H1 H2]. now left.
    + intros [[H1 H2]|[_ H2]]; [now split | contradiction].
  - rewrite (toggle_absent _ _ H), in_app_iff. simpl. split.
    + intros [H1|[<-|[]]].
      * left. split; [|exact H1]. intros ->. contradiction.
      * now right.
    + intros [[_ H1]|[-> _]]; [now left | right; now left].
Qed.

Lemma toggle_twice_In (tagId id : string) (prev : list string) :
  In id (Projector.toggle tagId (Projector.toggle tagId prev))
  <-> In id prev.
Proof.
  rewrite !toggle_In.
  destruct (string_dec id tagId) as [->|Hne];
    destruct (In_dec_string tagId prev) as [H|H]; split; intros; tauto.
Qed.

(** C9. [handleFilterTagToggle] flips the membership of the toggled
    tag id and of no other: the id is filtered out of the selection
    if it was in it and appended if it was not; every other id is
    selected afterwards exactly if it was before; and after two
    toggles of the same id the same ids are selected as at the
    start. *)
Theorem C9_toggle_flips_membership :
  forall (tagId : string),
    (forall s : UserInterface.State,
       let prev := UserInterface.selectedFilterTags s in
       let next :=
         UserInterface.selectedFilterTags
           (UserInterface.handleFilterTagToggle tagId s) in
       let again :=
         UserInterface.selectedFilterTags
           (UserInterface.handleFilterTagToggle tagId
              (UserInterface.handleFilterTagToggle tagId s)) in
       (In tagId prev ->
        next = filter (fun id => negb (id =? tagId)%string) prev) /\
       (~ In tagId prev -> next = prev ++ [tagId]) /\
       (In tagId next <-> ~ In tagId prev) /\
       (forall id, id <> tagId -> (In id next <-> In id prev)) /\
       (forall id, In id again <-> In id prev)) /\
    (forall s : AdminState.t,
       let prev := AdminState.selectedFilterTags s in
       let next :=
         AdminState.selectedFilterTags
           (AdminInterface.handleFilterTagToggle tagId s) in
       let again :=
         AdminState.selectedFilterTags
           (AdminInterface.handleFilterTagToggle tagId
              (AdminInterface.handleFilterTagToggle tagId s)) in
       (In tagId prev ->
        next = filter (fun id => negb (id =? tagId)%string) prev) /\
       (~ In tagId prev -> next = prev ++ [tagId]) /\
       (In tagId next <-> ~ In tagId prev) /\
       (forall id, id <> tagId -> (In id next <-> In id prev)) /\
       (forall id, In id again <-> In id prev)).
Proof.
  intros tagId.
  assert (core : forall prev : list string,
    (In tagId prev ->
     Projector.toggle tagId prev
     = filter (fun id => negb (id =? tagId)%string) prev) /\
    (~ In tagId prev -> Projector.toggle tagId prev = prev ++ [tagId]) /\
    (In tagId (Projector.toggle tagId prev) <-> ~ In tagId prev) /\
    (forall id, id <> tagId ->
       (In id (Projector.toggle tagId prev) <-> In id prev)) /\
    (forall id,
       In id (Projector.toggle tagId (Projector.toggle tagId prev))
       <-> In id prev)).
  { intros prev. repeat split.
    - apply toggle_present.
    - apply toggle_absent.
    - rewrite toggle_In. tauto.
    - rewrite toggle_In. tauto.
    - rewrite toggle_In. tauto.
    - rewrite toggle_In. tauto.
    - apply toggle_twice_In.
    - apply toggle_twice_In. }
  split; intros s; cbv zeta;
    [ apply (core (UserInterface.selectedFilterTags s))
    | apply (core (AdminState.selectedFilterTags s)) ].
Qed.

Lemma filter_all_In {A : Type} (p : A -> bool) (xs : list A) :
  (forall x, In x xs -> p x = true) -> filter p xs = xs.
Proof.
  induction xs as [|x xs IH]; intros Hp; simpl.
  - reflexivity.
  - rewrite (Hp x (or_introl eq_refl)). f_equal. apply IH.
    intros y Hy. apply Hp. now right.
Qed.

(** When the toggled id was not selected, two toggles give back the
    very same sequence; when it was, the id moves to the end. *)
Lemma toggle_twice_absent (tagId : string) (prev : list string) :
  ~ In tagId prev ->
  Projector.toggle tagId (Projector.toggle tagId prev) = prev.
Proof.
  intros H. rewrite (toggle_absent _ _ H), toggle_present.
  - rewrite filter_app. simpl. rewrite String.eqb_refl. simpl.
    rewrite app_nil_r. apply filter_all_In.
    intros x Hx. apply negb_true_iff, String.eqb_neq. intros ->.
    contradiction.
  - apply in_app_iff. right. now left.
Qed.

(* ================================================================== *)
(** * Tag validation *)
(* ================================================================== *)

Lemma filter_idempotent {A : Type} (p : A -> bool) (xs : list A) :
  filter p (filter p xs) = filter p xs.
Proof.
  apply filter_all_In. intros x Hx. now apply filter_In in Hx.
Qed.

Lemma orElse_again (o : option string) (d : string) :
  JS.orElse (Some (JS.orElse o d)) d = JS.orElse o d.
Proof.
  destruct o as [s|]; simpl.
  - destruct (JS.truthy s) eqn:E.
    + now rewrite E.
    + now destruct (JS.truthy d).
  - now destruct (JS.truthy d).
Qed.

Lemma validTags_keeps_valid (fallback : string)
    (items : list (option RawTag.t)) (tag : TagItem.t) :
  In tag (Synchronizer.validTags fallback items) ->
  Synchronizer.isValidTag (asRawTag tag) = true /\
  Synchronizer.toTagItem fallback (asRawTag tag) = tag.
Proof.
  unfold Synchronizer.validTags, Synchronizer.validTagFilter.
  intros H. apply in_map_iff in H. destruct H as (raw & <- & H).
  apply filter_In in H. destruct H as [_ Hv].
  destruct raw as [[id name color]|]; simpl in Hv; [|discriminate].
  apply andb_true_iff in Hv. destruct Hv as [Hid Hname].
  unfold asRawTag, Synchronizer.isValidTag, Synchronizer.toTagItem.
  cbn [RawTag.id RawTag.name RawTag.color
       TagItem.id TagItem.name TagItem.color JS.truthyField].
  rewrite !orElse_again. split; [|reflexivity].
  destruct id as [id|]; [|discriminate].
  destruct name as [name|]; [|discriminate].
  simpl in *. now rewrite Hid, Hname, Hid, Hname.
Qed.

(** The filter keeps exactly the records with an id and a name. *)
Lemma isValidTag_iff (tag : option RawTag.t) :
  Synchronizer.isValidTag tag = true <->
  exists t, tag = Some t /\
            ~ Spec.absent (RawTag.id t) /\ ~ Spec.absent (RawTag.name t).
Proof.
  destruct tag as [t|]; simpl.
  - rewrite andb_true_iff. split.
    + intros [H1 H2]. exists t. split; [reflexivity|].
      split; intros Ha; apply truthyField_false_iff in Ha; congruence.
    + intros (t' & E & H1 & H2). injection E as <-.
      split; apply not_false_is_true; intros Ha;
        apply truthyField_false_iff in Ha; contradiction.
  - split; [discriminate | intros (t & E & _); discriminate].
Qed.

(** C8. Filtering a sequence of tag records for validity twice gives
    what filtering it once gives.  The filter keeps exactly the
    records that have an id and a name (neither null, undefined nor
    empty); and the tags a snapshot handler stores, fed back to it as
    a snapshot, are stored unchanged. *)
Theorem C8_validation_idempotent :
  forall items : list (option RawTag.t),
    Synchronizer.validTagFilter (Synchronizer.validTagFilter items)
    = Synchronizer.validTagFilter items /\
    (forall tag,
       In tag (Synchronizer.validTagFilter items) <->
       In tag items /\
       exists t, tag = Some t /\
                 ~ Spec.absent (RawTag.id t) /\
                 ~ Spec.absent (RawTag.name t)) /\
    (forall fallback,
       Synchronizer.validTags fallback
         (map asRawTag (Synchronizer.validTags fallback items))
       = Synchronizer.validTags fallback items).
Proof.
  intros items. split; [|split].
  - apply filter_idempotent.
  - intros tag. unfold Synchronizer.validTagFilter.
    now rewrite filter_In, isValidTag_iff.
  - intros fallback.
    pose proof (validTags_keeps_valid fallback items) as Hkeep.
    induction (Synchronizer.validTags fallback items) as [|tag tags IH].
    + reflexivity.
    + destruct (Hkeep tag (or_introl eq_refl)) as [Hv Hsame].
      unfold Synchronizer.validTags, Synchronizer.validTagFilter in *.
      cbn [map filter]. rewrite Hv. cbn [map]. rewrite Hsame. f_equal.
      apply IH. intros t Ht. apply Hkeep. now right.
Qed.

(* ================================================================== *)
(** * Colour allocation *)
(* ================================================================== *)

Lemma TAG_COLORS_length : length AdminInterface.TAG_COLORS = 10.
Proof. reflexivity. Qed.

(** The head of [filter p xs] is the first entry of [xs] that
    satisfies [p]. *)
Lemma filter_first {A : Type} (p : A -> bool) (d : A) (xs : list A) :
  (exists i,
     i < length xs /\
     filter p xs <> [] /\
     nth 0 (filter p xs) d = nth i xs d /\
     p (nth i xs d) = true /\
     forall j, j < i -> p (nth j xs d) = false) \/
  (filter p xs = [] /\ forall j, j < length xs -> p (nth j xs d) = false).
Proof.
  induction xs as [|x xs IH]; simpl.
  - right. split; [reflexivity | intros j Hj; lia].
  - destruct (p x) eqn:Hpx.
    + left. exists 0. repeat split; try lia; try discriminate; auto.
    + destruct IH as [(i & Hi & Hne & Hnth & Hp & Hbefore)|[Hnil Hall]].
      * left. exists (S i). repeat split; try lia; auto.
        intros [|j] Hj; [exact Hpx | apply Hbefore; lia].
      * right. split; [exact Hnil|].
        intros [|j] Hj; [exact Hpx | apply Hall; lia].
Qed.

Lemma colorUsed_iff (tags : list TagItem.t) (color : string) :
  JS.arrayIncludes (map TagItem.color tags) color = true
  <-> Spec.colorUsed tags color.
Proof.
  rewrite arrayIncludes_iff, in_map_iff. unfold Spec.colorUsed. split.
  - intros (tag & E & H). now exists tag.
  - intros (tag & H & E). now exists tag.
Qed.

(** C3. [getNextAvailableColor] returns the first entry of the palette
    of 10 colours that no existing tag uses; when every palette colour
    is in use it returns the first palette entry.  With palette
    colours 0, 1 and 2 in use it returns entry 3; with all 10 in use,
    entry 0. *)
Theorem C3_getNextAvailableColor_first_free :
  length AdminInterface.TAG_COLORS = 10 /\
  (forall s : AdminState.t,
     let used := Spec.colorUsed (AdminState.availableTags s) in
     (exists i,
        i < 10 /\
        AdminInterface.getNextAvailableColor s = AdminInterface.tagColor i /\
        ~ used (AdminInterface.tagColor i) /\
        forall j, j < i -> used (AdminInterface.tagColor j)) \/
     ((forall j, j < 10 -> used (AdminInterface.tagColor j)) /\
      AdminInterface.getNextAvailableColor s = AdminInterface.tagColor 0)) /\
  AdminInterface.getNextAvailableColor
    (adminWithTags
       (tagsColoured [AdminInterface.tagColor 0; AdminInterface.tagColor 1;
                      AdminInterface.tagColor 2]))
  = AdminInterface.tagColor 3 /\
  AdminInterface.getNextAvailableColor
    (adminWithTags (tagsColoured AdminInterface.TAG_COLORS))
  = AdminInterface.tagColor 0.
Proof.
  split; [reflexivity|]. split; [|split; reflexivity].
  intros s used. unfold AdminInterface.getNextAvailableColor.
  set (free := fun color =>
         negb (JS.arrayIncludes
                 (map TagItem.color (AdminState.availableTags s)) color)).
  assert (Hfree : forall c, free c = false <-> used c).
  { intros c. unfold free, used. rewrite negb_false_iff.
    apply colorUsed_iff. }
  assert (Hfree' : forall c, free c = true -> ~ used c).
  { intros c Hc Hu. apply Hfree in Hu. congruence. }
  destruct (filter_first free "" AdminInterface.TAG_COLORS)
    as [(i & Hi & Hne & Hnth & Hp & Hbefore)|[Hnil Hall]].
  - left. exists i. rewrite TAG_COLORS_length in Hi.
    split; [exact Hi|]. split; [|split].
    + destruct (filter free AdminInterface.TAG_COLORS) eqn:E;
        [congruence|]. exact Hnth.
    + apply Hfree'. exact Hp.
    + intros j Hj. apply Hfree. apply Hbefore. exact Hj.
  - right. rewrite TAG_COLORS_length in Hall. split.
    + intros j Hj. apply Hfree. apply Hall. exact Hj.
    + now rewrite Hnil.
Qed.

(* ================================================================== *)
(** * Relationship enrichment *)
(* ================================================================== *)

Section Enrichment.

Variable fallback : string.
Variable get : string -> TagResponse.

Lemma enrichStep_appends (enriched : list DemoTagItem.t)
    (item : option RawDemoTag.t) :
  Synchronizer.enrichStep fallback get enriched item
  = enriched ++ contribution fallback get item.
Proof.
  unfold contribution, Synchronizer.enrichStep.
  destruct item as [it|]; [|now rewrite app_nil_r].
  destruct (RawDemoTag.tagId it) as [tagId|]; [|now rewrite app_nil_r].
  destruct (RawDemoTag.demoId it) as [demoId|]; [|now rewrite app_nil_r].
  destruct (negb (JS.truthy tagId) || negb (JS.truthy demoId));
    [now rewrite app_nil_r|].
  destruct (get tagId) as [|[data|]]; try now rewrite app_nil_r.
  destruct (JS.truthyField (RawTag.id data) &&
            JS.truthyField (RawTag.name data));
    [reflexivity | now rewrite app_nil_r].
Qed.

Lemma fold_enrichStep (items : list (option RawDemoTag.t))
    (enriched : list DemoTagItem.t) :
  fold_left (Synchronizer.enrichStep fallback get) items enriched
  = enriched ++ flat_map (contribution fallback get) items.
Proof.
  revert enriched. induction items as [|item items IH]; intros enriched.
  - simpl. now rewrite app_nil_r.
  - simpl. rewrite IH, enrichStep_appends. now rewrite <- app_assoc.
Qed.

(** The loop concatenates, in the order of the snapshot, what each
    item contributes. *)
Lemma enrichedDemoTags_flat_map (items : list (option RawDemoTag.t)) :
  Synchronizer.enrichedDemoTags fallback get items
  = flat_map (contribution fallback get) items.
Proof.
  unfold Synchronizer.enrichedDemoTags. now rewrite fold_enrichStep.
Qed.

Lemma absent_Some (s : string) : Spec.absent (Some s) <-> s = "".
Proof.
  unfold Spec.absent. split.
  - intros [H|H]; congruence.
  - intros ->. now right.
Qed.

(** A relationship contributes nothing exactly when it is excluded. *)
Lemma contribution_nil_iff (it : RawDemoTag.t) :
  contribution fallback get (Some it) = [] <-> Spec.excluded get it.
Proof.
  unfold contribution, Synchronizer.enrichStep, Spec.excluded, Spec.noRecord.
  destruct (RawDemoTag.tagId it) as [tagId|].
  2:{ split; [intros _|reflexivity]. right. left. now left. }
  destruct (RawDemoTag.demoId it) as [demoId|].
  2:{ split; [intros _|reflexivity]. left. now left. }
  destruct (JS.truthy tagId) eqn:Ht.
  2:{ apply truthy_false_iff in Ht. simpl.
      split; [intros _|reflexivity]. right. left.
      now apply absent_Some. }
  destruct (JS.truthy demoId) eqn:Hd.
  2:{ apply truthy_false_iff in Hd. simpl.
      split; [intros _|reflexivity]. left. now apply absent_Some. }
  apply truthy_true_iff in Ht, Hd. simpl.
  assert (Hpresent : forall P : Prop,
    (Spec.absent (Some demoId) \/ Spec.absent (Some tagId) \/ P) <-> P).
  { intros P. rewrite !absent_Some. tauto. }
  rewrite Hpresent. clear Hpresent.
  destruct (get tagId) as [|[data|]] eqn:Hget.
  - split; [intros _|reflexivity]. exists tagId.
    split; [reflexivity|]. left. now left.
  - destruct (JS.truthyField (RawTag.id data)) eqn:Hid;
      [destruct (JS.truthyField (RawTag.name data)) eqn:Hname|]; simpl.
    + split.
      * intros H. apply (f_equal (@length _)) in H. discriminate.
      * intros (tagId' & E & [[H|H]|(data' & E' & Habs)]).
        -- injection E as <-. congruence.
        -- injection E as <-. congruence.
        -- injection E as <-. rewrite Hget in E'. injection E' as <-.
           destruct Habs as [Ha|Ha];
             apply truthyField_false_iff in Ha; congruence.
    + split; [intros _|reflexivity]. exists tagId.
      split; [reflexivity|]. right. exists data.
      split; [exact Hget|]. right. now apply truthyField_false_iff.
    + split; [intros _|reflexivity]. exists tagId.
      split; [reflexivity|]. right. exists data.
      split; [exact Hget|]. left. now apply truthyField_false_iff.
  - split; [intros _|reflexivity]. exists tagId.
    split; [reflexivity|]. left. now right.
Qed.

(** What a relationship contributes is nothing, or itself paired with
    the tag the lookup resolved. *)
Lemma contribution_shape (it : RawDemoTag.t) :
  contribution fallback get (Some it) = [] \/
  exists e,
    contribution fallback get (Some it) = [e] /\ Spec.paired fallback get it e.
Proof.
  unfold contribution, Synchronizer.enrichStep, Spec.paired.
  destruct (RawDemoTag.tagId it) as [tagId|]; [|now left].
  destruct (RawDemoTag.demoId it) as [demoId|]; [|now left].
  destruct (negb (JS.truthy tagId) || negb (JS.truthy demoId)); [now left|].
  destruct (get tagId) as [|[data|]] eqn:Hget; try now left.
  destruct data as [id name color]. simpl.
  destruct id as [id|]; [|now left].
  destruct name as [name|]; [|simpl; rewrite andb_false_r; now left].
  simpl. destruct (JS.truthy id) eqn:Hid; [|now left].
  destruct (JS.truthy name) eqn:Hname; [|now left].
  simpl. right. eexists. split; [reflexivity|].
  exists demoId, tagId, id, name, color. repeat split; assumption.
Qed.

Lemma contribution_paired (it : RawDemoTag.t) :
  ~ Spec.excluded get it ->
  exists e,
    contribution fallback get (Some it) = [e] /\ Spec.paired fallback get it e.
Proof.
  intros Hnot. destruct (contribution_shape it) as [Hnil|H]; [|exact H].
  apply contribution_nil_iff in Hnil. contradiction.
Qed.

(** The enriched output holds exactly the relationships that are not
    excluded, each paired with its resolved tag. *)
Lemma enrichedDemoTags_In (items : list (option RawDemoTag.t))
    (e : DemoTagItem.t) :
  In e (Synchronizer.enrichedDemoTags fallback get items)
  <-> exists it,
        In (Some it) items /\
        ~ Spec.excluded get it /\
        Spec.paired fallback get it e.
Proof.
  rewrite enrichedDemoTags_flat_map, in_flat_map. split.
  - intros ([it|] & Hin & He); [|destruct He].
    exists it. split; [exact Hin|].
    destruct (contribution_shape it) as [Hnil|(e' & E & Hp)].
    + rewrite Hnil in He. destruct He.
    + rewrite E in He. destruct He as [<-|[]]. split; [|exact Hp].
      intros Hex. apply contribution_nil_iff in Hex. congruence.
  - intros (it & Hin & Hnot & Hp). exists (Some it). split; [exact Hin|].
    destruct (contribution_paired it Hnot) as (e' & E & Hp').
    rewrite E. left.
    destruct Hp as (d1 & t1 & i1 & n1 & c1 & Hd1 & Ht1 & Hg1 & ->).
    destruct Hp' as (d2 & t2 & i2 & n2 & c2 & Hd2 & Ht2 & Hg2 & ->).
    congruence.
Qed.

End Enrichment.

Lemma lookupIn_missing (tags : list RawTag.t) (id : string) :
  (forall t, In t tags -> RawTag.id t <> Some id) ->
  Synchronizer.lookupIn tags id = Resolved None.
Proof.
  intros Hno. unfold Synchronizer.lookupIn. f_equal.
  induction tags as [|t tags IH]; simpl.
  - reflexivity.
  - destruct (RawTag.id t) as [i|] eqn:Ei.
    + destruct (String.eqb_spec i id) as [->|Hne].
      * exfalso. apply (Hno t); [now left | exact Ei].
      * apply IH. intros t' Ht'. apply Hno. now right.
    + apply IH. intros t' Ht'. apply Hno. now right.
Qed.

(** C2. The enrichment pass of the [DemoTag] subscription goes through
    the snapshot in order and leaves a relationship out exactly when
    its demoId or its tagId is absent (null, undefined or empty), or
    the lookup of the tagId yields no record, or the record it yields
    lacks its id or its name; every other relationship is in the
    output once, paired with the tag the lookup resolved.  Both
    components store that output.  A relationship from d1 to the tag
    "missing", looked up in a tag collection without it, leaves d1
    with no enriched relationship. *)
Theorem C2_enrichment_exclusion :
  forall (fallback : string) (get : string -> TagResponse)
         (items : list (option RawDemoTag.t)),
    Synchronizer.enrichedDemoTags fallback get items
    = flat_map (contribution fallback get) items /\
    contribution fallback get None = [] /\
    (forall it,
       Spec.excluded get it <-> contribution fallback get (Some it) = []) /\
    (forall it,
       ~ Spec.excluded get it ->
       exists e,
         contribution fallback get (Some it) = [e] /\
         Spec.paired fallback get it e) /\
    (forall e,
       In e (Synchronizer.enrichedDemoTags fallback get items) <->
       exists it,
         In (Some it) items /\
         ~ Spec.excluded get it /\
         Spec.paired fallback get it e) /\
    (forall s,
       UserInterface.demoTags (UserInterface.demoTagSubscription get items s)
       = Synchronizer.enrichedDemoTags UserInterface.fallbackColor get items) /\
    (forall s,
       AdminState.demoTags (AdminInterface.demoTagSubscription get items s)
       = Synchronizer.enrichedDemoTags (AdminInterface.tagColor 0) get items) /\
    (forall tags,
       (forall t, In t tags -> RawTag.id t <> Some "missing") ->
       let s :=
         UserInterface.demoTagSubscription (Synchronizer.lookupIn tags)
           [danglingLink] emptyView in
       UserInterface.demoTags s = [] /\
       UserInterface.getTagInfo s (exampleDemo "d1" "Alpha") = []).
Proof.
  intros fallback get items.
  split; [apply enrichedDemoTags_flat_map|].
  split; [reflexivity|].
  split; [intros it; symmetry; apply contribution_nil_iff|].
  split; [apply contribution_paired|].
  split; [apply enrichedDemoTags_In|].
  split; [reflexivity|]. split; [reflexivity|].
  intros tags Hno s.
  assert (E : UserInterface.demoTags s = []).
  { unfold s, UserInterface.demoTagSubscription, danglingLink.
    cbn [UserInterface.demoTags UserInterface.setDemoTags].
    unfold Synchronizer.enrichedDemoTags. cbn [fold_left].
    unfold Synchronizer.enrichStep.
    cbn [RawDemoTag.tagId RawDemoTag.demoId].
    rewrite (lookupIn_missing tags "missing" Hno). reflexivity. }
  split; [exact E|].
  unfold UserInterface.getTagInfo. now rewrite E.
Qed.

(* ================================================================== *)
(** * Async handlers: how outcomes compose *)
(* ================================================================== *)

Section AsyncFacts.

Import Async.

Lemma bind_inv {A B} (m : M A) (k : A -> M B) (st st' : Store)
    (o : Outcome B) :
  bind m k st = (o, st') ->
  (exists a st1, m st = (Returned a, st1) /\ k a st1 = (o, st')) \/
  (exists msg, m st = (Thrown msg, st') /\ o = Thrown msg).
Proof.
  unfold bind. destruct (m st) as [[a|msg] st1]; intros H.
  - left. now exists a, st1.
  - right. injection H as <- <-. now exists msg.
Qed.

Lemma tryCatch_inv {A} (body : M A) (handler : string -> M A)
    (st st' : Store) (o : Outcome A) :
  tryCatch body handler st = (o, st') ->
  (exists a, body st = (Returned a, st') /\ o = Returned a) \/
  (exists msg st1, body st = (Thrown msg, st1) /\ handler msg st1 = (o, st')).
Proof.
  unfold tryCatch. destruct (body st) as [[a|msg] st1]; intros H.
  - left. injection H as <- <-. now exists a.
  - right. now exists msg, st1.
Qed.

(** A served call: it was not rejected, and only the backend moved. *)
Lemma request_returned {A} (c : Backend.Call)
    (serve : nat -> Backend.World -> A * Backend.World)
    (st st' : Store) (a : A) :
  request c serve st = (Returned a, st') ->
  Backend.fault (snd st) (length (Backend.calls (snd st))) = None /\
  serve (length (Backend.calls (snd st))) (snd st) = (a, snd st') /\
  fst st' = fst st.
Proof.
  unfold request.
  destruct (Backend.fault (snd st) (length (Backend.calls (snd st))));
    [discriminate|].
  destruct (serve (length (Backend.calls (snd st))) (snd st)) as [a' w'].
  intros H. injection H as <- <-. auto.
Qed.

(** A rejected call: it is logged, and nothing else changed. *)
Lemma request_thrown {A} (c : Backend.Call)
    (serve : nat -> Backend.World -> A * Backend.World)
    (st st' : Store) (msg : string) :
  request c serve st = (Thrown msg, st') ->
  Backend.fault (snd st) (length (Backend.calls (snd st))) = Some msg /\
  st' = (fst st, Backend.logged (snd st) c).
Proof.
  unfold request.
  destruct (Backend.fault (snd st) (length (Backend.calls (snd st))))
    as [msg'|].
  - intros H. injection H as <- <-. auto.
  - destruct (serve (length (Backend.calls (snd st))) (snd st)).
    discriminate.
Qed.

Lemma request_keepsState {A} (c : Backend.Call)
    (serve : nat -> Backend.World -> A * Backend.World) :
  keepsState (request c serve).
Proof.
  intros st [a|msg] st' H.
  - now apply request_returned in H.
  - apply request_thrown in H. destruct H as [_ ->]. reflexivity.
Qed.

Lemma ret_keepsState {A} (a : A) : keepsState (ret a).
Proof.
  intros st o st' H. unfold ret in H. now injection H as <- <-.
Qed.

Lemma bind_keepsState {A B} (m : M A) (k : A -> M B) :
  keepsState m -> (forall a, keepsState (k a)) -> keepsState (bind m k).
Proof.
  intros Hm Hk st o st' H. apply bind_inv in H.
  destruct H as [(a & st1 & H1 & H2)|(msg & H1 & _)].
  - rewrite (Hk a _ _ _ H2). exact (Hm _ _ _ H1).
  - exact (Hm _ _ _ H1).
Qed.

Lemma forEach_keepsState {A} (xs : list A) (body : A -> M unit) :
  (forall x, keepsState (body x)) -> keepsState (forEach xs body).
Proof.
  intros Hbody. induction xs as [|x xs IH]; simpl.
  - apply ret_keepsState.
  - apply bind_keepsState; [apply Hbody | intros _; exact IH].
Qed.

End AsyncFacts.

(* ================================================================== *)
(** * Adding a tag *)
(* ================================================================== *)

Lemma nameTaken_iff (tags : list TagItem.t) (proposed : string) :
  existsb
    (fun tag =>
       (JS.toLowerCase (TagItem.name tag) =?
        JS.toLowerCase (JS.trim proposed))%string)
    tags = true
  <-> Spec.nameTaken tags proposed.
Proof.
  unfold Spec.nameTaken. rewrite existsb_exists. split.
  - intros (tag & Hin & E). apply String.eqb_eq in E. now exists tag.
  - intros (tag & Hin & E). exists tag. split; [exact Hin|].
    now apply String.eqb_eq.
Qed.

(** C5. Whenever the name of some existing tag equals the proposed
    name, the proposed name trimmed and both taken to lower case,
    [handleAddTag] rejects: it sets the error flag of the add-tag
    popup and does nothing else; the backend receives no call, so no
    tag is created, and the list of available tags, the popup and the
    typed name stay as they were. *)
Theorem C5_handleAddTag_rejects_taken_name :
  forall (s : AdminState.t) (st : Async.Store),
    Spec.nameTaken (AdminState.availableTags s) (AdminState.newTagName s) ->
    AdminInterface.handleAddTag s st
    = (Async.Returned AdminInterface.Invalid,
       (AdminState.setAddTagError (fun _ => true) (fst st), snd st)) /\
    AdminState.addTagError
      (fst (snd (AdminInterface.handleAddTag s st))) = true /\
    AdminState.availableTags
      (fst (snd (AdminInterface.handleAddTag s st)))
    = AdminState.availableTags (fst st) /\
    Backend.tagTable (snd (snd (AdminInterface.handleAddTag s st)))
    = Backend.tagTable (snd st) /\
    Backend.calls (snd (snd (AdminInterface.handleAddTag s st)))
    = Backend.calls (snd st).
Proof.
  intros s st Htaken.
  assert (E : AdminInterface.handleAddTag s st
              = (Async.Returned AdminInterface.Invalid,
                 (AdminState.setAddTagError (fun _ => true) (fst st),
                  snd st))).
  { unfold AdminInterface.handleAddTag.
    destruct (negb (JS.truthy (JS.trim (AdminState.newTagName s))));
      [reflexivity|].
    apply nameTaken_iff in Htaken. rewrite Htaken. reflexivity. }
  rewrite E. repeat split.
Qed.

Lemma C5_witness_Games :
  AdminInterface.handleAddTag (addTagPopup "Games" " Games ")
    (addTagPopup "Games" " Games ", quietWorld [] [] [])
  = (Async.Returned AdminInterface.Invalid,
     (AdminState.setAddTagError (fun _ => true)
        (addTagPopup "Games" " Games "),
      quietWorld [] [] [])).
Proof.
  apply (C5_handleAddTag_rejects_taken_name
           (addTagPopup "Games" " Games ")
           (addTagPopup "Games" " Games ", quietWorld [] [] [])).
  exists (TagItem.mk "t1" "Games" "#e74c3c").
  split; [left; reflexivity | reflexivity].
Defined.

(** The same rejection for other spellings of the proposal. *)
Example handleAddTag_rejects_spellings :
  forall typed,
    In typed ["Games"; "games"; "GAMES"; "  gAmEs"; "Games   "] ->
    fst (AdminInterface.handleAddTag (addTagPopup "Games" typed)
           (addTagPopup "Games" typed, quietWorld [] [] []))
    = Async.Returned AdminInterface.Invalid.
Proof.
  intros typed H. simpl in H.
  repeat (destruct H as [<-|H]; [reflexivity|]). destruct H.
Qed.

(** Only the proposal is trimmed: an existing name that itself has
    white space around it is compared as it is, so the proposal
    "Games" passes the check against an existing " Games ". *)
Example handleAddTag_existing_name_untrimmed :
  fst (AdminInterface.handleAddTag (addTagPopup " Games " "Games")
         (addTagPopup " Games " "Games", quietWorld [] [] []))
  = Async.Returned AdminInterface.Completed.
Proof. reflexivity. Qed.

(* ================================================================== *)
(** * Deleting a demo *)
(* ================================================================== *)

Section Cascade.

Import Async Backend.

Lemma demoTagDelete_returned (id : string) (st st' : Store) :
  Client.demoTagDelete id st = (Returned tt, st') ->
  fst st' = fst st /\
  demoTable (snd st') = demoTable (snd st) /\
  tagTable (snd st') = tagTable (snd st) /\
  demoTagTable (snd st')
  = filter (fun r => negb (DemoTagRecord.id r =? id)%string)
           (demoTagTable (snd st)) /\
  calls (snd st') = calls (snd st) ++ [DemoTagDelete id] /\
  fault (snd st') = fault (snd st).
Proof.
  intros H. apply request_returned in H. destruct H as (_ & H & Hs).
  injection H as H. rewrite <- H. simpl. repeat split; auto.
Qed.

(** A loop of deletions that runs to its end removes every listed
    record, and only records with a listed identity. *)
Lemma deleteAll_returned (rs : list DemoTagRecord.t) (st st' : Store) :
  forEach rs (fun demoTag => Client.demoTagDelete (DemoTagRecord.id demoTag))
    st = (Returned tt, st') ->
  fst st' = fst st /\
  demoTable (snd st') = demoTable (snd st) /\
  tagTable (snd st') = tagTable (snd st) /\
  demoTagTable (snd st') = filter (notAmong rs) (demoTagTable (snd st)) /\
  calls (snd st') = calls (snd st) ++ deleteCalls rs /\
  fault (snd st') = fault (snd st).
Proof.
  revert st. induction rs as [|r rs IH]; intros st H.
  - simpl in H. unfold ret in H. injection H as <-.
    rewrite app_nil_r. repeat split.
    symmetry. now apply filter_all.
  - simpl in H. apply bind_inv in H.
    destruct H as [([] & st1 & H1 & H2)|(msg & _ & E)]; [|discriminate].
    apply demoTagDelete_returned in H1.
    destruct H1 as (Hs1 & Hd1 & Ht1 & Hdt1 & Hc1 & Hf1).
    apply IH in H2. destruct H2 as (Hs2 & Hd2 & Ht2 & Hdt2 & Hc2 & Hf2).
    repeat split; try congruence.
    + rewrite Hdt2, Hdt1. clear.
      induction (demoTagTable (snd st)) as [|x xs IHx]; [reflexivity|].
      unfold notAmong in *. simpl.
      destruct (DemoTagRecord.id x =? DemoTagRecord.id r)%string; simpl.
      * exact IHx.
      * destruct (existsb _ rs); simpl; [exact IHx | now rewrite IHx].
    + rewrite Hc2, Hc1. simpl. now rewrite <- app_assoc.
Qed.

Lemma notAmong_links (w : World) (demoId : string) (r : DemoTagRecord.t) :
  In r (filter (notAmong (linksOf w demoId)) (demoTagTable w)) ->
  DemoTagRecord.demoId r <> demoId.
Proof.
  intros H. apply filter_In in H. destruct H as [Hin Hnot]. intros E.
  unfold notAmong in Hnot. apply negb_true_iff in Hnot.
  assert (Hex : existsb
            (fun x => (DemoTagRecord.id r =? DemoTagRecord.id x)%string)
            (linksOf w demoId) = true).
  { apply existsb_exists. exists r. split; [|apply String.eqb_refl].
    apply filter_In. split; [exact Hin|]. now apply String.eqb_eq. }
  congruence.
Qed.

End Cascade.

(** C4. When [deleteDemo] runs to the end of its [try] block, the
    backend holds no relationship that references the deleted demo id:
    the handler lists the demo's relationships, deletes each of them
    and only then deletes the demo record, the backend's log showing
    the calls in that order; relationships with other identities, the
    tags and the component state are untouched. *)
Theorem C4_deleteDemo_cascade :
  forall (confirm : bool) (s s0 : AdminState.t) (w : Backend.World)
         (id : string) (st' : Async.Store),
    AdminInterface.deleteDemo confirm s id (s0, w)
    = (Async.Returned AdminInterface.Completed, st') ->
    Spec.noRelationshipOf (snd st') id /\
    (forall d, In d (Backend.demoTable (snd st')) -> DemoItem.id d <> id) /\
    Backend.demoTagTable (snd st')
    = filter (notAmong (linksOf w id)) (Backend.demoTagTable w) /\
    Backend.calls (snd st')
    = Backend.calls w ++
      Backend.DemoTagList id :: deleteCalls (linksOf w id) ++
      [Backend.DemoDelete id] /\
    Backend.tagTable (snd st') = Backend.tagTable w /\
    fst st' = s0.
Proof.
  intros confirm s s0 w id st' H. unfold AdminInterface.deleteDemo in H.
  destruct (negb (AdminState.modelExists s)); [discriminate|].
  destruct confirm; [|discriminate].
  apply tryCatch_inv in H.
  destruct H as [(a & H & _)|(msg & st1 & _ & H)]; [|discriminate].
  apply bind_inv in H.
  destruct H as [(resp & st1 & Hlist & H)|(msg & _ & E)]; [|discriminate].
  apply request_returned in Hlist. destruct Hlist as (_ & Hlist & Hs1).
  simpl in Hlist, Hs1. injection Hlist as <- Hw1.
  apply bind_inv in H.
  destruct H as [([] & st2 & Hloop & H)|(msg & _ & E)]; [|discriminate].
  apply deleteAll_returned in Hloop.
  destruct Hloop as (Hs2 & Hd2 & Ht2 & Hdt2 & Hc2 & _).
  apply bind_inv in H.
  destruct H as [([] & st3 & Hdel & H)|(msg & _ & E)]; [|discriminate].
  unfold Async.ret in H. injection H as H. subst st3.
  apply request_returned in Hdel. destruct Hdel as (_ & Hdel & Hs3).
  injection Hdel as Hw3. rewrite <- Hw3. rewrite <- Hw1 in *. simpl in *.
  fold (linksOf w id) in *.
  split; [|split; [|split; [|split; [|split]]]].
  - intros r Hr. simpl in Hr. rewrite Hdt2 in Hr.
    now apply notAmong_links in Hr.
  - intros d Hd. simpl in Hd. apply filter_In in Hd. destruct Hd as [_ Hd].
    unfold Client.matchesId in Hd. apply negb_true_iff in Hd.
    now apply String.eqb_neq in Hd.
  - exact Hdt2.
  - rewrite Hc2. rewrite <- !app_assoc. reflexivity.
  - exact Ht2.
  - congruence.
Qed.

Lemma C4_witness_two_relationships :
  Spec.noRelationshipOf (snd afterCascade) "d1" /\
  Backend.demoTagTable (snd afterCascade)
  = [Backend.DemoTagRecord.mk "r3" "d2" "tagA"] /\
  Backend.demoTable (snd afterCascade) = [exampleDemo "d2" "Beta"].
Proof.
  split; [|split; reflexivity].
  apply (C4_deleteDemo_cascade true (adminWithTags []) (adminWithTags [])
           cascadeWorld "d1" afterCascade).
  reflexivity.
Defined.

Section CascadeRuns.

Import Async Backend.

Lemma request_runs {A} (c : Call) (serve : nat -> World -> A * World)
    (st : Store) :
  fault (snd st) (length (calls (snd st))) = None ->
  request c serve st
  = (Returned (fst (serve (length (calls (snd st))) (snd st))),
     (fst st, snd (serve (length (calls (snd st))) (snd st)))).
Proof.
  intros H. unfold request. rewrite H.
  now destruct (serve (length (calls (snd st))) (snd st)).
Qed.

Lemma deleteAll_runs (rs : list DemoTagRecord.t) (st : Store) :
  (forall n, fault (snd st) n = None) ->
  exists st',
    forEach rs
      (fun demoTag => Client.demoTagDelete (DemoTagRecord.id demoTag)) st
    = (Returned tt, st').
Proof.
  revert st. induction rs as [|r rs IH]; intros st Hquiet.
  - now exists st.
  - simpl. unfold bind, Client.demoTagDelete at 1.
    rewrite request_runs by apply Hquiet. simpl. apply IH. exact Hquiet.
Qed.

(** Where no call is rejected, a confirmed deletion runs to the end of
    its [try] block. *)
Lemma deleteDemo_completes (s s0 : AdminState.t) (w : World) (id : string) :
  AdminState.modelExists s = true ->
  (forall n, fault w n = None) ->
  exists st',
    AdminInterface.deleteDemo true s id (s0, w)
    = (Returned AdminInterface.Completed, st').
Proof.
  intros Hm Hquiet. unfold AdminInterface.deleteDemo. rewrite Hm. simpl.
  unfold tryCatch, bind, Client.demoTagList.
  rewrite request_runs by apply Hquiet. simpl.
  destruct (deleteAll_runs (linksOf w id)
              (s0, logged w (DemoTagList id)) Hquiet) as (st1 & E).
  unfold linksOf in E. rewrite E.
  apply deleteAll_returned in E. destruct E as (_ & _ & _ & _ & _ & Hf).
  unfold Client.demoDelete. rewrite request_runs.
  - simpl. eexists. reflexivity.
  - rewrite Hf. apply Hquiet.
Qed.

(** [deleteDemo] never lets an exception escape. *)
Lemma deleteDemo_returns (confirm : bool) (s : AdminState.t) (id : string)
    (st : Store) :
  exists exit st', AdminInterface.deleteDemo confirm s id st
                   = (Returned exit, st').
Proof.
  unfold AdminInterface.deleteDemo.
  destruct (negb (AdminState.modelExists s)); [now eexists; eexists|].
  destruct confirm; [|now eexists; eexists].
  unfold tryCatch.
  match goal with |- context [match ?b st with _ => _ end] =>
    destruct (b st) as [[a|msg] st1] end.
  - now exists a, st1.
  - now eexists; eexists.
Qed.

End CascadeRuns.

(* ================================================================== *)
(** * Submitting the demo form *)
(* ================================================================== *)

(** C7, at an input where the code departs from it.  The form is open
    for editing d1 and the backend rejects the creation of the new
    relationship.  [handleSubmit] has by then updated the demo, deleted
    its old relationships and called [setEditingId(null)]: the [catch]
    block keeps the form open with its fields, its selected tags and
    the diagnostic, but the form is now open for a creation, not for
    editing d1, and submitting it again adds a second demo. *)
Theorem C7_handleSubmit_failed_edit_forgets_id :
  AdminInterface.formMode editForm = AdminInterface.OpenForEdit "d1" /\
  fst afterFailedEdit
  = Async.Returned (AdminInterface.Failed "Network error") /\
  Backend.calls (snd (snd afterFailedEdit))
  = [Backend.DemoUpdate "d1" editedFields; Backend.DemoTagList "d1";
     Backend.DemoTagDelete "r1"; Backend.DemoTagCreate "d1" "tagB"] /\
  AdminState.debugInfo (fst (snd afterFailedEdit))
  = "Error in form submit: Network error" /\
  AdminState.isFormOpen (fst (snd afterFailedEdit)) = true /\
  AdminState.formData (fst (snd afterFailedEdit)) = editedFields /\
  AdminState.selectedTags (fst (snd afterFailedEdit)) = ["tagB"] /\
  AdminState.editingId (fst (snd afterFailedEdit)) = None /\
  AdminInterface.formMode (fst (snd afterFailedEdit))
  = AdminInterface.OpenForCreate /\
  fst afterRetry = Async.Returned AdminInterface.Completed /\
  map DemoItem.id (Backend.demoTable (snd (snd afterRetry)))
  = ["d1"; "4-new"].
Proof.
  repeat split; vm_compute; reflexivity.
Qed.

Section SubmitFailure.

Import Async.

Lemma deleteLoop_keepsState (data : option (list Backend.DemoTagRecord.t)) :
  keepsState
    match data with
    | Some data =>
        forEach data
          (fun demoTag =>
             Client.demoTagDelete (Backend.DemoTagRecord.id demoTag))
    | None => ret tt
    end.
Proof.
  destruct data as [data|]; [|apply ret_keepsState].
  apply forEach_keepsState. intros r. apply request_keepsState.
Qed.

(** If the preparation throws, the component state is as before; if
    it returns, at most the editing id was cleared, and only in edit
    mode. *)
Lemma prepareDemo_state (s : AdminState.t) (st st' : Store)
    (o : Outcome string) :
  prepareDemo s st = (o, st') ->
  match o with
  | Thrown _ => fst st' = fst st
  | Returned _ =>
      fst st' = if JS.truthyField (AdminState.editingId s)
                then AdminState.setEditingId (fun _ => None) (fst st)
                else fst st
  end.
Proof.
  unfold prepareDemo. destruct (JS.truthyField (AdminState.editingId s)).
  - intros H. apply bind_inv in H.
    destruct H as [([] & st1 & H1 & H)|(msg & H1 & ->)].
    2:{ exact (request_keepsState _ _ _ _ _ H1). }
    apply request_keepsState in H1.
    apply bind_inv in H.
    destruct H as [(resp & st2 & H2 & H)|(msg & H2 & ->)].
    2:{ apply request_keepsState in H2. congruence. }
    apply request_keepsState in H2.
    apply bind_inv in H.
    destruct H as [([] & st3 & H3 & H)|(msg & H3 & ->)].
    2:{ apply deleteLoop_keepsState in H3. congruence. }
    apply deleteLoop_keepsState in H3.
    unfold bind, set, ret in H. simpl in H. injection H as <- <-.
    simpl. congruence.
  - intros H. apply bind_inv in H.
    destruct H as [(resp & st1 & H1 & H)|(msg & H1 & ->)].
    + apply request_keepsState in H1. unfold ret in H.
      injection H as <- <-. exact H1.
    + exact (request_keepsState _ _ _ _ _ H1).
Qed.

(** What the [catch] block of [handleSubmit] finds: the form is still
    open on what the admin typed and selected, and the diagnostic is
    recorded.  The editing id is the one the form was opened with,
    unless the failure came after the old relationships of an edited
    demo were deleted: then it has been cleared. *)
Lemma handleSubmit_failure_keeps_form (s s0 : AdminState.t)
    (w : Backend.World) (msg : string) (st' : Store) :
  AdminInterface.handleSubmit s (s0, w)
  = (Returned (AdminInterface.Failed msg), st') ->
  AdminState.isFormOpen (fst st') = AdminState.isFormOpen s0 /\
  AdminState.formData (fst st') = AdminState.formData s0 /\
  AdminState.selectedTags (fst st') = AdminState.selectedTags s0 /\
  AdminState.debugInfo (fst st')
  = ("Error in form submit: " ++ msg)%string /\
  (AdminState.editingId (fst st') = AdminState.editingId s0 \/
   JS.truthyField (AdminState.editingId s) = true /\
   AdminState.editingId (fst st') = None).
Proof.
  unfold AdminInterface.handleSubmit.
  destruct (negb (AdminState.modelExists s)); [discriminate|].
  intros H. apply bind_inv in H.
  destruct H as [(valid & st1 & Hv & H)|(m & Hv & E)]; [|discriminate].
  assert (Hs1 : AdminState.isFormOpen (fst st1) = AdminState.isFormOpen s0 /\
                AdminState.formData (fst st1) = AdminState.formData s0 /\
                AdminState.selectedTags (fst st1)
                = AdminState.selectedTags s0 /\
                AdminState.editingId (fst st1) = AdminState.editingId s0).
  { unfold AdminInterface.validateForm, bind, set, ret in Hv.
    simpl in Hv. injection Hv as _ <-. repeat split. }
  clear Hv. destruct Hs1 as (Hopen & Hdata & Htags & Hid).
  destruct (negb valid); [discriminate|].
  fold (prepareDemo s) in H.
  apply tryCatch_inv in H.
  destruct H as [(a & H & Ea)|(m & st2 & H & Hcatch)].
  - (* the [try] block ran to its end: its exit is [Completed] *)
    exfalso. injection Ea as <-.
    apply bind_inv in H.
    destruct H as [(demoId & st2 & _ & H)|(m & _ & E)]; [|discriminate].
    apply bind_inv in H.
    destruct H as [([] & st3 & _ & H)|(m & _ & E)]; [|discriminate].
    discriminate.
  - unfold bind, set, ret in Hcatch. simpl in Hcatch.
    injection Hcatch as <- <-. simpl.
    assert (Hst2 :
      fst st2 = fst st1 \/
      JS.truthyField (AdminState.editingId s) = true /\
      fst st2 = AdminState.setEditingId (fun _ => None) (fst st1)).
    { apply bind_inv in H.
      destruct H as [(demoId & st3 & Hp & H)|(m' & Hp & _)].
      - apply prepareDemo_state in Hp.
        apply bind_inv in H.
        destruct H as [([] & st4 & _ & H)|(m' & Hloop & _)];
          [discriminate|].
        apply (forEach_keepsState _ _
                 (fun x => request_keepsState _ _)) in Hloop.
        rewrite Hloop, Hp.
        destruct (JS.truthyField (AdminState.editingId s)).
        + right. split; reflexivity.
        + left. reflexivity.
      - apply prepareDemo_state in Hp. left. exact Hp. }
    destruct Hst2 as [->|[Hedit ->]]; simpl.
    + repeat split; try assumption. now left.
    + repeat split; try assumption. right. now split.
Qed.

(** A failed submission of a form that was open for a creation leaves
    it open for a creation. *)
Lemma handleSubmit_failure_create_mode (s : AdminState.t)
    (w : Backend.World) (msg : string) (st' : Store) :
  AdminInterface.formMode s = AdminInterface.OpenForCreate ->
  AdminInterface.handleSubmit s (s, w)
  = (Returned (AdminInterface.Failed msg), st') ->
  AdminInterface.formMode (fst st') = AdminInterface.OpenForCreate.
Proof.
  intros Hmode H. apply handleSubmit_failure_keeps_form in H.
  destruct H as (Hopen & _ & _ & _ & Hid).
  unfold AdminInterface.formMode in *. rewrite Hopen.
  destruct (AdminState.isFormOpen s); [|discriminate].
  destruct (JS.truthyField (AdminState.editingId s)) eqn:Hedit;
    [discriminate|].
  destruct Hid as [->|[Habs _]]; [|discriminate].
  now rewrite Hedit.
Qed.

End SubmitFailure.

(* ================================================================== *)
(** * More on strings *)
(* ================================================================== *)

Lemma append_assoc_string (a b c : string) :
  ((a ++ b) ++ c = a ++ (b ++ c))%string.
Proof.
  induction a as [|x a IH]; simpl; [reflexivity | now rewrite IH].
Qed.

Lemma substring_trans (a b c : string) :
  Spec.substring a b -> Spec.substring b c -> Spec.substring a c.
Proof.
  intros (p1 & q1 & ->) (p2 & q2 & ->).
  exists (p2 ++ p1)%string, (q1 ++ q2)%string.
  now rewrite !append_assoc_string.
Qed.

Lemma lowerUnit_idempotent (c : ascii) :
  JS.lowerUnit (JS.lowerUnit c) = JS.lowerUnit c.
Proof.
  destruct c as [[] [] [] [] [] [] [] []]; reflexivity.
Qed.

Lemma toLowerCase_idempotent (s : string) :
  JS.toLowerCase (JS.toLowerCase s) = JS.toLowerCase s.
Proof.
  induction s as [|c s IH]; simpl;
    [reflexivity | now rewrite lowerUnit_idempotent, IH].
Qed.

Lemma truthy_toLowerCase (s : string) :
  JS.truthy (JS.toLowerCase s) = JS.truthy s.
Proof. now destruct s. Qed.

Lemma trimStart_empty_iff (s : string) :
  JS.trimStart s = "" <-> allWhiteSpace s = true.
Proof.
  induction s as [|c s IH]; simpl.
  - tauto.
  - destruct (JS.isWhiteSpace c); simpl; [exact IH|].
    split; discriminate.
Qed.

Lemma trimEnd_empty_iff (s : string) :
  JS.trimEnd s = "" <-> allWhiteSpace s = true.
Proof.
  induction s as [|c s IH]; simpl.
  - tauto.
  - destruct (JS.isWhiteSpace c); simpl.
    + destruct (String.eqb_spec (JS.trimEnd s) "") as [E|E].
      * split; [intros _; now apply IH | reflexivity].
      * split; [discriminate|]. intros H. apply IH in H. contradiction.
    + split; discriminate.
Qed.

Lemma allWhiteSpace_trimStart (s : string) :
  allWhiteSpace (JS.trimStart s) = allWhiteSpace s.
Proof.
  induction s as [|c s IH]; simpl; [reflexivity|].
  destruct (JS.isWhiteSpace c) eqn:E; simpl; [exact IH | now rewrite E].
Qed.

(** [trim] gives the empty string exactly on the strings made of
    white space only. *)
Lemma trim_empty_iff (s : string) :
  JS.trim s = "" <-> allWhiteSpace s = true.
Proof.
  unfold JS.trim. now rewrite trimEnd_empty_iff, allWhiteSpace_trimStart.
Qed.

Lemma trim_eqb_empty (s : string) :
  (JS.trim s =? "")%string = allWhiteSpace s.
Proof.
  destruct (String.eqb_spec (JS.trim s) "") as [E|E].
  - symmetry. now apply trim_empty_iff.
  - destruct (allWhiteSpace s) eqn:W; [|reflexivity].
    apply trim_empty_iff in W. contradiction.
Qed.

(* ================================================================== *)
(** * How the filters compose *)
(* ================================================================== *)

Lemma filter_ext_bool {A : Type} (p q : A -> bool) (xs : list A) :
  (forall x, p x = q x) -> filter p xs = filter q xs.
Proof.
  intros H. induction xs as [|x xs IH]; simpl;
    [reflexivity | now rewrite H, IH].
Qed.

Lemma bool_eq_iff (a b : bool) : (a = true <-> b = true) -> a = b.
Proof. destruct a, b; intuition congruence. Qed.

(** Where [p] implies [q], what [p] keeps is a subsequence of what
    [q] keeps. *)
Lemma filter_Subsequence_impl {A : Type} (p q : A -> bool) (xs : list A) :
  (forall x, p x = true -> q x = true) ->
  Spec.Subsequence (filter p xs) (filter q xs).
Proof.
  intros H. induction xs as [|x xs IH]; simpl.
  - constructor.
  - destruct (p x) eqn:Hp.
    + rewrite (H x Hp). now constructor.
    + destruct (q x); [now constructor | exact IH].
Qed.

Section Composition.

Variable demos : list DemoItem.t.
Variable demoTags : list DemoTagItem.t.

(** The projection depends on the selected tags as a set. *)
Lemma getFilteredDemos_same_members (term : string) (sel sel' : list string) :
  (forall t, In t sel <-> In t sel') ->
  Projector.getFilteredDemos demos demoTags term sel
  = Projector.getFilteredDemos demos demoTags term sel'.
Proof.
  intros Hsame. unfold Projector.getFilteredDemos.
  apply filter_ext_bool. intros demo. cbv zeta. f_equal.
  apply bool_eq_iff. rewrite !matchesTags_iff.
  split; intros H t Ht; apply H; now apply Hsame.
Qed.

(** A selection with more tags shows fewer demos. *)
Lemma getFilteredDemos_more_tags (term : string) (sel sel' : list string) :
  (forall t, In t sel -> In t sel') ->
  Spec.Subsequence (Projector.getFilteredDemos demos demoTags term sel')
                   (Projector.getFilteredDemos demos demoTags term sel).
Proof.
  intros Hincl. unfold Projector.getFilteredDemos.
  apply filter_Subsequence_impl. intros demo. cbv zeta.
  rewrite !andb_true_iff, !matchesTags_iff.
  intros [Hs Ht]. split; [exact Hs|]. intros t Hin. apply Ht. now apply Hincl.
Qed.

(** The projection depends on the search term up to case. *)
Lemma getFilteredDemos_same_lowercase (t1 t2 : string) (sel : list string) :
  JS.toLowerCase t1 = JS.toLowerCase t2 ->
  Projector.getFilteredDemos demos demoTags t1 sel
  = Projector.getFilteredDemos demos demoTags t2 sel.
Proof.
  intros E. unfold Projector.getFilteredDemos.
  apply filter_ext_bool. intros demo. cbv zeta.
  rewrite <- (truthy_toLowerCase t1), <- (truthy_toLowerCase t2), E.
  reflexivity.
Qed.

(** A search term that contains another shows fewer demos. *)
Lemma getFilteredDemos_longer_term (t t' : string) (sel : list string) :
  Spec.containsIgnoringCase t' t ->
  Spec.Subsequence (Projector.getFilteredDemos demos demoTags t' sel)
                   (Projector.getFilteredDemos demos demoTags t sel).
Proof.
  intros Hsub. unfold Projector.getFilteredDemos.
  apply filter_Subsequence_impl. intros demo. cbv zeta.
  rewrite !andb_true_iff, !matchesSearch_iff.
  intros [Hs Ht]. split; [|exact Ht].
  destruct Hs as [->|(name & Hn & Hc)].
  - left. apply substring_of_empty in Hsub.
    now apply (proj1 (toLowerCase_empty_iff _)) in Hsub.
  - right. exists name. split; [exact Hn|].
    unfold Spec.containsIgnoringCase in *.
    now apply (substring_trans _ _ _ Hsub).
Qed.

End Composition.

(** X1. Toggling the same filter tag twice leaves the projection as it
    was, in both components: the result depends on which tags are
    selected, not on the order in which they were. *)
Theorem X1_toggle_twice_same_projection :
  forall tagId : string,
    (forall s : UserInterface.State,
       UserInterface.getFilteredDemos
         (UserInterface.handleFilterTagToggle tagId
            (UserInterface.handleFilterTagToggle tagId s))
       = UserInterface.getFilteredDemos s) /\
    (forall s : AdminState.t,
       AdminInterface.getFilteredDemos
         (AdminInterface.handleFilterTagToggle tagId
            (AdminInterface.handleFilterTagToggle tagId s))
       = AdminInterface.getFilteredDemos s).
Proof.
  intros tagId. split; intros s;
    apply getFilteredDemos_same_members; intros t; apply toggle_twice_In.
Qed.

Lemma toggle_narrows (demos : list DemoItem.t)
    (demoTags : list DemoTagItem.t) (term tagId : string)
    (sel : list string) :
  (~ In tagId sel ->
   Spec.Subsequence
     (Projector.getFilteredDemos demos demoTags term
        (Projector.toggle tagId sel))
     (Projector.getFilteredDemos demos demoTags term sel)) /\
  (In tagId sel ->
   Spec.Subsequence
     (Projector.getFilteredDemos demos demoTags term sel)
     (Projector.getFilteredDemos demos demoTags term
        (Projector.toggle tagId sel))).
Proof.
  split; intros H; apply getFilteredDemos_more_tags; intros t Ht.
  - rewrite toggle_In. destruct (string_dec t tagId) as [->|Hne]; tauto.
  - apply toggle_In in Ht. destruct Ht as [[_ Ht]|[-> Habs]];
      [exact Ht | contradiction].
Qed.

(** X2. Selecting one more filter tag can only take demos away from
    the projection, and unselecting a tag can only bring demos back:
    either result is a subsequence of the other, in both
    components. *)
Theorem X2_tag_selection_narrows :
  forall tagId : string,
    (forall s : UserInterface.State,
       (~ In tagId (UserInterface.selectedFilterTags s) ->
        Spec.Subsequence
          (UserInterface.getFilteredDemos
             (UserInterface.handleFilterTagToggle tagId s))
          (UserInterface.getFilteredDemos s)) /\
       (In tagId (UserInterface.selectedFilterTags s) ->
        Spec.Subsequence
          (UserInterface.getFilteredDemos s)
          (UserInterface.getFilteredDemos
             (UserInterface.handleFilterTagToggle tagId s)))) /\
    (forall s : AdminState.t,
       (~ In tagId (AdminState.selectedFilterTags s) ->
        Spec.Subsequence
          (AdminInterface.getFilteredDemos
             (AdminInterface.handleFilterTagToggle tagId s))
          (AdminInterface.getFilteredDemos s)) /\
       (In tagId (AdminState.selectedFilterTags s) ->
        Spec.Subsequence
          (AdminInterface.getFilteredDemos s)
          (AdminInterface.getFilteredDemos
             (AdminInterface.handleFilterTagToggle tagId s)))).
Proof.
  intros tagId. split; intros s; apply toggle_narrows.
Qed.

(** X3. Two search terms that differ only in case give the same
    projection, in both components. *)
Theorem X3_search_ignores_case :
  forall t1 t2 : string,
    JS.toLowerCase t1 = JS.toLowerCase t2 ->
    (forall s : UserInterface.State,
       UserInterface.getFilteredDemos (UserInterface.handleSearchChange t1 s)
       = UserInterface.getFilteredDemos
           (UserInterface.handleSearchChange t2 s)) /\
    (forall s : AdminState.t,
       AdminInterface.getFilteredDemos
         (AdminInterface.handleSearchChange t1 s)
       = AdminInterface.getFilteredDemos
           (AdminInterface.handleSearchChange t2 s)).
Proof.
  intros t1 t2 E. split; intros s;
    now apply getFilteredDemos_same_lowercase.
Qed.

Lemma X3_witness_ALP :
  UserInterface.getFilteredDemos
    (UserInterface.handleSearchChange "ALP" (exampleView "" []))
  = UserInterface.getFilteredDemos
      (UserInterface.handleSearchChange "alp" (exampleView "" [])).
Proof.
  apply (proj1 (X3_search_ignores_case "ALP" "alp" eq_refl)).
Defined.

(** X4. A search term that contains the previous one, case aside,
    can only take demos away: typing further characters narrows the
    projection, in both components. *)
Theorem X4_longer_search_narrows :
  forall t t' : string,
    Spec.containsIgnoringCase t' t ->
    (forall s : UserInterface.State,
       Spec.Subsequence
         (UserInterface.getFilteredDemos
            (UserInterface.handleSearchChange t' s))
         (UserInterface.getFilteredDemos
            (UserInterface.handleSearchChange t s))) /\
    (forall s : AdminState.t,
       Spec.Subsequence
         (AdminInterface.getFilteredDemos
            (AdminInterface.handleSearchChange t' s))
         (AdminInterface.getFilteredDemos
            (AdminInterface.handleSearchChange t s))).
Proof.
  intros t t' H. split; intros s;
    now apply getFilteredDemos_longer_term.
Qed.

Lemma X4_witness_al_ALP :
  Spec.Subsequence
    (UserInterface.getFilteredDemos
       (UserInterface.handleSearchChange "ALP" (exampleView "" [])))
    (UserInterface.getFilteredDemos
       (UserInterface.handleSearchChange "al" (exampleView "" []))).
Proof.
  apply (proj1 (X4_longer_search_narrows "al" "ALP"
                  (ex_intro _ "" (ex_intro _ "p" eq_refl)))).
Defined.

Lemma copy_demos (items : list DemoItem.t) :
  map (fun item =>
         DemoItem.mk (DemoItem.id item) (DemoItem.projectName item)
           (DemoItem.githubLink item) (DemoItem.projectLink item)
           (DemoItem.imageUrl item) (DemoItem.createdAt item)
           (DemoItem.updatedAt item)) items
  = items.
Proof.
  induction items as [|[] items IH]; simpl; [reflexivity | now rewrite IH].
Qed.

(** X5. The [Demo] subscription stores every item of a snapshot, in
    order, also the items without a project name; with cleared
    filters all of them are shown, and under any search term that is
    not empty only demos with a non-empty project name are. *)
Theorem X5_demo_snapshot_and_nameless_demos :
  forall (items : list DemoItem.t) (s : UserInterface.State),
    UserInterface.demos (UserInterface.demoSubscription items s) = items /\
    UserInterface.isLoading (UserInterface.demoSubscription items s)
    = false /\
    UserInterface.getFilteredDemos
      (UserInterface.clearAllFilters
         (UserInterface.demoSubscription items s))
    = items /\
    (forall term demo,
       term <> "" ->
       In demo
         (UserInterface.getFilteredDemos
            (UserInterface.handleSearchChange term
               (UserInterface.demoSubscription items s))) ->
       In demo items /\ named demo).
Proof.
  intros items s.
  assert (E : UserInterface.demos (UserInterface.demoSubscription items s)
              = items) by apply copy_demos.
  split; [exact E|]. split; [reflexivity|]. split.
  - rewrite <- E at 2. apply getFilteredDemos_cleared.
  - intros term demo Hterm Hin.
    apply getFilteredDemos_In in Hin. destruct Hin as [Hin [Hsearch _]].
    simpl in Hin. rewrite copy_demos in Hin. split; [exact Hin|].
    simpl in Hsearch. destruct Hsearch as [->|(name & Hn & Hc)];
      [contradiction|].
    exists name. split; [exact Hn|]. intros ->.
    apply substring_of_empty in Hc.
    apply (proj1 (toLowerCase_empty_iff _)) in Hc. contradiction.
Qed.

(* ================================================================== *)
(** * The selections hold no tag twice *)
(* ================================================================== *)

Lemma NoDup_filter_string (p : string -> bool) (xs : list string) :
  NoDup xs -> NoDup (filter p xs).
Proof.
  induction 1 as [|x xs Hx Hnd IH]; simpl; [constructor|].
  destruct (p x); [|exact IH].
  constructor; [|exact IH]. intros H. apply filter_In in H. tauto.
Qed.

Lemma length_without (tagId : string) (xs : list string) :
  NoDup xs -> In tagId xs ->
  S (length (filter (fun id => negb (id =? tagId)%string) xs)) = length xs.
Proof.
  induction 1 as [|x xs Hx Hnd IH]; intros Hin; [destruct Hin|].
  simpl. destruct (String.eqb_spec x tagId) as [->|Hne]; simpl.
  - f_equal. f_equal. apply filter_all_In. intros y Hy.
    apply negb_true_iff, String.eqb_neq. intros ->. contradiction.
  - f_equal. apply IH. destruct Hin as [E|Hin]; [contradiction | exact Hin].
Qed.

Lemma toggle_NoDup (tagId : string) (prev : list string) :
  NoDup prev ->
  NoDup (Projector.toggle tagId prev) /\
  (In tagId prev ->
   S (length (Projector.toggle tagId prev)) = length prev) /\
  (~ In tagId prev ->
   length (Projector.toggle tagId prev) = S (length prev)).
Proof.
  intros Hnd. destruct (In_dec_string tagId prev) as [Hin|Hout].
  - rewrite (toggle_present _ _ Hin). split; [|split].
    + now apply NoDup_filter_string.
    + intros _. now apply length_without.
    + contradiction.
  - rewrite (toggle_absent _ _ Hout). split; [|split].
    + apply NoDup_app; [exact Hnd | repeat constructor; intros [] |].
      intros x Hx [<-|[]]. contradiction.
    + contradiction.
    + intros _. rewrite length_app. simpl. lia.
Qed.

(** X6. A selection without duplicates stays without duplicates under
    a toggle, and the toggle changes its length by exactly one: down
    when the tag was selected, up when it was not.  This holds for
    the filter tags of both components and for the tags of the demo
    form; the cleared filter selection is empty.  So the number of
    selected tags each view displays counts distinct tags. *)
Theorem X6_selection_without_duplicates :
  forall tagId : string,
    (forall s : UserInterface.State,
       UserInterface.selectedFilterTags (UserInterface.clearAllFilters s)
       = [] /\
       (NoDup (UserInterface.selectedFilterTags s) ->
        let next :=
          UserInterface.selectedFilterTags
            (UserInterface.handleFilterTagToggle tagId s) in
        NoDup next /\
        (In tagId (UserInterface.selectedFilterTags s) ->
         S (length next) = length (UserInterface.selectedFilterTags s)) /\
        (~ In tagId (UserInterface.selectedFilterTags s) ->
         length next = S (length (UserInterface.selectedFilterTags s))))) /\
    (forall s : AdminState.t,
       AdminState.selectedFilterTags (AdminInterface.clearAllFilters s)
       = [] /\
       (NoDup (AdminState.selectedFilterTags s) ->
        let next :=
          AdminState.selectedFilterTags
            (AdminInterface.handleFilterTagToggle tagId s) in
        NoDup next /\
        (In tagId (AdminState.selectedFilterTags s) ->
         S (length next) = length (AdminState.selectedFilterTags s)) /\
        (~ In tagId (AdminState.selectedFilterTags s) ->
         length next = S (length (AdminState.selectedFilterTags s))))) /\
    (forall s : AdminState.t,
       NoDup (AdminState.selectedTags s) ->
       let next :=
         AdminState.selectedTags (AdminInterface.handleTagToggle tagId s) in
       NoDup next /\
       (In tagId (AdminState.selectedTags s) ->
        S (length next) = length (AdminState.selectedTags s)) /\
       (~ In tagId (AdminState.selectedTags s) ->
        length next = S (length (AdminState.selectedTags s)))).
Proof.
  intros tagId. split; [|split].
  - intros s. split; [reflexivity|]. intros H. now apply toggle_NoDup.
  - intros s. split; [reflexivity|]. intros H. now apply toggle_NoDup.
  - intros s H.
    assert (E : AdminState.selectedTags (AdminInterface.handleTagToggle tagId s)
                = Projector.toggle tagId (AdminState.selectedTags s)).
    { unfold AdminInterface.handleTagToggle.
      now destruct ((0 <? _)%nat && _). }
    cbv zeta. rewrite E. now apply toggle_NoDup.
Qed.

(* ================================================================== *)
(** * What the snapshot handlers store *)
(* ================================================================== *)

Lemma orElse_nonempty (o : option string) (d : string) :
  d <> "" -> JS.orElse o d <> "".
Proof.
  intros Hd. destruct o as [s|]; simpl; [|exact Hd].
  destruct (JS.truthy s) eqn:E; [now apply truthy_true_iff | exact Hd].
Qed.

Lemma orElse_present (o : option string) (d : string) :
  JS.truthyField o = true -> JS.orElse o d <> "" /\ o = Some (JS.orElse o d).
Proof.
  destruct o as [s|]; simpl; [|discriminate]. intros H. rewrite H.
  split; [now apply truthy_true_iff | reflexivity].
Qed.

Lemma validTags_Forall (fallback : string) (items : list (option RawTag.t)) :
  Forall
    (fun tag =>
       TagItem.id tag <> "" /\ TagItem.name tag <> "" /\
       (fallback <> "" -> TagItem.color tag <> ""))
    (Synchronizer.validTags fallback items).
Proof.
  apply Forall_forall. intros tag H.
  unfold Synchronizer.validTags, Synchronizer.validTagFilter in H.
  apply in_map_iff in H. destruct H as (raw & <- & H).
  apply filter_In in H. destruct H as [_ Hv].
  destruct raw as [r|]; simpl in Hv; [|discriminate].
  apply andb_true_iff in Hv. destruct Hv as [Hid Hname]. simpl.
  split; [now apply orElse_present|].
  split; [now apply orElse_present|].
  intros Hf. now apply orElse_nonempty.
Qed.

Lemma validTags_length (fallback : string) (items : list (option RawTag.t)) :
  length (Synchronizer.validTags fallback items) <= length items.
Proof.
  unfold Synchronizer.validTags, Synchronizer.validTagFilter.
  rewrite length_map. apply filter_length_le.
Qed.

(** X7. Whatever a tag snapshot or a manual load delivers, every tag
    the components keep has a non-empty id, a non-empty name and a
    non-empty colour, and no more tags are kept than were delivered;
    a manual load that is rejected or comes without data leaves no
    tag at all. *)
Theorem X7_available_tags_are_complete :
  let complete (tag : TagItem.t) :=
    TagItem.id tag <> "" /\ TagItem.name tag <> "" /\
    TagItem.color tag <> "" in
  (forall items (s : UserInterface.State),
     Forall complete
       (UserInterface.availableTags (UserInterface.tagSubscription items s)) /\
     length (UserInterface.availableTags
               (UserInterface.tagSubscription items s))
     <= length items) /\
  (forall items (s : AdminState.t),
     Forall complete
       (AdminState.availableTags (AdminInterface.tagSubscription items s)) /\
     length (AdminState.availableTags
               (AdminInterface.tagSubscription items s))
     <= length items) /\
  (forall response (s : UserInterface.State),
     Forall complete
       (UserInterface.availableTags (UserInterface.loadTags response s)) /\
     match response with
     | ListResolved (Some data) =>
         UserInterface.availableTags (UserInterface.loadTags response s)
         = UserInterface.availableTags
             (UserInterface.tagSubscription data s)
     | _ => UserInterface.availableTags (UserInterface.loadTags response s)
            = []
     end).
Proof.
  intros complete.
  assert (Hc : forall fallback items,
             fallback <> "" ->
             Forall complete (Synchronizer.validTags fallback items)).
  { intros fallback items Hf.
    eapply Forall_impl; [|apply validTags_Forall].
    intros tag (H1 & H2 & H3). repeat split; auto. }
  split; [|split].
  - intros items s. split; [|apply validTags_length].
    apply Hc. discriminate.
  - intros items s. split; [|apply validTags_length].
    apply Hc. discriminate.
  - intros [msg|[data|]] s; simpl; split; try reflexivity;
      try constructor.
    apply Hc. discriminate.
Qed.

Section EnrichedInvariant.

Variable fallback : string.
Variable get : string -> TagResponse.
Variable items : list (option RawDemoTag.t).

(** An enriched relationship with both references and a resolved tag
    that has an id and a name. *)
Lemma enriched_Forall :
  Forall
    (fun e =>
       DemoTagItem.demoId e <> "" /\ DemoTagItem.tagId e <> "" /\
       exists tag,
         DemoTagItem.tag e = Some tag /\
         TagItem.id tag <> "" /\ TagItem.name tag <> "")
    (Synchronizer.enrichedDemoTags fallback get items).
Proof.
  apply Forall_forall. intros e H. apply enrichedDemoTags_In in H.
  destruct H as (it & _ & Hnot & Hp).
  destruct Hp as (demoId & tagId & id & name & color & Hd & Ht & Hg & ->).
  simpl. unfold Spec.excluded in Hnot. rewrite Hd, Ht in Hnot.
  split; [|split].
  - intros ->. apply Hnot. left. now right.
  - intros ->. apply Hnot. right. left. now right.
  - eexists. split; [reflexivity|]. simpl. split; intros ->; apply Hnot;
      right; right; exists tagId; (split; [reflexivity|]); right;
      eexists; (split; [exact Hg|]); simpl; [left | right]; now right.
Qed.

Lemma enriched_length :
  length (Synchronizer.enrichedDemoTags fallback get items) <= length items.
Proof.
  rewrite enrichedDemoTags_flat_map.
  induction items as [|item rest IH]; simpl; [lia|].
  rewrite length_app.
  assert (length (contribution fallback get item) <= 1).
  { destruct item as [it|]; [|simpl; lia].
    destruct (contribution_shape fallback get it) as [->|(e & -> & _)];
      simpl; lia. }
  lia.
Qed.

End EnrichedInvariant.

(** Where every relationship carries a tag, a demo gets one badge per
    relationship that references it. *)
Lemma getTagInfo_length (demoTags : list DemoTagItem.t) (demo : DemoItem.t) :
  Forall (fun e => exists tag, DemoTagItem.tag e = Some tag) demoTags ->
  length (Synchronizer.getTagInfo demoTags demo)
  = length (filter (fun dt =>
                      (DemoTagItem.demoId dt =? DemoItem.id demo)%string)
                   demoTags).
Proof.
  unfold Synchronizer.getTagInfo.
  induction 1 as [|e es (tag & He) _ IH]; simpl; [reflexivity|].
  rewrite He.
  destruct (DemoTagItem.demoId e =? DemoItem.id demo)%string; simpl.
  - rewrite He. simpl. now rewrite IH.
  - exact IH.
Qed.

(** X8. Every relationship the [DemoTag] subscription stores has a
    non-empty demo reference, a non-empty tag reference and a resolved
    tag with a non-empty id and name; no more are stored than the
    snapshot held; and each demo card shows exactly one badge per
    stored relationship of its demo, in both components. *)
Theorem X8_enriched_relationships_are_complete :
  forall (get : string -> TagResponse) (items : list (option RawDemoTag.t)),
    let complete (e : DemoTagItem.t) :=
      DemoTagItem.demoId e <> "" /\ DemoTagItem.tagId e <> "" /\
      exists tag,
        DemoTagItem.tag e = Some tag /\
        TagItem.id tag <> "" /\ TagItem.name tag <> "" in
    (forall s : UserInterface.State,
       let s' := UserInterface.demoTagSubscription get items s in
       Forall complete (UserInterface.demoTags s') /\
       length (UserInterface.demoTags s') <= length items /\
       forall demo,
         length (UserInterface.getTagInfo s' demo)
         = length (filter (fun dt =>
                             (DemoTagItem.demoId dt =? DemoItem.id demo)%string)
                          (UserInterface.demoTags s'))) /\
    (forall s : AdminState.t,
       let s' := AdminInterface.demoTagSubscription get items s in
       Forall complete (AdminState.demoTags s') /\
       length (AdminState.demoTags s') <= length items /\
       forall demo,
         length (AdminInterface.getTagNames s' demo)
         = length (filter (fun dt =>
                             (DemoTagItem.demoId dt =? DemoItem.id demo)%string)
                          (AdminState.demoTags s'))).
Proof.
  intros get items complete.
  assert (Hall : forall fallback,
    Forall complete (Synchronizer.enrichedDemoTags fallback get items) /\
    length (Synchronizer.enrichedDemoTags fallback get items)
    <= length items /\
    forall demo,
      length (Synchronizer.getTagInfo
                (Synchronizer.enrichedDemoTags fallback get items) demo)
      = length (filter (fun dt =>
                          (DemoTagItem.demoId dt =? DemoItem.id demo)%string)
                       (Synchronizer.enrichedDemoTags fallback get items))).
  { intros fallback. split; [apply enriched_Forall|].
    split; [apply enriched_length|].
    intros demo. apply getTagInfo_length.
    eapply Forall_impl; [|apply enriched_Forall].
    intros e (_ & _ & tag & He & _). now exists tag. }
  split; intros s; apply Hall.
Qed.

Lemma orElse_Some_truthy (v d : string) :
  v <> "" -> JS.orElse (Some v) d = v.
Proof.
  intros H. simpl. now rewrite (proj2 (truthy_true_iff v) H).
Qed.

(** With lookups answered from a tag collection, the tag of every
    enriched relationship is one of the tags the tag snapshot handler
    keeps for that collection, and it is the tag the relationship
    references. *)
Lemma enriched_tag_available (fallback : string) (tags : list RawTag.t)
    (items : list (option RawDemoTag.t)) (e : DemoTagItem.t) :
  In e (Synchronizer.enrichedDemoTags fallback
          (Synchronizer.lookupIn tags) items) ->
  exists tag,
    In tag (Synchronizer.validTags fallback (map Some tags)) /\
    DemoTagItem.tag e = Some tag /\
    TagItem.id tag = DemoTagItem.tagId e.
Proof.
  intros H. apply enrichedDemoTags_In in H.
  destruct H as (it & _ & Hnot & Hp).
  destruct Hp as (demoId & tagId & id & name & color & Hd & Ht & Hg & ->).
  assert (Hid : id <> "").
  { intros ->. apply Hnot. right. right. exists tagId.
    split; [exact Ht|]. right. eexists. split; [exact Hg|].
    left. now right. }
  assert (Hname : name <> "").
  { intros ->. apply Hnot. right. right. exists tagId.
    split; [exact Ht|]. right. eexists. split; [exact Hg|].
    right. now right. }
  unfold Synchronizer.lookupIn in Hg. injection Hg as Hfind.
  apply find_some in Hfind. destruct Hfind as [Hin Hmatch].
  simpl in Hmatch. apply String.eqb_eq in Hmatch. subst tagId.
  exists (TagItem.mk id name (JS.orElse color fallback)).
  split; [|split; reflexivity].
  unfold Synchronizer.validTags, Synchronizer.validTagFilter.
  apply in_map_iff.
  exists (Some (RawTag.mk (Some id) (Some name) color)). split.
  - simpl. now rewrite (proj2 (truthy_true_iff id) Hid),
                       (proj2 (truthy_true_iff name) Hname).
  - apply filter_In. split.
    + apply in_map_iff. eexists. split; [reflexivity | exact Hin].
    + simpl. now rewrite (proj2 (truthy_true_iff id) Hid),
                         (proj2 (truthy_true_iff name) Hname).
Qed.

Lemma getTagInfo_In (demoTags : list DemoTagItem.t) (demo : DemoItem.t)
    (badge : string * string) :
  In badge (Synchronizer.getTagInfo demoTags demo) ->
  exists e tag,
    In e demoTags /\ DemoTagItem.demoId e = DemoItem.id demo /\
    DemoTagItem.tag e = Some tag /\
    badge = (TagItem.name tag, TagItem.color tag).
Proof.
  unfold Synchronizer.getTagInfo. intros H. apply in_flat_map in H.
  destruct H as (e & He & Hb). apply filter_In in He.
  destruct He as [He Hm]. apply andb_true_iff in Hm. destruct Hm as [Hm _].
  apply String.eqb_eq in Hm.
  destruct (DemoTagItem.tag e) as [tag|] eqn:Etag; [|destruct Hb].
  destruct Hb as [<-|[]]. now exists e, tag.
Qed.

Lemma badges_available (fallback : string) (tags : list RawTag.t)
    (items : list (option RawDemoTag.t)) (demo : DemoItem.t) :
  incl
    (Synchronizer.getTagInfo
       (Synchronizer.enrichedDemoTags fallback
          (Synchronizer.lookupIn tags) items) demo)
    (map (fun tag => (TagItem.name tag, TagItem.color tag))
       (Synchronizer.validTags fallback (map Some tags))).
Proof.
  intros badge H. apply getTagInfo_In in H.
  destruct H as (e & tag & He & _ & Etag & ->).
  apply enriched_tag_available in He.
  destruct He as (tag' & Hin & Etag' & _).
  rewrite Etag in Etag'. injection Etag' as <-.
  apply in_map_iff. now exists tag.
Qed.

(** X9. When the point lookups of the enrichment answer from the tag
    collection that the tag snapshot delivered, every badge on a demo
    card shows the name and colour of one of the available tags, and
    every stored relationship carries the available tag whose id it
    references; in both components, whichever of the two snapshots
    comes first. *)
Theorem X9_badges_are_available_tags :
  forall (tags : list RawTag.t) (items : list (option RawDemoTag.t)),
    (forall s : UserInterface.State,
       let s1 :=
         UserInterface.demoTagSubscription (Synchronizer.lookupIn tags) items
           (UserInterface.tagSubscription (map Some tags) s) in
       let s2 :=
         UserInterface.tagSubscription (map Some tags)
           (UserInterface.demoTagSubscription (Synchronizer.lookupIn tags)
              items s) in
       UserInterface.availableTags s1 = UserInterface.availableTags s2 /\
       UserInterface.demoTags s1 = UserInterface.demoTags s2 /\
       (forall demo,
          incl (UserInterface.getTagInfo s1 demo)
               (map (fun tag => (TagItem.name tag, TagItem.color tag))
                    (UserInterface.availableTags s1))) /\
       (forall e,
          In e (UserInterface.demoTags s1) ->
          exists tag,
            In tag (UserInterface.availableTags s1) /\
            DemoTagItem.tag e = Some tag /\
            TagItem.id tag = DemoTagItem.tagId e)) /\
    (forall s : AdminState.t,
       let s1 :=
         AdminInterface.demoTagSubscription (Synchronizer.lookupIn tags) items
           (AdminInterface.tagSubscription (map Some tags) s) in
       let s2 :=
         AdminInterface.tagSubscription (map Some tags)
           (AdminInterface.demoTagSubscription (Synchronizer.lookupIn tags)
              items s) in
       AdminState.availableTags s1 = AdminState.availableTags s2 /\
       AdminState.demoTags s1 = AdminState.demoTags s2 /\
       (forall demo,
          incl (AdminInterface.getTagNames s1 demo)
               (map (fun tag => (TagItem.name tag, TagItem.color tag))
                    (AdminState.availableTags s1))) /\
       (forall e,
          In e (AdminState.demoTags s1) ->
          exists tag,
            In tag (AdminState.availableTags s1) /\
            DemoTagItem.tag e = Some tag /\
            TagItem.id tag = DemoTagItem.tagId e)).
Proof.
  intros tags items. split; intros s; cbv zeta.
  - split; [reflexivity|]. split; [reflexivity|]. split.
    + intros demo. apply badges_available.
    + intros e. apply enriched_tag_available.
  - split; [reflexivity|]. split; [reflexivity|]. split.
    + intros demo. apply badges_available.
    + intros e. apply enriched_tag_available.
Qed.

(* ================================================================== *)
(** * The paths through [handleSubmit] *)
(* ================================================================== *)

Section SubmitPaths.

Import Async.

Lemma validateForm_runs (s : AdminState.t) (st : Store) :
  AdminInterface.validateForm s st
  = (Returned (formValid s),
     (AdminState.setFormErrors (fun _ => formErrorsOf s) (fst st), snd st)).
Proof.
  unfold AdminInterface.validateForm, bind, set, ret, formValid. simpl.
  rewrite !orb_false_r, !orb_assoc. reflexivity.
Qed.

Lemma formValid_false_iff (s : AdminState.t) :
  formValid s = false <-> formIncomplete s.
Proof.
  unfold formValid, formIncomplete, formErrorsOf. simpl.
  rewrite negb_false_iff, !orb_true_iff, !trim_eqb_empty, Nat.eqb_eq.
  rewrite length_zero_iff_nil. tauto.
Qed.

(** The three ways [handleSubmit] can go: the backend is not
    available; the form is incomplete; or the [try] block runs, on
    the state validation left, and either reaches its end or is left
    by an exception of the preparation or of the creation of the
    relationships. *)
Lemma handleSubmit_paths (s : AdminState.t) (st st' : Store)
    (o : Outcome AdminInterface.Exit) :
  AdminInterface.handleSubmit s st = (o, st') ->
  let st1 :=
    (AdminState.setFormErrors (fun _ => formErrorsOf s) (fst st), snd st) in
  (AdminState.modelExists s = false /\
   o = Returned AdminInterface.Unavailable /\
   st' = (AdminState.setDebugInfo
            (fun _ =>
               "Cannot submit: Demo model is not available in the backend yet.")
            (fst st),
          snd st)) \/
  (AdminState.modelExists s = true /\ formValid s = false /\
   o = Returned AdminInterface.Invalid /\ st' = st1) \/
  (AdminState.modelExists s = true /\ formValid s = true /\
   exists demoId stA stB,
     prepareDemo s st1 = (Returned demoId, stA) /\
     forEach (AdminState.selectedTags s)
       (fun tagId => Client.demoTagCreate demoId tagId) stA
     = (Returned tt, stB) /\
     o = Returned AdminInterface.Completed /\
     st' = (formCleared (fst stB), snd stB)) \/
  (AdminState.modelExists s = true /\ formValid s = true /\
   exists msg st2,
     o = Returned (AdminInterface.Failed msg) /\
     st' = (AdminState.setDebugInfo
              (fun _ => ("Error in form submit: " ++ msg)%string) (fst st2),
            snd st2) /\
     (prepareDemo s st1 = (Thrown msg, st2) \/
      exists demoId stA,
        prepareDemo s st1 = (Returned demoId, stA) /\
        forEach (AdminState.selectedTags s)
          (fun tagId => Client.demoTagCreate demoId tagId) stA
        = (Thrown msg, st2))).
Proof.
  intros H st1. unfold AdminInterface.handleSubmit in H.
  destruct (AdminState.modelExists s) eqn:Hm; simpl in H.
  2:{ left. unfold bind, set, ret in H. simpl in H.
      injection H as <- <-. auto. }
  right. unfold bind at 1 in H. rewrite validateForm_runs in H.
  fold st1 in H. destruct (formValid s) eqn:Hv; simpl in H.
  2:{ left. unfold ret in H. injection H as <- <-. auto. }
  right. fold (prepareDemo s) in H. apply tryCatch_inv in H.
  destruct H as [(a & H & ->)|(msg & st2 & H & Hcatch)].
  - left. split; [reflexivity|]. split; [reflexivity|].
    apply bind_inv in H.
    destruct H as [(demoId & stA & Hp & H)|(m & _ & E)]; [|discriminate].
    apply bind_inv in H.
    destruct H as [([] & stB & Hloop & H)|(m & _ & E)]; [|discriminate].
    unfold bind, set, ret in H. simpl in H. injection H as <- <-.
    exists demoId, stA, stB. auto.
  - right. split; [reflexivity|]. split; [reflexivity|].
    unfold bind, set, ret in Hcatch. simpl in Hcatch.
    injection Hcatch as <- <-. exists msg, st2.
    split; [reflexivity|]. split; [reflexivity|].
    apply bind_inv in H.
    destruct H as [(demoId & stA & Hp & H)|(m & Hp & E)].
    + right. exists demoId, stA. split; [exact Hp|].
      apply bind_inv in H.
      destruct H as [([] & stB & _ & H)|(m & Hloop & E)];
        [discriminate|].
      injection E as <-. exact Hloop.
    + left. injection E as <-. exact Hp.
Qed.

End SubmitPaths.

(** X10. [handleSubmit] talks to the backend only for a complete form
    on an available backend.  It leaves by the availability guard
    exactly when the model does not exist, and by the validation
    guard exactly when the model exists and a required field is blank
    (empty or white space only) or no tag is selected; in both cases
    the backend receives no call and the form keeps its fields, its
    tags, its editing id and stays as open as it was, and in the
    second the error flags tell which entries are missing. *)
Theorem X10_handleSubmit_guards :
  forall (s : AdminState.t) (st : Async.Store),
    let out := AdminInterface.handleSubmit s st in
    (fst out = Async.Returned AdminInterface.Unavailable
     <-> AdminState.modelExists s = false) /\
    (fst out = Async.Returned AdminInterface.Invalid
     <-> AdminState.modelExists s = true /\ formIncomplete s) /\
    (AdminState.modelExists s = false \/ formIncomplete s ->
     snd (snd out) = snd st /\
     AdminState.formData (fst (snd out)) = AdminState.formData (fst st) /\
     AdminState.selectedTags (fst (snd out))
     = AdminState.selectedTags (fst st) /\
     AdminState.editingId (fst (snd out)) = AdminState.editingId (fst st) /\
     AdminState.isFormOpen (fst (snd out))
     = AdminState.isFormOpen (fst st)) /\
    (AdminState.modelExists s = true -> formIncomplete s ->
     AdminState.formErrors (fst (snd out)) = formErrorsOf s).
Proof.
  intros s st out. subst out.
  destruct (AdminInterface.handleSubmit s st) as [o st'] eqn:E.
  apply handleSubmit_paths in E. cbv zeta in E. simpl.
  destruct E as [(Hm & -> & ->)
                |[(Hm & Hv & -> & ->)
                 |[(Hm & Hv & demoId & stA & stB & _ & _ & -> & _)
                  |(Hm & Hv & msg & st2 & -> & _)]]].
  - split; [tauto|]. split; [|split].
    + split; [discriminate | intros [H _]; congruence].
    + intros _. repeat split.
    + congruence.
  - apply formValid_false_iff in Hv. split; [|split; [|split]].
    + split; [discriminate | congruence].
    + tauto.
    + intros _. repeat split.
    + intros _ _. reflexivity.
  - assert (Hc : ~ formIncomplete s).
    { intros H. apply formValid_false_iff in H. congruence. }
    split; [|split; [|split]].
    + split; [discriminate | congruence].
    + split; [discriminate | tauto].
    + intros [H|H]; [congruence | contradiction].
    + intros _ H. contradiction.
  - assert (Hc : ~ formIncomplete s).
    { intros H. apply formValid_false_iff in H. congruence. }
    split; [|split; [|split]].
    + split; [discriminate | congruence].
    + split; [discriminate | tauto].
    + intros [H|H]; [congruence | contradiction].
    + intros _ H. contradiction.
Qed.

(** A project name of three blanks is refused, and flagged. *)
Example handleSubmit_blank_name :
  let out := AdminInterface.handleSubmit blankNameForm
               (blankNameForm, quietWorld [] [] []) in
  fst out = Async.Returned AdminInterface.Invalid /\
  Backend.calls (snd (snd out)) = [] /\
  AdminState.formErrors (fst (snd out))
  = FormErrors.mk true false false false false.
Proof. repeat split. Qed.

Section SubmitCompleted.

Import Async.


End SubmitCompleted.


(* ================================================================== *)
(** * What a completed submission writes *)
(* ================================================================== *)

Section SubmitEffects.

Import Async Backend.

Lemma sameScript_refl (w : World) : sameScript w w.
Proof. now repeat split. Qed.

Lemma sameScript_trans (w1 w2 w3 : World) :
  sameScript w1 w2 -> sameScript w2 w3 -> sameScript w1 w3.
Proof.
  intros (F1 & N1 & S1) (F2 & N2 & S2). repeat split; congruence.
Qed.

Lemma linksCreated_tagIds (newId : nat -> string) (n : nat)
    (demoId : string) (tags : list string) :
  map DemoTagRecord.tagId (linksCreated newId n demoId tags) = tags.
Proof.
  revert n. induction tags as [|t tags IH]; intros n; simpl;
    [reflexivity | now rewrite IH].
Qed.

Lemma linksCreated_demoId (newId : nat -> string) (n : nat)
    (demoId : string) (tags : list string) :
  Forall (fun r => DemoTagRecord.demoId r = demoId)
         (linksCreated newId n demoId tags).
Proof.
  revert n. induction tags as [|t tags IH]; intros n; simpl;
    constructor; [reflexivity | apply IH].
Qed.

Lemma linksCreated_ids (newId : nat -> string) (n : nat)
    (demoId : string) (tags : list string) :
  map DemoTagRecord.id (linksCreated newId n demoId tags)
  = map newId (seq n (length tags)).
Proof.
  revert n. induction tags as [|t tags IH]; intros n; simpl;
    [reflexivity | now rewrite IH].
Qed.

(** A loop of creations that runs to its end appends one relationship
    per tag, in order. *)
Lemma createAll_returned (demoId : string) (tags : list string)
    (st st' : Store) :
  forEach tags (fun tagId => Client.demoTagCreate demoId tagId) st
  = (Returned tt, st') ->
  fst st' = fst st /\
  demoTable (snd st') = demoTable (snd st) /\
  tagTable (snd st') = tagTable (snd st) /\
  demoTagTable (snd st')
  = demoTagTable (snd st) ++
    linksCreated (newId (snd st)) (length (calls (snd st))) demoId tags /\
  calls (snd st')
  = calls (snd st) ++ map (DemoTagCreate demoId) tags /\
  sameScript (snd st) (snd st').
Proof.
  revert st. induction tags as [|t tags IH]; intros st H.
  - simpl in H. unfold ret in H. injection H as <-.
    rewrite !app_nil_r. repeat split.
  - simpl in H. apply bind_inv in H.
    destruct H as [([] & st1 & H1 & H2)|(msg & _ & E)]; [|discriminate].
    apply request_returned in H1. destruct H1 as (_ & H1 & Hs1).
    injection H1 as H1. apply IH in H2.
    destruct H2 as (Hs2 & Hd2 & Ht2 & Hdt2 & Hc2 & Hscript).
    rewrite <- H1 in *. simpl in *.
    split; [congruence|]. split; [exact Hd2|]. split; [exact Ht2|].
    split; [|split].
    + rewrite Hdt2, <- app_assoc. simpl. rewrite length_app. simpl.
      now rewrite Nat.add_1_r.
    + rewrite Hc2, <- app_assoc. reflexivity.
    + destruct Hscript as (F & N & S). repeat split; assumption.
Qed.

(** Whatever its outcome, a loop of deletions leaves the script of
    the backend alone. *)
Lemma deleteAll_sameScript (rs : list DemoTagRecord.t) (st st' : Store)
    (o : Outcome unit) :
  forEach rs (fun demoTag => Client.demoTagDelete (DemoTagRecord.id demoTag))
    st = (o, st') ->
  sameScript (snd st) (snd st').
Proof.
  revert st. induction rs as [|r rs IH]; intros st H.
  - simpl in H. unfold ret in H. injection H as _ <-. apply sameScript_refl.
  - simpl in H. apply bind_inv in H.
    destruct H as [([] & st1 & H1 & H2)|(msg & H1 & _)].
    + apply request_returned in H1. destruct H1 as (_ & H1 & _).
      injection H1 as H1. apply IH in H2.
      eapply sameScript_trans; [|exact H2]. rewrite <- H1.
      now repeat split.
    + apply request_thrown in H1. destruct H1 as [_ ->].
      now repeat split.
Qed.

(** The preparation of a creation: one [Demo.create]. *)
Lemma prepareDemo_create (s : AdminState.t) (st stA : Store)
    (demoId : string) :
  JS.truthyField (AdminState.editingId s) = false ->
  prepareDemo s st = (Returned demoId, stA) ->
  let w := snd st in
  let n := length (calls w) in
  demoId = newId w n /\
  fst stA = fst st /\
  demoTable (snd stA)
  = demoTable w ++
    [demoWritten (newId w n) (AdminState.formData s) (stamp w n) (stamp w n)] /\
  tagTable (snd stA) = tagTable w /\
  demoTagTable (snd stA) = demoTagTable w /\
  calls (snd stA) = calls w ++ [DemoCreate (AdminState.formData s)] /\
  sameScript w (snd stA).
Proof.
  intros Hmode H. unfold prepareDemo in H. rewrite Hmode in H.
  apply bind_inv in H.
  destruct H as [(resp & st1 & H1 & H)|(msg & _ & E)]; [|discriminate].
  apply request_returned in H1. destruct H1 as (_ & H1 & Hs1).
  injection H1 as <- H1. unfold ret in H. injection H as <- <-.
  rewrite <- H1. simpl. repeat split; try assumption.
  destruct (JS.truthy (newId (snd st) (length (calls (snd st))))) eqn:E;
    [reflexivity|].
  now apply truthy_false_iff in E.
Qed.

(** The preparation of an edit: one [Demo.update], the listing of the
    demo's relationships and the deletion of each. *)
Lemma prepareDemo_edit (s : AdminState.t) (st stA : Store)
    (demoId : string) :
  JS.truthyField (AdminState.editingId s) = true ->
  prepareDemo s st = (Returned demoId, stA) ->
  let w := snd st in
  let n := length (calls w) in
  AdminState.editingId s = Some demoId /\
  demoTable (snd stA)
  = demosUpdated demoId (AdminState.formData s) (stamp w n) (demoTable w) /\
  tagTable (snd stA) = tagTable w /\
  demoTagTable (snd stA)
  = filter (notAmong (linksOf w demoId)) (demoTagTable w) /\
  calls (snd stA)
  = calls w ++
    DemoUpdate demoId (AdminState.formData s) :: DemoTagList demoId
    :: deleteCalls (linksOf w demoId) /\
  sameScript w (snd stA).
Proof.
  intros Hmode H. unfold prepareDemo in H. rewrite Hmode in H.
  destruct (orElse_present _ "" Hmode) as [_ Hid].
  set (editing := JS.orElse (AdminState.editingId s) "") in *.
  apply bind_inv in H.
  destruct H as [([] & st1 & H1 & H)|(msg & _ & E)]; [|discriminate].
  apply request_returned in H1. destruct H1 as (_ & H1 & _).
  injection H1 as H1.
  apply bind_inv in H.
  destruct H as [(resp & st2 & H2 & H)|(msg & _ & E)]; [|discriminate].
  apply request_returned in H2. destruct H2 as (_ & H2 & _).
  injection H2 as <- H2.
  apply bind_inv in H.
  destruct H as [([] & st3 & H3 & H)|(msg & _ & E)]; [|discriminate].
  pose proof (deleteAll_sameScript _ _ _ _ H3) as Hscript.
  apply deleteAll_returned in H3.
  destruct H3 as (_ & Hd3 & Ht3 & Hdt3 & Hc3 & Hf3).
  unfold bind, set, ret in H. simpl in H. injection H as <- <-.
  simpl. rewrite <- H2 in *. rewrite <- H1 in *. simpl in *.
  fold (linksOf (snd st) editing) in *.
  split; [exact Hid|]. split; [exact Hd3|]. split; [exact Ht3|].
  split; [exact Hdt3|]. split.
  - rewrite Hc3, <- !app_assoc. reflexivity.
  - exact Hscript.
Qed.

End SubmitEffects.

Section SubmitWrites.

Import Async Backend.

(** X12. A submission of the creation form that reaches the end of
    its [try] block has appended to the backend one demo record with
    the fields of the form and, after it, one relationship per
    selected tag, in the order of the selection, each referencing the
    new demo; the tags and every record that existed are untouched,
    and the calls were one [Demo.create] followed by the
    [DemoTag.create]s. *)
Theorem X12_completed_creation_writes :
  forall (s s0 : AdminState.t) (w : World) (st' : Store),
    JS.truthyField (AdminState.editingId s) = false ->
    AdminInterface.handleSubmit s (s0, w)
    = (Returned AdminInterface.Completed, st') ->
    let n := length (calls w) in
    let id := newId w n in
    let links :=
      linksCreated (newId w) (S n) id (AdminState.selectedTags s) in
    demoTable (snd st')
    = demoTable w ++
      [demoWritten id (AdminState.formData s) (stamp w n) (stamp w n)] /\
    demoTagTable (snd st') = demoTagTable w ++ links /\
    map DemoTagRecord.tagId links = AdminState.selectedTags s /\
    Forall (fun r => DemoTagRecord.demoId r = id) links /\
    tagTable (snd st') = tagTable w /\
    calls (snd st')
    = calls w ++
      DemoCreate (AdminState.formData s)
      :: map (DemoTagCreate id) (AdminState.selectedTags s).
Proof.
  intros s s0 w st' Hmode H. cbv zeta.
  apply handleSubmit_paths in H. cbv zeta in H.
  destruct H as [(_ & E & _)
                |[(_ & _ & E & _)
                 |[(Hm & Hv & demoId & stA & stB & Hp & Hloop & _ & ->)
                  |(_ & _ & msg & st2 & E & _)]]];
    try discriminate.
  apply (prepareDemo_create _ _ _ _ Hmode) in Hp. simpl in Hp.
  destruct Hp as (-> & _ & HdA & HtA & HdtA & HcA & (_ & HnA & _)).
  apply createAll_returned in Hloop.
  destruct Hloop as (_ & HdB & HtB & HdtB & HcB & _).
  simpl snd.
  split; [congruence|]. split; [|split; [|split; [|split]]].
  - rewrite HdtB, HdtA, HnA, HcA, length_app. simpl.
    now rewrite Nat.add_1_r.
  - apply linksCreated_tagIds.
  - apply linksCreated_demoId.
  - congruence.
  - rewrite HcB, HcA, <- app_assoc. reflexivity.
Qed.

Lemma linksOf_app (w : World) (demoId : string)
    (old new : list DemoTagRecord.t) :
  demoTagTable w = old ++ new ->
  (forall r, In r old -> DemoTagRecord.demoId r <> demoId) ->
  Forall (fun r => DemoTagRecord.demoId r = demoId) new ->
  linksOf w demoId = new.
Proof.
  intros E Hold Hnew. unfold linksOf. rewrite E, filter_app.
  replace (filter _ old) with (@nil DemoTagRecord.t).
  - simpl. apply filter_all_In. intros r Hr.
    rewrite Forall_forall in Hnew. apply String.eqb_eq. now apply Hnew.
  - symmetry. clear E. revert Hold.
    induction old as [|r old IH]; intros Hold; [reflexivity|]. simpl.
    destruct (String.eqb_spec (DemoTagRecord.demoId r) demoId) as [E'|_].
    + exfalso. apply (Hold r); [now left | exact E'].
    + apply IH. intros r' Hr'. apply Hold. now right.
Qed.

(** X13. A submission of the edit form that reaches the end of its
    [try] block leaves the edited demo with exactly the selected
    tags, in the order of the selection: its former relationships are
    gone and one new relationship per selected tag references it.
    The fields of the form are written to the demo's record, whose
    identity and creation time stay; the records of other demos and
    the tags are untouched. *)
Theorem X13_completed_edit_replaces_tags :
  forall (s s0 : AdminState.t) (w : World) (st' : Store) (id : string),
    AdminState.editingId s = Some id -> id <> "" ->
    AdminInterface.handleSubmit s (s0, w)
    = (Returned AdminInterface.Completed, st') ->
    let n := length (calls w) in
    map DemoTagRecord.tagId (linksOf (snd st') id)
    = AdminState.selectedTags s /\
    demoTagTable (snd st')
    = filter (notAmong (linksOf w id)) (demoTagTable w) ++
      linksCreated (newId w) (n + 2 + length (linksOf w id)) id
        (AdminState.selectedTags s) /\
    demoTable (snd st')
    = demosUpdated id (AdminState.formData s) (stamp w n) (demoTable w) /\
    map DemoItem.id (demoTable (snd st')) = map DemoItem.id (demoTable w) /\
    (forall d, In d (demoTable w) -> DemoItem.id d <> id ->
               In d (demoTable (snd st'))) /\
    tagTable (snd st') = tagTable w /\
    calls (snd st')
    = calls w ++
      DemoUpdate id (AdminState.formData s) :: DemoTagList id
      :: deleteCalls (linksOf w id) ++
         map (DemoTagCreate id) (AdminState.selectedTags s).
Proof.
  intros s s0 w st' id Hid Hne H. cbv zeta.
  assert (Hmode : JS.truthyField (AdminState.editingId s) = true).
  { rewrite Hid. simpl. now apply truthy_true_iff. }
  apply handleSubmit_paths in H. cbv zeta in H.
  destruct H as [(_ & E & _)
                |[(_ & _ & E & _)
                 |[(Hm & Hv & demoId & stA & stB & Hp & Hloop & _ & ->)
                  |(_ & _ & msg & st2 & E & _)]]];
    try discriminate.
  apply (prepareDemo_edit _ _ _ _ Hmode) in Hp. simpl in Hp.
  destruct Hp as (Hid' & HdA & HtA & HdtA & HcA & (_ & HnA & _)).
  rewrite Hid in Hid'. injection Hid' as <-.
  apply createAll_returned in Hloop.
  destruct Hloop as (_ & HdB & HtB & HdtB & HcB & _).
  simpl snd.
  assert (Htable :
    demoTagTable (snd stB)
    = filter (notAmong (linksOf w id)) (demoTagTable w) ++
      linksCreated (newId w) (length (calls w) + 2 + length (linksOf w id))
        id (AdminState.selectedTags s)).
  { rewrite HdtB, HdtA, HnA, HcA. f_equal. f_equal.
    rewrite length_app. simpl. unfold deleteCalls.
    rewrite length_map. lia. }
  split; [|split; [exact Htable|split; [|split; [|split; [|split]]]]].
  - rewrite (linksOf_app _ id _ _ Htable).
    + apply linksCreated_tagIds.
    + intros r. apply notAmong_links.
    + apply linksCreated_demoId.
  - congruence.
  - rewrite HdB, HdA. unfold demosUpdated. rewrite map_map.
    apply map_ext. intros d. now destruct (Client.matchesId id d).
  - intros d Hin Hd. rewrite HdB, HdA. unfold demosUpdated.
    apply in_map_iff. exists d. split; [|exact Hin].
    unfold Client.matchesId.
    now rewrite (proj2 (String.eqb_neq _ _) Hd).
  - congruence.
  - rewrite HcB, HcA, <- app_assoc. reflexivity.
Qed.

End SubmitWrites.

Lemma X12_witness_create :
  map Backend.DemoTagRecord.tagId
    (linksCreated (Backend.newId cascadeWorld) 1
       (Backend.newId cascadeWorld 0) ["tagA"; "tagB"])
  = ["tagA"; "tagB"] /\
  map DemoItem.id (Backend.demoTable (snd (snd afterCreate)))
  = ["d1"; "d2"; "0-new"].
Proof.
  split; [|reflexivity].
  exact (proj1 (proj2 (proj2
    (X12_completed_creation_writes createForm createForm cascadeWorld
       (snd afterCreate) eq_refl eq_refl)))).
Defined.

Lemma X13_witness_edit :
  map Backend.DemoTagRecord.tagId (linksOf (snd (snd afterEdit)) "d1")
  = ["tagB"].
Proof.
  assert (Hid : "d1" <> "") by discriminate.
  exact (proj1 (X13_completed_edit_replaces_tags editForm editForm editWorld
                  (snd afterEdit) "d1" eq_refl Hid eq_refl)).
Defined.

(* ================================================================== *)
(** * The paths through [deleteDemo] *)
(* ================================================================== *)

Section DeletePaths.

Import Async Backend.

(** A loop of deletions that is left by an exception has deleted the
    records before the one whose deletion was rejected, and no
    other. *)
Lemma deleteAll_thrown (rs : list DemoTagRecord.t) (st st' : Store)
    (msg : string) :
  forEach rs (fun demoTag => Client.demoTagDelete (DemoTagRecord.id demoTag))
    st = (Thrown msg, st') ->
  exists done failed rest,
    rs = done ++ failed :: rest /\
    fst st' = fst st /\
    demoTable (snd st') = demoTable (snd st) /\
    tagTable (snd st') = tagTable (snd st) /\
    demoTagTable (snd st') = filter (notAmong done) (demoTagTable (snd st)).
Proof.
  revert st. induction rs as [|r rs IH]; intros st H.
  - discriminate.
  - simpl in H. apply bind_inv in H.
    destruct H as [([] & st1 & H1 & H2)|(m & H1 & E)].
    + apply demoTagDelete_returned in H1.
      destruct H1 as (Hs1 & Hd1 & Ht1 & Hdt1 & _).
      apply IH in H2.
      destruct H2 as (done & failed & rest & -> & Hs2 & Hd2 & Ht2 & Hdt2).
      exists (r :: done), failed, rest.
      split; [reflexivity|]. repeat split; try congruence.
      rewrite Hdt2, Hdt1. clear.
      induction (demoTagTable (snd st)) as [|x xs IHx]; [reflexivity|].
      unfold notAmong in *. simpl.
      destruct (DemoTagRecord.id x =? DemoTagRecord.id r)%string; simpl.
      * exact IHx.
      * destruct (existsb _ done); simpl; [exact IHx | now rewrite IHx].
    + apply request_thrown in H1. destruct H1 as [_ ->]. simpl.
      exists [], r, rs. repeat split.
      symmetry. now apply filter_all.
Qed.

(** The four ways [deleteDemo] can go, with what each leaves. *)
Lemma deleteDemo_paths (confirm : bool) (s s0 : AdminState.t) (w : World)
    (id : string) (st' : Store) (o : Outcome AdminInterface.Exit) :
  AdminInterface.deleteDemo confirm s id (s0, w) = (o, st') ->
  (AdminState.modelExists s = false /\
   o = Returned AdminInterface.Unavailable /\
   st' = (AdminState.setDebugInfo
            (fun _ =>
               "Cannot delete: Demo model is not available in the backend yet.")
            s0, w)) \/
  (AdminState.modelExists s = true /\ confirm = false /\
   o = Returned AdminInterface.Declined /\ st' = (s0, w)) \/
  (AdminState.modelExists s = true /\ confirm = true /\
   o = Returned AdminInterface.Completed /\
   fst st' = s0 /\
   demoTable (snd st')
   = filter (fun d => negb (Client.matchesId id d)) (demoTable w) /\
   tagTable (snd st') = tagTable w /\
   demoTagTable (snd st')
   = filter (notAmong (linksOf w id)) (demoTagTable w)) \/
  (AdminState.modelExists s = true /\ confirm = true /\
   exists msg,
     o = Returned (AdminInterface.Failed msg) /\
     fst st'
     = AdminState.setDebugInfo
         (fun _ => ("Error deleting demo: " ++ msg)%string) s0 /\
     demoTable (snd st') = demoTable w /\
     tagTable (snd st') = tagTable w /\
     exists done rest,
       linksOf w id = done ++ rest /\
       demoTagTable (snd st') = filter (notAmong done) (demoTagTable w)).
Proof.
  intros H. unfold AdminInterface.deleteDemo in H.
  destruct (AdminState.modelExists s) eqn:Hm; simpl in H.
  2:{ left. unfold bind, set, ret in H. simpl in H.
      injection H as <- <-. auto. }
  right. destruct confirm.
  2:{ left. unfold ret in H. injection H as <- <-. auto. }
  right. apply tryCatch_inv in H.
  destruct H as [(a & H & ->)|(msg & st2 & H & Hcatch)].
  - left. split; [reflexivity|]. split; [reflexivity|].
    apply bind_inv in H.
    destruct H as [(resp & st1 & Hlist & H)|(m & _ & E)]; [|discriminate].
    apply request_returned in Hlist. destruct Hlist as (_ & Hlist & Hs1).
    simpl in Hlist, Hs1. injection Hlist as <- Hw1.
    apply bind_inv in H.
    destruct H as [([] & st2 & Hloop & H)|(m & _ & E)]; [|discriminate].
    apply deleteAll_returned in Hloop.
    destruct Hloop as (Hs2 & Hd2 & Ht2 & Hdt2 & _).
    apply bind_inv in H.
    destruct H as [([] & st3 & Hdel & H)|(m & _ & E)]; [|discriminate].
    unfold ret in H. injection H as <- <-.
    apply request_returned in Hdel. destruct Hdel as (_ & Hdel & Hs3).
    injection Hdel as Hw3. rewrite <- Hw3. rewrite <- Hw1 in *.
    simpl in *. unfold linksOf. repeat split; congruence.
  - right. split; [reflexivity|]. split; [reflexivity|].
    unfold bind, set, ret in Hcatch. simpl in Hcatch.
    injection Hcatch as <- <-. exists msg. split; [reflexivity|]. simpl.
    apply bind_inv in H.
    destruct H as [(resp & st1 & Hlist & H)|(m & Hlist & _)].
    2:{ apply request_thrown in Hlist. destruct Hlist as [_ ->]. simpl.
        repeat split. exists [], (linksOf w id). split; [reflexivity|].
        symmetry. now apply filter_all. }
    apply request_returned in Hlist. destruct Hlist as (_ & Hlist & Hs1).
    simpl in Hlist, Hs1. injection Hlist as <- Hw1.
    apply bind_inv in H.
    destruct H as [([] & st3 & Hloop & H)|(m & Hloop & _)].
    2:{ apply deleteAll_thrown in Hloop.
        destruct Hloop as (done & failed & rest & E & Hs & Hd & Ht & Hdt).
        rewrite <- Hw1 in *. simpl in *.
        split; [congruence|]. split; [exact Hd|]. split; [exact Ht|].
        exists done, (failed :: rest). split; [exact E | exact Hdt]. }
    apply deleteAll_returned in Hloop.
    destruct Hloop as (Hs3 & Hd3 & Ht3 & Hdt3 & _).
    apply bind_inv in H.
    destruct H as [([] & st4 & _ & H)|(m & Hdel & _)]; [discriminate|].
    apply request_thrown in Hdel. destruct Hdel as [_ ->].
    rewrite <- Hw1 in *. simpl in *.
    split; [congruence|]. split; [exact Hd3|]. split; [exact Ht3|].
    exists (linksOf w id), []. split; [now rewrite app_nil_r | exact Hdt3].
Qed.

(** X14. A deletion that is left by an exception never removes the
    demo record: the demo table and the tags are as before, the
    diagnostic names the error, and of the demo's relationships
    exactly a leading part of the listed ones has been deleted, the
    rest staying.  A deletion that is declined, or tried without the
    backend model, sends no call at all. *)
Theorem X14_failed_deletion_keeps_demo :
  forall (confirm : bool) (s s0 : AdminState.t) (w : World) (id : string),
    let out := AdminInterface.deleteDemo confirm s id (s0, w) in
    (forall msg,
       fst out = Returned (AdminInterface.Failed msg) ->
       demoTable (snd (snd out)) = demoTable w /\
       tagTable (snd (snd out)) = tagTable w /\
       fst (snd out)
       = AdminState.setDebugInfo
           (fun _ => ("Error deleting demo: " ++ msg)%string) s0 /\
       exists done rest,
         linksOf w id = done ++ rest /\
         demoTagTable (snd (snd out))
         = filter (notAmong done) (demoTagTable w)) /\
    (fst out = Returned AdminInterface.Declined
     \/ fst out = Returned AdminInterface.Unavailable ->
     snd (snd out) = w) /\
    (fst out = Returned AdminInterface.Declined <->
     AdminState.modelExists s = true /\ confirm = false).
Proof.
  intros confirm s s0 w id out. subst out.
  destruct (AdminInterface.deleteDemo confirm s id (s0, w)) as [o st']
    eqn:E.
  apply deleteDemo_paths in E. simpl.
  destruct E as [(Hm & -> & ->)
                |[(Hm & Hc & -> & ->)
                 |[(Hm & Hc & -> & _)
                  |(Hm & Hc & msg & -> & Hs & Hd & Ht & Hrest)]]].
  - split; [discriminate|]. split; [reflexivity|].
    split; [discriminate | intros [H _]; congruence].
  - split; [discriminate|]. split; [reflexivity|]. tauto.
  - split; [discriminate|]. split; [intros [H|H]; discriminate|].
    split; [discriminate | intros [_ H]; congruence].
  - split; [|split].
    + intros msg' E. injection E as <-. auto.
    + intros [H|H]; discriminate.
    + split; [discriminate | intros [_ H]; congruence].
Qed.

End DeletePaths.

(** The second deletion of a relationship is rejected: r1 is gone, r2
    and the demo d1 are still there. *)
Example deleteDemo_fails_halfway :
  fst afterFailedDelete = Async.Returned (AdminInterface.Failed "Timeout") /\
  map Backend.DemoTagRecord.id
    (Backend.demoTagTable (snd (snd afterFailedDelete))) = ["r2"; "r3"] /\
  map DemoItem.id (Backend.demoTable (snd (snd afterFailedDelete)))
  = ["d1"; "d2"].
Proof. repeat split. Qed.

(* ================================================================== *)
(** * Creating a demo, then deleting it *)
(* ================================================================== *)

Section CreateThenDelete.

Import Async Backend.

Lemma filter_none {A : Type} (p : A -> bool) (xs : list A) :
  (forall x, In x xs -> p x = false) -> filter p xs = [].
Proof.
  induction xs as [|x xs IH]; intros H; simpl; [reflexivity|].
  rewrite (H x (or_introl eq_refl)). apply IH. intros y Hy. apply H.
  now right.
Qed.

Lemma notAmong_self (rs : list DemoTagRecord.t) (r : DemoTagRecord.t) :
  In r rs -> notAmong rs r = false.
Proof.
  intros H. unfold notAmong. apply negb_false_iff, existsb_exists.
  exists r. split; [exact H | apply String.eqb_refl].
Qed.

Lemma notAmong_fresh (rs : list DemoTagRecord.t) (r : DemoTagRecord.t) :
  ~ In (DemoTagRecord.id r) (map DemoTagRecord.id rs) ->
  notAmong rs r = true.
Proof.
  intros H. unfold notAmong. apply negb_true_iff.
  destruct (existsb _ rs) eqn:E; [|reflexivity].
  apply existsb_exists in E. destruct E as (x & Hx & Hid).
  apply String.eqb_eq in Hid. exfalso. apply H. rewrite Hid.
  now apply in_map.
Qed.

(** X15. Creating a demo through the form and then deleting it gives
    back the backend's collections as they were: when the identities
    the backend hands out for the new demo and its relationships are
    not in use, a completed creation followed by a completed deletion
    of the new demo leaves the demos, the relationships and the tags
    exactly as before the creation. *)
Theorem X15_create_then_delete_restores :
  forall (s s0 sd sd0 : AdminState.t) (w : World) (st1 st2 : Store),
    let n := length (calls w) in
    let id := newId w n in
    JS.truthyField (AdminState.editingId s) = false ->
    AdminInterface.handleSubmit s (s0, w)
    = (Returned AdminInterface.Completed, st1) ->
    (forall d, In d (demoTable w) -> DemoItem.id d <> id) ->
    (forall r, In r (demoTagTable w) -> DemoTagRecord.demoId r <> id) ->
    (forall r k,
       In r (demoTagTable w) ->
       k < length (AdminState.selectedTags s) ->
       DemoTagRecord.id r <> newId w (S n + k)) ->
    AdminInterface.deleteDemo true sd id (sd0, snd st1)
    = (Returned AdminInterface.Completed, st2) ->
    demoTable (snd st2) = demoTable w /\
    demoTagTable (snd st2) = demoTagTable w /\
    tagTable (snd st2) = tagTable w.
Proof.
  intros s s0 sd sd0 w st1 st2 n id Hmode Hsubmit Fd Fr Fk Hdelete.
  apply handleSubmit_paths in Hsubmit. cbv zeta in Hsubmit.
  destruct Hsubmit as [(_ & E & _)
                |[(_ & _ & E & _)
                 |[(Hm & Hv & demoId & stA & stB & Hp & Hloop & _ & ->)
                  |(_ & _ & msg & st2' & E & _)]]];
    try discriminate.
  apply (prepareDemo_create _ _ _ _ Hmode) in Hp. simpl in Hp.
  destruct Hp as (-> & _ & HdA & HtA & HdtA & HcA & (_ & HnA & _)).
  apply createAll_returned in Hloop.
  destruct Hloop as (_ & HdB & HtB & HdtB & HcB & _).
  simpl snd in Hdelete.
  assert (Hlinks :
    demoTagTable (snd stB)
    = demoTagTable w ++
      linksCreated (newId w) (S n) id (AdminState.selectedTags s)).
  { rewrite HdtB, HdtA, HnA, HcA, length_app. simpl.
    now rewrite Nat.add_1_r. }
  set (links := linksCreated (newId w) (S n) id (AdminState.selectedTags s))
    in *.
  apply deleteDemo_paths in Hdelete.
  destruct Hdelete as [(_ & E & _)
                      |[(_ & _ & E & _)
                       |[(_ & _ & _ & _ & Hd2 & Ht2 & Hdt2)
                        |(_ & _ & msg & E & _)]]];
    try discriminate.
  split; [|split].
  - rewrite Hd2, HdB, HdA, filter_app. simpl.
    unfold Client.matchesId at 2. simpl. rewrite String.eqb_refl. simpl.
    rewrite app_nil_r. apply filter_all_In. intros d Hd.
    apply negb_true_iff, String.eqb_neq. now apply Fd.
  - rewrite Hdt2.
    rewrite (linksOf_app (snd stB) id (demoTagTable w) links Hlinks Fr)
      by apply linksCreated_demoId.
    rewrite Hlinks, filter_app.
    rewrite (filter_none (notAmong links) links)
      by (intros r Hr; now apply notAmong_self).
    rewrite app_nil_r. apply filter_all_In. intros r Hr.
    apply notAmong_fresh. unfold links. rewrite linksCreated_ids.
    intros Hin. apply in_map_iff in Hin. destruct Hin as (k & Ek & Hk).
    apply in_seq in Hk.
    apply (Fk r (k - S n) Hr); [lia|].
    replace (S n + (k - S n)) with k by lia. now symmetry.
  - congruence.
Qed.

End CreateThenDelete.

Lemma X15_witness_roundtrip :
  Backend.demoTagTable
    (snd (snd (AdminInterface.deleteDemo true createForm "0-new"
                 (createForm, snd (snd afterCreate)))))
  = Backend.demoTagTable cascadeWorld.
Proof.
  assert (Fd : forall d, In d (Backend.demoTable cascadeWorld) ->
                         DemoItem.id d <> "0-new").
  { intros d [<-|[<-|[]]]; discriminate. }
  assert (Fr : forall r, In r (Backend.demoTagTable cascadeWorld) ->
                         Backend.DemoTagRecord.demoId r <> "0-new").
  { intros r [<-|[<-|[<-|[]]]]; discriminate. }
  assert (Fk : forall r k,
             In r (Backend.demoTagTable cascadeWorld) ->
             k < 2 ->
             Backend.DemoTagRecord.id r
             <> Backend.newId cascadeWorld (1 + k)).
  { intros r [|[|k]] Hr Hk; [| |lia];
      destruct Hr as [<-|[<-|[<-|[]]]]; discriminate. }
  exact (proj1 (proj2
    (X15_create_then_delete_restores createForm createForm createForm
       createForm cascadeWorld (snd afterCreate)
       (snd (AdminInterface.deleteDemo true createForm "0-new"
               (createForm, snd (snd afterCreate))))
       eq_refl eq_refl Fd Fr Fk eq_refl))).
Defined.

(* ================================================================== *)
(** * The paths through [handleAddTag] *)
(* ================================================================== *)




Lemma orElse_Some_empty (v : string) : JS.orElse (Some v) "" = v.
Proof.
  simpl. destruct (JS.truthy v) eqn:E; [reflexivity|].
  apply truthy_false_iff in E. now subst.
Qed.

Section AddTagPaths.

Import Async Backend.

(** The four ways [handleAddTag] can go, with what each leaves. *)
Lemma handleAddTag_paths (s : AdminState.t) (st st' : Store)
    (o : Outcome AdminInterface.Exit) :
  AdminInterface.handleAddTag s st = (o, st') ->
  let w := snd st in
  let n := length (calls w) in
  let name := JS.trim (AdminState.newTagName s) in
  let color := AdminInterface.getNextAvailableColor s in
  (name = "" /\
   o = Returned AdminInterface.Invalid /\
   st' = (AdminState.setAddTagError (fun _ => true) (fst st), w)) \/
  (name <> "" /\
   Spec.nameTaken (AdminState.availableTags s) (AdminState.newTagName s) /\
   o = Returned AdminInterface.Invalid /\
   st' = (AdminState.setAddTagError (fun _ => true) (fst st), w)) \/
  (name <> "" /\
   ~ Spec.nameTaken (AdminState.availableTags s) (AdminState.newTagName s) /\
   o = Returned AdminInterface.Completed /\
   fault w n = None /\
   snd st' = withTables w (demoTable w)
               (tagTable w ++ [TagItem.mk (newId w n) name color])
               (demoTagTable w) (TagCreate name color) /\
   fst st'
   = popupClosed
       (if JS.truthy (newId w n)
        then AdminState.setAvailableTags
               (fun prev => prev ++ [TagItem.mk (newId w n) name color])
               (fst st)
        else fst st)) \/
  (name <> "" /\
   ~ Spec.nameTaken (AdminState.availableTags s) (AdminState.newTagName s) /\
   exists msg,
     o = Returned (AdminInterface.Failed msg) /\
     fault w n = Some msg /\
     snd st' = logged w (TagCreate name color) /\
     fst st'
     = AdminState.setAddTagError (fun _ => true)
         (AdminState.setDebugInfo
            (fun prev =>
               (prev ++ AdminInterface.newline ++ "Error creating tag: "
                ++ msg)%string)
            (fst st))).
Proof.
  intros H w n name color. unfold AdminInterface.handleAddTag in H.
  fold name in H. fold color in H.
  destruct (JS.truthy name) eqn:Hname; simpl in H.
  2:{ left. apply truthy_false_iff in Hname.
      unfold bind, set, ret in H. simpl in H. injection H as <- <-. auto. }
  apply truthy_true_iff in Hname. right.
  destruct (existsb _ (AdminState.availableTags s)) eqn:Htaken.
  { left. apply nameTaken_iff in Htaken.
    unfold bind, set, ret in H. simpl in H. injection H as <- <-. auto. }
  assert (Hfree : ~ Spec.nameTaken (AdminState.availableTags s)
                      (AdminState.newTagName s)).
  { intros Hn. apply nameTaken_iff in Hn. fold name in Hn. congruence. }
  right. apply tryCatch_inv in H.
  destruct H as [(a & H & ->)|(msg & st2 & H & Hcatch)].
  - left. apply bind_inv in H.
    destruct H as [(newTag & st1 & Hcreate & H)|(m & _ & E)];
      [|discriminate].
    apply request_returned in Hcreate.
    destruct Hcreate as (Hfault & Hserve & Hs1).
    injection Hserve as <- Hw1. fold w n in Hw1, Hfault.
    cbn [RawTag.id RawTag.name RawTag.color JS.truthyField] in H.
    assert (Ecolor : JS.orElse (Some color) color = color).
    { simpl. now destruct (JS.truthy color). }
    rewrite !orElse_Some_empty, Ecolor in H. fold w n in H.
    destruct (JS.truthy (newId w n)) eqn:Hid.
    + unfold bind, set, ret in H. simpl in H. injection H as <- <-.
      simpl. rewrite Hs1. repeat split; auto.
    + unfold bind, set, ret in H. simpl in H. injection H as <- <-.
      simpl. rewrite Hs1. repeat split; auto.
  - right. split; [exact Hname|]. split; [exact Hfree|].
    unfold bind, set, ret in Hcatch. simpl in Hcatch.
    injection Hcatch as <- <-. exists msg. split; [reflexivity|].
    apply bind_inv in H.
    destruct H as [(newTag & st1 & Hcreate & H)|(m & Hcreate & E)].
    + exfalso.
      destruct newTag as [data|];
        [destruct (JS.truthyField (RawTag.id data))|];
        unfold bind, set, ret in H; simpl in H; discriminate.
    + injection E as <-. apply request_thrown in Hcreate.
      destruct Hcreate as [Hfault ->]. simpl. auto.
Qed.

End AddTagPaths.

Section AddTagFacts.

Import Async Backend.

Lemma nameTaken_lowerNames (tags : list TagItem.t) (proposed : string) :
  Spec.nameTaken tags proposed
  <-> In (JS.toLowerCase (JS.trim proposed)) (lowerNames tags).
Proof.
  unfold Spec.nameTaken, lowerNames. rewrite in_map_iff. split.
  - intros (tag & Hin & E). now exists tag.
  - intros (tag & E & Hin). now exists tag.
Qed.


Lemma nextColor_in_palette (s : AdminState.t) :
  In (AdminInterface.getNextAvailableColor s) AdminInterface.TAG_COLORS.
Proof.
  unfold AdminInterface.getNextAvailableColor.
  match goal with |- context [filter ?p AdminInterface.TAG_COLORS] =>
    destruct (filter p AdminInterface.TAG_COLORS) as [|c cs] eqn:E end.
  - simpl. now left.
  - simpl. assert (H : In c (c :: cs)) by now left.
    rewrite <- E in H. now apply filter_In in H.
Qed.

Lemma nextColor_free (s : AdminState.t) :
  (exists color,
     In color AdminInterface.TAG_COLORS /\
     ~ Spec.colorUsed (AdminState.availableTags s) color) ->
  ~ Spec.colorUsed (AdminState.availableTags s)
      (AdminInterface.getNextAvailableColor s).
Proof.
  intros (color & Hin & Hfree).
  unfold AdminInterface.getNextAvailableColor.
  match goal with |- context [filter ?p AdminInterface.TAG_COLORS] =>
    set (free := p);
    destruct (filter free AdminInterface.TAG_COLORS) as [|c cs] eqn:E end.
  - exfalso. assert (H : In color (filter free AdminInterface.TAG_COLORS)).
    { apply filter_In. split; [exact Hin|]. unfold free.
      apply negb_true_iff.
      destruct (JS.arrayIncludes _ color) eqn:Hc; [|reflexivity].
      apply colorUsed_iff in Hc. contradiction. }
    rewrite E in H. destruct H.
  - simpl. assert (H : In c (c :: cs)) by now left.
    rewrite <- E in H. apply filter_In in H. destruct H as [_ H].
    unfold free in H. apply negb_true_iff in H. intros Hu.
    apply colorUsed_iff in Hu. congruence.
Qed.

(** X17. When [handleAddTag] reaches the end of its [try] block, the
    backend has gained exactly one tag, named by the trimmed proposal
    and coloured from the palette; as long as some palette colour is
    not used by an available tag, the colour of the new tag is used
    by none of them. *)
Theorem X17_new_tag_gets_a_free_colour :
  forall (s : AdminState.t) (st : Store),
    let out := AdminInterface.handleAddTag s st in
    fst out = Returned AdminInterface.Completed ->
    exists tag,
      tagTable (snd (snd out)) = tagTable (snd st) ++ [tag] /\
      demoTable (snd (snd out)) = demoTable (snd st) /\
      demoTagTable (snd (snd out)) = demoTagTable (snd st) /\
      TagItem.name tag = JS.trim (AdminState.newTagName s) /\
      In (TagItem.color tag) AdminInterface.TAG_COLORS /\
      ((exists color,
          In color AdminInterface.TAG_COLORS /\
          ~ Spec.colorUsed (AdminState.availableTags s) color) ->
       ~ Spec.colorUsed (AdminState.availableTags s) (TagItem.color tag)).
Proof.
  intros s st out. subst out.
  destruct (AdminInterface.handleAddTag s st) as [o st'] eqn:E.
  apply handleAddTag_paths in E. cbv zeta in E. simpl. intros ->.
  destruct E as [(_ & E & _)
                |[(_ & _ & E & _)
                 |[(_ & _ & _ & _ & Hw & _)
                  |(_ & _ & msg & E & _)]]];
    try discriminate.
  rewrite Hw. simpl. eexists. split; [reflexivity|]. simpl.
  repeat split.
  - apply nextColor_in_palette.
  - apply nextColor_free.
Qed.

(** X18. When the creation of the tag is rejected, [handleAddTag]
    leaves the backend's collections and the list of available tags
    as they were and the popup open on what was typed, raises the
    error flag and appends the error to the diagnostics. *)
Theorem X18_failed_tag_creation_keeps_popup :
  forall (s : AdminState.t) (st : Store) (msg : string),
    let out := AdminInterface.handleAddTag s st in
    fst out = Returned (AdminInterface.Failed msg) ->
    tagTable (snd (snd out)) = tagTable (snd st) /\
    demoTable (snd (snd out)) = demoTable (snd st) /\
    demoTagTable (snd (snd out)) = demoTagTable (snd st) /\
    AdminState.availableTags (fst (snd out))
    = AdminState.availableTags (fst st) /\
    AdminState.isAddTagOpen (fst (snd out))
    = AdminState.isAddTagOpen (fst st) /\
    AdminState.newTagName (fst (snd out)) = AdminState.newTagName (fst st) /\
    AdminState.addTagError (fst (snd out)) = true /\
    AdminState.debugInfo (fst (snd out))
    = (AdminState.debugInfo (fst st) ++ AdminInterface.newline
       ++ "Error creating tag: " ++ msg)%string.
Proof.
  intros s st msg out. subst out.
  destruct (AdminInterface.handleAddTag s st) as [o st'] eqn:E.
  apply handleAddTag_paths in E. cbv zeta in E. simpl. intros ->.
  destruct E as [(_ & E & _)
                |[(_ & _ & E & _)
                 |[(_ & _ & E & _)
                  |(_ & _ & msg' & E & _ & Hw & Hs)]]];
    try discriminate.
  injection E as <-. rewrite Hw, Hs. simpl. repeat split.
Qed.

End AddTagFacts.

Lemma X17_witness_ML :
  exists tag,
    Backend.tagTable
      (snd (snd (AdminInterface.handleAddTag (addTagPopup "Games" " ML ")
                   (addTagPopup "Games" " ML ", quietWorld [] [] []))))
    = [tag] /\
    TagItem.name tag = "ML" /\ TagItem.color tag = "#3498db".
Proof.
  destruct (X17_new_tag_gets_a_free_colour (addTagPopup "Games" " ML ")
              (addTagPopup "Games" " ML ", quietWorld [] [] []) eq_refl)
    as (tag & Htable & _ & _ & Hname & _).
  exists tag. split; [exact Htable|]. split; [exact Hname|].
  simpl in Htable. injection Htable as <-. reflexivity.
Defined.

Lemma X18_witness_down :
  AdminState.isAddTagOpen
    (fst (snd (AdminInterface.handleAddTag (addTagPopup "Games" "ML")
                 (addTagPopup "Games" "ML", downWorld))))
  = true.
Proof.
  exact (proj1 (proj2 (proj2 (proj2 (proj2
    (X18_failed_tag_creation_keeps_popup (addTagPopup "Games" "ML")
       (addTagPopup "Games" "ML", downWorld) "Service unavailable"
       eq_refl)))))).
Defined.

(* ================================================================== *)
(** * Opening the edit form and typing in it *)
(* ================================================================== *)

Lemma no_member_nil {A : Type} (xs : list A) :
  (forall x, ~ In x xs) -> xs = [].
Proof.
  destruct xs as [|x xs]; [reflexivity|]. intros H. exfalso.
  apply (H x). now left.
Qed.

Lemma openEditForm_selectedTags (demo : DemoItem.t) (s : AdminState.t)
    (tagId : string) :
  In tagId (AdminState.selectedTags (AdminInterface.openEditForm (Some demo) s))
  <-> Spec.carries (AdminState.demoTags s) demo tagId.
Proof.
  unfold AdminInterface.openEditForm, Spec.carries. cbv zeta.
  assert (E : forall x,
    AdminState.selectedTags
      (AdminState.setIsFormOpen (fun _ => true)
         (if JS.truthy (DemoItem.id demo)
          then AdminState.setEditingId (fun _ => Some (DemoItem.id demo)) x
          else x))
    = AdminState.selectedTags x).
  { intros x. now destruct (JS.truthy (DemoItem.id demo)). }
  rewrite E. simpl. rewrite in_map_iff. split.
  - intros (dt & Ht & Hin). apply filter_In in Hin. destruct Hin as [Hin Hd].
    apply String.eqb_eq in Hd. now exists dt.
  - intros (dt & Hin & Hd & Ht). exists dt. split; [exact Ht|].
    apply filter_In. split; [exact Hin | now apply String.eqb_eq].
Qed.

(** X19. The Edit button of the card of a demo with an id opens the
    form for editing that demo, with exactly the tags selected that
    the enriched relationships give the demo: the demo passes a tag
    filter if and only if every tag of the filter is selected in its
    edit form.  A demo without enriched relationships therefore opens
    a form that validation refuses as it stands, as does a demo
    without a project name.  On a card whose demo has no id the
    button does nothing. *)
Theorem X19_edit_form_reflects_demo :
  forall (demo : DemoItem.t) (s : AdminState.t),
    let s' := AdminInterface.editClicked demo s in
    (DemoItem.id demo = "" -> s' = s) /\
    (DemoItem.id demo <> "" ->
     AdminInterface.formMode s' = AdminInterface.OpenForEdit (DemoItem.id demo) /\
     (forall tagId,
        In tagId (AdminState.selectedTags s')
        <-> Spec.carries (AdminState.demoTags s) demo tagId) /\
     (forall selected,
        (forall tagId, In tagId selected ->
                       In tagId (AdminState.selectedTags s'))
        <-> In demo
              (Projector.getFilteredDemos [demo] (AdminState.demoTags s) ""
                 selected)) /\
     ((forall tagId, ~ Spec.carries (AdminState.demoTags s) demo tagId) ->
      formIncomplete s') /\
     (DemoItem.projectName demo = None -> formIncomplete s')).
Proof.
  intros demo s s'. subst s'. unfold AdminInterface.editClicked. split.
  - intros ->. reflexivity.
  - intros Hid. rewrite (proj2 (truthy_true_iff _) Hid).
    pose proof (openEditForm_selectedTags demo s) as Hsel.
    split; [|split; [exact Hsel|split; [|split]]].
    + unfold AdminInterface.openEditForm, AdminInterface.formMode.
      rewrite (proj2 (truthy_true_iff _) Hid). simpl.
      now rewrite (proj2 (truthy_true_iff _) Hid).
    + intros selected. rewrite getFilteredDemos_In. unfold Spec.passes.
      split.
      * intros H. split; [now left|]. split; [now left|].
        intros t Ht. apply Hsel. now apply H.
      * intros (_ & _ & H) t Ht. apply Hsel. now apply H.
    + intros Hnone. right. right. right. right.
      apply no_member_nil. intros t Ht. apply (Hnone t). now apply Hsel.
    + intros Hname. left. unfold AdminInterface.openEditForm.
      rewrite (proj2 (truthy_true_iff _) Hid). simpl. now rewrite Hname.
Qed.

(** X20. [handleChange] writes the typed value into the named field of
    the form and into no other, whatever the value; it clears the
    error flag of that field, also when the value is blank, and
    leaves the other flags, the selected tags and the editing id
    alone. *)
Theorem X20_handleChange_writes_one_field :
  forall (name : AdminInterface.Field) (value : string) (s : AdminState.t),
    let s' := AdminInterface.handleChange name value s in
    AdminInterface.fieldOf name (AdminState.formData s') = value /\
    (forall other,
       other <> name ->
       AdminInterface.fieldOf other (AdminState.formData s')
       = AdminInterface.fieldOf other (AdminState.formData s) /\
       AdminInterface.errorOf other (AdminState.formErrors s')
       = AdminInterface.errorOf other (AdminState.formErrors s)) /\
    AdminInterface.errorOf name (AdminState.formErrors s') = false /\
    FormErrors.tags (AdminState.formErrors s')
    = FormErrors.tags (AdminState.formErrors s) /\
    AdminState.selectedTags s' = AdminState.selectedTags s /\
    AdminState.editingId s' = AdminState.editingId s /\
    AdminState.isFormOpen s' = AdminState.isFormOpen s.
Proof.
  intros name value s s'. subst s'. unfold AdminInterface.handleChange.
  destruct (AdminInterface.errorOf name (AdminState.formErrors s)) eqn:E.
  - repeat split; try (now destruct name).
    + destruct name, other; simpl; congruence.
    + destruct name, other; simpl; congruence.
  - repeat split; try (now destruct name).
    + destruct name, other; simpl; congruence.
Qed.

(* ================================================================== *)
(** * Seeding the tags *)
(* ================================================================== *)

Section Seeding.

Import TagService.

Lemma seed_bind_inv {A B} (m : M A) (k : A -> M B) (st st' : Store)
    (o : Async.Outcome B) :
  bind m k st = (o, st') ->
  (exists a st1, m st = (Async.Returned a, st1) /\ k a st1 = (o, st')) \/
  (exists msg, m st = (Async.Thrown msg, st') /\ o = Async.Thrown msg).
Proof.
  unfold bind. destruct (m st) as [[a|msg] st1]; intros H.
  - left. now exists a, st1.
  - right. injection H as <- <-. now exists msg.
Qed.

(** A loop of creations appends the tags it got through, in order:
    all of them if it runs to its end, those before the rejected one
    otherwise. *)
Lemma seedAll_outcome (tags : list (string * string)) (st st' : Store)
    (o : Async.Outcome unit) :
  forEach tags (fun tag => tagCreate (fst tag) (snd tag)) st = (o, st') ->
  fst st' = fst st /\
  fault (snd st') = fault (snd st) /\
  newId (snd st') = newId (snd st) /\
  exists done,
    tagTable (snd st')
    = tagTable (snd st) ++
      seeded (newId (snd st)) (length (calls (snd st))) done /\
    match o with
    | Async.Returned _ =>
        done = tags /\
        length (calls (snd st')) = length (calls (snd st)) + length tags /\
        forall k, k < length tags ->
                  fault (snd st) (length (calls (snd st)) + k) = None
    | Async.Thrown msg =>
        exists rest, tags = done ++ rest /\ rest <> [] /\
        fault (snd st) (length (calls (snd st)) + length done) = Some msg
    end.
Proof.
  revert st. induction tags as [|tag tags IH]; intros st H.
  - simpl in H. unfold ret in H. injection H as <- <-.
    repeat split. exists []. simpl. rewrite app_nil_r.
    repeat split; [lia|]. intros k Hk. lia.
  - simpl in H. apply seed_bind_inv in H.
    destruct H as [([] & st1 & H1 & H2)|(msg & H1 & ->)].
    + unfold tagCreate in H1.
      destruct (fault (snd st) (length (calls (snd st)))) eqn:Hf;
        [discriminate|].
      injection H1 as <-. apply IH in H2. simpl in H2.
      destruct H2 as (Hs & Hfl & Hn & done & Ht & Ho).
      split; [exact Hs|]. split; [exact Hfl|]. split; [exact Hn|].
      rewrite length_app in Ht, Ho. simpl in Ht, Ho.
      rewrite Nat.add_1_r in Ht.
      exists (tag :: done). split.
      * rewrite Ht, <- app_assoc. reflexivity.
      * destruct o as [[]|msg].
        -- destruct Ho as (-> & Hlen & Hk). split; [reflexivity|].
           split; [simpl; lia|].
           intros [|k] Hlt; [now rewrite Nat.add_0_r|].
           specialize (Hk k). simpl in Hlt.
           replace (length (calls (snd st)) + S k)
             with (length (calls (snd st)) + 1 + k) by lia.
           apply Hk. lia.
        -- destruct Ho as (rest & -> & Hrest & Hfail).
           exists rest. split; [reflexivity|]. split; [exact Hrest|].
           simpl.
           replace (length (calls (snd st)) + S (length done))
             with (length (calls (snd st)) + 1 + length done) by lia.
           exact Hfail.
    + unfold tagCreate in H1.
      destruct (fault (snd st) (length (calls (snd st)))) eqn:Hf;
        [|discriminate].
      injection H1 as <- <-. simpl. repeat split.
      exists []. simpl. rewrite app_nil_r. split; [reflexivity|].
      exists (tag :: tags). split; [reflexivity|].
      split; [discriminate|]. now rewrite Nat.add_0_r.
Qed.

End Seeding.

Section SeedingPaths.

Import TagService.

Lemma seed_tryCatch_inv {A} (body : M A) (handler : string -> M A)
    (st st' : Store) (o : Async.Outcome A) :
  tryCatch body handler st = (o, st') ->
  (exists a, body st = (Async.Returned a, st') /\ o = Async.Returned a) \/
  (exists msg st1,
     body st = (Async.Thrown msg, st1) /\ handler msg st1 = (o, st')).
Proof.
  unfold tryCatch. destruct (body st) as [[a|msg] st1]; intros H.
  - left. injection H as <- <-. now exists a.
  - right. now exists msg, st1.
Qed.

(** A listing changes nothing but the log; it resolves to every
    record, unless the script rejects it. *)
Lemma tagList_outcome (st st' : Store)
    (o : Async.Outcome (option (list (option RawTag.t)))) :
  tagList st = (o, st') ->
  fst st' = fst st /\
  tagTable (snd st') = tagTable (snd st) /\
  calls (snd st') = calls (snd st) ++ [TagList] /\
  fault (snd st') = fault (snd st) /\
  newId (snd st') = newId (snd st) /\
  match o with
  | Async.Returned data =>
      data = Some (map asRawTag (tagTable (snd st))) /\
      fault (snd st) (length (calls (snd st))) = None
  | Async.Thrown msg =>
      fault (snd st) (length (calls (snd st))) = Some msg
  end.
Proof.
  unfold tagList.
  destruct (fault (snd st) (length (calls (snd st)))) eqn:Hf;
    intros H; injection H as <- <-; simpl; repeat split.
Qed.

(** What [initializeTags] leaves, whatever the script of the backend:
    it returns; the collection has gained a leading part of the
    predefined tags, and nothing unless it was empty; and the
    available tags are untouched or are the valid tags of the
    collection as it now is, the latter when no call was rejected. *)
Lemma initializeTags_outcome (s : AdminState.t) (w : World) (st' : Store)
    (o : Async.Outcome unit) :
  initializeTags (s, w) = (o, st') ->
  o = Async.Returned tt /\
  fault (snd st') = fault w /\
  newId (snd st') = newId w /\
  exists done rest,
    predefinedTags = done ++ rest /\
    tagTable (snd st')
    = tagTable w ++ seeded (newId w) (S (length (calls w))) done /\
    (tagTable w <> [] -> done = []) /\
    (AdminState.availableTags (fst st') = AdminState.availableTags s \/
     AdminState.availableTags (fst st')
     = Synchronizer.validTags (AdminInterface.tagColor 0)
         (map asRawTag (tagTable (snd st')))) /\
    ((forall k, fault w k = None) ->
     (tagTable w = [] -> rest = []) /\
     AdminState.availableTags (fst st')
     = Synchronizer.validTags (AdminInterface.tagColor 0)
         (map asRawTag (tagTable (snd st')))).
Proof.
  intros H. unfold initializeTags in H. apply seed_tryCatch_inv in H.
  assert (Hnone : forall (w' : World) (s' : AdminState.t),
    tagTable w' = tagTable w ->
    AdminState.availableTags s' = AdminState.availableTags s ->
    (exists k, fault w k <> None) ->
    exists done rest,
      predefinedTags = done ++ rest /\
      tagTable w'
      = tagTable w ++ seeded (newId w) (S (length (calls w))) done /\
      (tagTable w <> [] -> done = []) /\
      (AdminState.availableTags s' = AdminState.availableTags s \/
       AdminState.availableTags s'
       = Synchronizer.validTags (AdminInterface.tagColor 0)
           (map asRawTag (tagTable w'))) /\
      ((forall k, fault w k = None) ->
       (tagTable w = [] -> rest = []) /\
       AdminState.availableTags s'
       = Synchronizer.validTags (AdminInterface.tagColor 0)
           (map asRawTag (tagTable w')))).
  { intros w' s' Ht Hs (k & Hk). exists [], predefinedTags. simpl.
    rewrite app_nil_r. split; [reflexivity|]. split; [exact Ht|].
    split; [reflexivity|]. split; [now left|].
    intros Hq. exfalso. apply Hk. apply Hq. }
  destruct H as [([] & H & ->)|(msg & st2 & H & Hcatch)].
  - (* the [try] block ran to its end *)
    split; [reflexivity|].
    apply seed_bind_inv in H.
    destruct H as [(existing & st1 & Hl1 & H)|(m & _ & E)]; [|discriminate].
    apply tagList_outcome in Hl1. simpl in Hl1.
    destruct Hl1 as (Hs1 & Ht1 & Hc1 & Hf1 & Hn1 & -> & Hq0).
    apply seed_bind_inv in H.
    destruct H as [([] & st3 & Hseed & H)|(m & _ & E)]; [|discriminate].
    apply seed_bind_inv in H.
    destruct H as [(all & st4 & Hl2 & H)|(m & _ & E)]; [|discriminate].
    apply tagList_outcome in Hl2.
    destruct Hl2 as (Hs4 & Ht4 & Hc4 & Hf4 & Hn4 & -> & Hq4).
    unfold set in H. injection H as <-. simpl.
    rewrite length_map in Hseed.
    destruct (tagTable w) as [|t ts] eqn:Htable.
    + cbn [length Nat.eqb] in Hseed. apply seed_bind_inv in Hseed.
      destruct Hseed as [([] & st2 & Hloop & Hset)|(m & _ & E)];
        [|discriminate].
      apply seedAll_outcome in Hloop.
      destruct Hloop as (Hs2 & Hf2 & Hn2 & done & Ht2 & -> & _).
      unfold set in Hset. injection Hset as <-. cbn [fst snd] in *.
      rewrite Hc1, length_app, Hn1, Ht1 in Ht2. cbn [length app] in Ht2.
      rewrite Nat.add_1_r in Ht2.
      split; [congruence|]. split; [congruence|].
      exists predefinedTags, []. split; [reflexivity|].
      cbn [app]. split; [congruence|]. split; [intros Hne; now elim Hne|].
      rewrite Ht4. split; [now right|]. intros _. split; reflexivity.
    + cbn [length Nat.eqb] in Hseed. unfold ret in Hseed. injection Hseed as <-.
      split; [congruence|]. split; [congruence|].
      exists [], predefinedTags. simpl. rewrite app_nil_r.
      split; [reflexivity|]. split; [congruence|].
      split; [reflexivity|]. rewrite Ht4. split; [now right|].
      intros _. split; [discriminate | reflexivity].
  - (* an exception reached the [catch] block *)
    unfold set in Hcatch. injection Hcatch as <- <-.
    split; [reflexivity|]. simpl.
    apply seed_bind_inv in H.
    destruct H as [(existing & st1 & Hl1 & H)|(m & Hl1 & E)].
    2:{ apply tagList_outcome in Hl1. simpl in Hl1.
        destruct Hl1 as (Hs1 & Ht1 & _ & Hf1 & Hn1 & Hq).
        split; [exact Hf1|]. split; [exact Hn1|].
        apply Hnone; [exact Ht1 | now rewrite Hs1 |].
        eexists. rewrite Hq. discriminate. }
    apply tagList_outcome in Hl1. simpl in Hl1.
    destruct Hl1 as (Hs1 & Ht1 & Hc1 & Hf1 & Hn1 & -> & Hq0).
    apply seed_bind_inv in H.
    destruct H as [([] & st3 & Hseed & H)|(m & Hseed & E)].
    + (* the second listing is rejected *)
      apply seed_bind_inv in H.
      destruct H as [(all & st4 & Hl2 & H)|(m & Hl2 & E)].
      { exfalso. destruct all; unfold set, ret in H; discriminate. }
      apply tagList_outcome in Hl2.
      destruct Hl2 as (Hs4 & Ht4 & Hc4 & Hf4 & Hn4 & Hq4).
      rewrite length_map in Hseed.
      destruct (tagTable w) as [|t ts] eqn:Htable.
      * cbn [length Nat.eqb] in Hseed. apply seed_bind_inv in Hseed.
        destruct Hseed as [([] & st5 & Hloop & Hset)|(m' & _ & E')];
          [|discriminate].
        apply seedAll_outcome in Hloop.
        destruct Hloop as (Hs5 & Hf5 & Hn5 & done & Ht5 & -> & Hlen & _).
        unfold set in Hset. injection Hset as <-. cbn [fst snd] in *.
        rewrite Hc1, length_app, Hn1, Ht1 in Ht5. cbn [length app] in Ht5.
        rewrite Nat.add_1_r in Ht5.
        split; [congruence|]. split; [congruence|].
        exists predefinedTags, []. split; [reflexivity|].
        cbn [app]. split; [congruence|]. split; [intros Hne; now elim Hne|].
        rewrite Hs4. simpl. rewrite Hs5, Hs1.
        split; [now left|]. intros Hquiet. exfalso.
        rewrite Hf5, Hf1, Hquiet in Hq4. discriminate.
      * cbn [length Nat.eqb] in Hseed. unfold ret in Hseed. injection Hseed as <-.
        split; [congruence|]. split; [congruence|].
        exists [], predefinedTags. simpl. rewrite app_nil_r.
        split; [reflexivity|]. split; [congruence|].
        split; [reflexivity|]. rewrite Hs4, Hs1.
        split; [now left|]. intros Hquiet. exfalso.
        rewrite Hf1, Hquiet in Hq4. discriminate.
    + (* a creation is rejected *)
      rewrite length_map in Hseed.
      destruct (tagTable w) as [|t ts] eqn:Htable.
      2:{ cbn [length Nat.eqb] in Hseed. discriminate. }
      cbn [length Nat.eqb] in Hseed. apply seed_bind_inv in Hseed.
      destruct Hseed as [([] & st5 & _ & Hset)|(m' & Hloop & E')];
        [discriminate|].
      apply seedAll_outcome in Hloop.
      destruct Hloop as (Hs5 & Hf5 & Hn5 & done & Ht5 & rest & Hsplit
                         & Hrest & Hfail).
      rewrite Hc1, length_app, Hn1, Ht1 in Ht5. cbn [length app] in Ht5.
      rewrite Nat.add_1_r in Ht5.
      split; [congruence|]. split; [congruence|].
      exists done, rest. split; [exact Hsplit|].
      cbn [app]. split; [exact Ht5|]. split; [intros Hne; now elim Hne|].
      rewrite Hs5, Hs1. split; [now left|]. intros Hquiet. exfalso.
      rewrite Hf1, Hquiet in Hfail. discriminate.
Qed.

End SeedingPaths.

Section SeedingFacts.

Import TagService.

(** X21. [initializeTags] never lets an exception escape and only
    ever appends to the tag collection a leading part of the five
    predefined tags, in their order; when the collection already
    holds a record it appends nothing, so a seeding that was cut
    short by a rejected creation is not completed by a later run.
    The available tags are left as they were or become the valid
    tags of the collection as it is after the run. *)
Theorem X21_seeding_appends_a_prefix :
  forall (s : AdminState.t) (w : World),
    let out := initializeTags (s, w) in
    fst out = Async.Returned tt /\
    exists done rest,
      predefinedTags = done ++ rest /\
      tagTable (snd (snd out))
      = tagTable w ++ seeded (newId w) (S (length (calls w))) done /\
      (tagTable w <> [] -> done = []) /\
      (AdminState.availableTags (fst (snd out)) = AdminState.availableTags s \/
       AdminState.availableTags (fst (snd out))
       = Synchronizer.validTags (AdminInterface.tagColor 0)
           (map asRawTag (tagTable (snd (snd out))))).
Proof.
  intros s w out. subst out.
  destruct (initializeTags (s, w)) as [o st'] eqn:E.
  apply initializeTags_outcome in E.
  destruct E as (-> & _ & _ & done & rest & H1 & H2 & H3 & H4 & _).
  split; [reflexivity|]. now exists done, rest.
Qed.

(** X22. Where no call is rejected, [initializeTags] leaves a
    collection that held records as it was and fills an empty one
    with the five predefined tags; either way the available tags
    become the valid tags of the collection, and a second run changes
    neither the collection nor the available tags. *)
Theorem X22_seeding_happens_once :
  forall (s : AdminState.t) (w : World),
    (forall k, fault w k = None) ->
    let out := initializeTags (s, w) in
    let again := initializeTags (snd out) in
    tagTable (snd (snd out))
    = match tagTable w with
      | [] => seeded (newId w) (S (length (calls w))) predefinedTags
      | _ => tagTable w
      end /\
    AdminState.availableTags (fst (snd out))
    = Synchronizer.validTags (AdminInterface.tagColor 0)
        (map asRawTag (tagTable (snd (snd out)))) /\
    tagTable (snd (snd again)) = tagTable (snd (snd out)) /\
    AdminState.availableTags (fst (snd again))
    = AdminState.availableTags (fst (snd out)).
Proof.
  intros s w Hquiet out again. subst again out.
  destruct (initializeTags (s, w)) as [o [s1 w1]] eqn:E1.
  apply initializeTags_outcome in E1. cbn [fst snd] in *.
  destruct E1 as (_ & Hf1 & _ & done & rest & Hsplit & Ht1 & Hne1 & _ & Hq1).
  destruct (Hq1 Hquiet) as [Hrest Ha1].
  assert (Htable : tagTable w1
                   = match tagTable w with
                     | [] => seeded (newId w) (S (length (calls w)))
                               predefinedTags
                     | _ => tagTable w
                     end).
  { destruct (tagTable w) as [|t ts] eqn:Htable.
    - rewrite (Hrest eq_refl), app_nil_r in Hsplit. now subst done.
    - rewrite Ht1, Hne1 by discriminate. simpl. now rewrite app_nil_r. }
  split; [exact Htable|]. split; [exact Ha1|].
  destruct (initializeTags (s1, w1)) as [o2 [s2 w2]] eqn:E2.
  apply initializeTags_outcome in E2. cbn [fst snd] in *.
  destruct E2 as (_ & _ & _ & done2 & rest2 & _ & Ht2 & Hne2 & _ & Hq2).
  assert (Hnonempty : tagTable w1 <> []).
  { rewrite Htable. destruct (tagTable w); discriminate. }
  assert (Hsame : tagTable w2 = tagTable w1).
  { rewrite Ht2, (Hne2 Hnonempty). simpl. now rewrite app_nil_r. }
  split; [exact Hsame|].
  destruct Hq2 as [_ Ha2]; [intros k; rewrite Hf1; apply Hquiet|].
  now rewrite Ha2, Hsame, Ha1.
Qed.

Lemma validTags_of_complete (fallback : string) (tags : list TagItem.t) :
  Forall (fun tag =>
            TagItem.id tag <> "" /\ TagItem.name tag <> "" /\
            TagItem.color tag <> "") tags ->
  Synchronizer.validTags fallback (map asRawTag tags) = tags.
Proof.
  unfold Synchronizer.validTags, Synchronizer.validTagFilter.
  induction 1 as [|[id name color] tags (Hid & Hname & Hcolor) _ IH];
    [reflexivity|].
  simpl in Hid, Hname, Hcolor.
  cbn [map asRawTag filter Synchronizer.isValidTag TagItem.id TagItem.name
       TagItem.color RawTag.id RawTag.name JS.truthyField].
  rewrite (proj2 (truthy_true_iff id) Hid),
          (proj2 (truthy_true_iff name) Hname).
  cbn [andb map]. rewrite IH. f_equal.
  unfold Synchronizer.toTagItem, asRawTag.
  cbn [RawTag.id RawTag.name RawTag.color TagItem.id TagItem.name
       TagItem.color].
  now rewrite !orElse_Some_truthy by assumption.
Qed.

(** X23. After [initializeTags] has seeded an empty collection, no
    call being rejected and the new identities not being empty, the
    available tags are the five predefined tags; the next colour the
    allocator gives is the sixth of the palette; and the add-tag
    popup rejects each predefined name in any case and with white
    space around it. *)
Theorem X23_seeded_tags_and_the_allocator :
  forall (s : AdminState.t) (w : World),
    tagTable w = [] ->
    (forall k, fault w k = None) ->
    (forall k, k < 5 -> newId w (S (length (calls w)) + k) <> "") ->
    let s' := fst (snd (initializeTags (s, w))) in
    AdminState.availableTags s'
    = seeded (newId w) (S (length (calls w))) predefinedTags /\
    AdminInterface.getNextAvailableColor s' = AdminInterface.tagColor 5 /\
    (forall proposed st,
       In (JS.toLowerCase (JS.trim proposed))
          ["games"; "ml"; "analytics"; "m&e"; "generative ai"] ->
       fst (AdminInterface.handleAddTag
              (AdminState.setNewTagName (fun _ => proposed) s') st)
       = Async.Returned AdminInterface.Invalid).
Proof.
  intros s w Hempty Hquiet Hids s'.
  assert (Ha : AdminState.availableTags s'
               = seeded (newId w) (S (length (calls w))) predefinedTags).
  { subst s'. destruct (initializeTags (s, w)) as [o [s1 w1]] eqn:E.
    apply initializeTags_outcome in E. cbn [fst snd] in *.
    destruct E as (_ & _ & _ & done & rest & Hsplit & Ht & _ & _ & Hq).
    destruct (Hq Hquiet) as [Hrest ->].
    rewrite (Hrest Hempty), app_nil_r in Hsplit. subst done.
    rewrite Ht, Hempty. cbn [app]. apply validTags_of_complete.
    repeat constructor; simpl; try discriminate.
    - replace (S (length (calls w))) with (S (length (calls w)) + 0)
        by lia. apply Hids; lia.
    - replace (S (S (length (calls w)))) with (S (length (calls w)) + 1)
        by lia. apply Hids; lia.
    - replace (S (S (S (length (calls w)))))
        with (S (length (calls w)) + 2) by lia. apply Hids; lia.
    - replace (S (S (S (S (length (calls w))))))
        with (S (length (calls w)) + 3) by lia. apply Hids; lia.
    - replace (S (S (S (S (S (length (calls w)))))))
        with (S (length (calls w)) + 4) by lia. apply Hids; lia. }
  split; [exact Ha|]. split.
  - unfold AdminInterface.getNextAvailableColor. rewrite Ha. reflexivity.
  - intros proposed st Hin.
    assert (Htaken : Spec.nameTaken (AdminState.availableTags s') proposed).
    { apply nameTaken_lowerNames. rewrite Ha. exact Hin. }
    destruct (AdminInterface.handleAddTag
                (AdminState.setNewTagName (fun _ => proposed) s') st)
      as [o st'] eqn:E.
    apply handleAddTag_paths in E. cbv zeta in E. simpl.
    destruct E as [(_ & -> & _)
                  |[(_ & _ & -> & _)
                   |[(_ & Hfree & _)
                    |(_ & Hfree & _)]]];
      try reflexivity; exfalso; apply Hfree; exact Htaken.
Qed.

End SeedingFacts.

Lemma X22_witness_empty :
  map TagItem.name
    (TagService.tagTable
       (snd (snd (TagService.initializeTags
                    (adminWithTags [], emptyTagWorld)))))
  = ["Games"; "ML"; "Analytics"; "M&E"; "Generative AI"].
Proof.
  rewrite (proj1 (X22_seeding_happens_once (adminWithTags []) emptyTagWorld
                    (fun _ => eq_refl))).
  reflexivity.
Defined.

Lemma X23_witness_empty :
  AdminInterface.getNextAvailableColor
    (fst (snd (TagService.initializeTags (adminWithTags [], emptyTagWorld))))
  = "#1abc9c".
Proof.
  assert (Hids : forall k, k < 5 ->
            TagService.newId emptyTagWorld
              (S (length (TagService.calls emptyTagWorld)) + k) <> "")
    by (intros k _; discriminate).
  exact (proj1 (proj2
    (X23_seeded_tags_and_the_allocator (adminWithTags []) emptyTagWorld
       eq_refl (fun _ => eq_refl) Hids))).
Defined.

(** The third creation is rejected: two tags are seeded, the
    available tags stay empty, and a second run on a backend that has
    recovered leaves the other three predefined tags out. *)
Example seeding_cut_short :
  let first := TagService.initializeTags
                 (adminWithTags [], stumblingTagWorld) in
  let second := TagService.initializeTags (snd first) in
  map TagItem.name (TagService.tagTable (snd (snd first)))
  = ["Games"; "ML"] /\
  AdminState.availableTags (fst (snd first)) = [] /\
  map TagItem.name (TagService.tagTable (snd (snd second)))
  = ["Games"; "ML"] /\
  map TagItem.name (AdminState.availableTags (fst (snd second)))
  = ["Games"; "ML"].
Proof. repeat split. Qed.
